(** * Skelly pose editor: bone-selection synchronisation

  A shallow embedding of [FPoseEditor] (Source/Skelly/Private/SkellyPoseEditor.cpp):
  the controller that keeps the skeleton tree, the 3D viewport and the details
  panel of the pose editor in agreement about which bones are selected.

  The controller is glue over the hosting engine.  What the engine does is
  kept abstract (class [Engine]); what the controller does is written out
  statement by statement in a state-and-fault monad over the controller's
  fields. *)

From stdpp Require Import base numbers list strings option.

Local Open Scope Z_scope.

(** ** Basic engine data *)

Definition FName := string.
Definition NAME_None : FName := "None"%string.

(** [int32], with the engine's "no such index" value.  The only arithmetic on
    it here is the loop counter of [SetSelectedBoneNames], which stays below the
    length of an array. *)
Definition int32 := Z.
Definition INDEX_NONE : int32 := -1.

(** [TArray<T>]: the operations the controller uses.  [operator[]] is range
  checked by the engine; an index outside [0, Num) has no element. *)
Module TArray.
Definition Num {A} (a : list A) : int32 := Z.of_nat (length a).

Definition IsValidIndex {A} (a : list A) (i : int32) : bool :=
  (0 <=? i) && (i <? Num a).

Definition get {A} (a : list A) (i : int32) : option A :=
  if IsValidIndex a i then a !! Z.to_nat i else None.

Definition set {A} (a : list A) (i : int32) (x : A) : option (list A) :=
  if IsValidIndex a i then Some (<[Z.to_nat i := x]> a) else None.

(** [Empty(Slack)] drops every element (the slack only reserves memory). *)
Definition Empty {A} (slack : int32) (a : list A) : list A := [].

(** [AddUninitialized(Count)] appends [Count] elements whose contents are
    whatever the allocator left there ([fresh k] for the slot at position [k]). *)
Definition AddUninitialized {A} (fresh : nat -> A) (count : int32) (a : list A) : list A :=
  a ++ (fresh <$> seq (length a) (Z.to_nat count)).

Definition Add {A} (x : A) (a : list A) : list A := a ++ [x].
End TArray.

(** Vector, quaternion and rotator types of the engine's math library, with the
  one conversion the controller calls ([FRotator::Quaternion]). *)
Class EngineMath := {
  FVector : Type;
  FQuat : Type;
  FRotator : Type;
  Quaternion : FRotator -> FQuat;
  FQuat_Identity : FQuat;
  FVector_ZeroVector : FVector;
  FVector_OneVector : FVector;
}.

Section Objects.
Context `{EngineMath}.

Record FTransform := {
  FTransform_Rotation : FQuat;
  FTransform_Translation : FVector;
  FTransform_Scale3D : FVector;
}.

(** [FTransform::SetComponents(Rotation, Translation, Scale3D)]. *)
Definition SetComponents (q : FQuat) (t s : FVector) (_ : FTransform) : FTransform :=
  {| FTransform_Rotation := q; FTransform_Translation := t; FTransform_Scale3D := s |}.

Definition FTransform_Identity : FTransform :=
  {| FTransform_Rotation := FQuat_Identity;
     FTransform_Translation := FVector_ZeroVector;
     FTransform_Scale3D := FVector_OneVector |}.

Record FMeshBoneInfo := {
  Name : FName;
  ParentIndex : int32;
}.

Record FReferenceSkeleton := {
  RefBoneInfo : list FMeshBoneInfo;
  RefBonePose : list FTransform;
}.

Definition GetRefBonePose (r : FReferenceSkeleton) : list FTransform := RefBonePose r.

(** A skeletal mesh asset.  Assets are read-only here; [UniqueID] stands for the
    object's identity, which is what comparing two [USkeletalMesh*] compares. *)
Record USkeletalMesh := {
  UniqueID : N;
  RefSkeleton : FReferenceSkeleton;
}.

Definition BoneNames (m : USkeletalMesh) : list FName :=
  Name <$> RefBoneInfo (RefSkeleton m).

(** Pointer comparison [a != b] on [USkeletalMesh*]. *)
Definition mesh_ptr_neq (a b : option USkeletalMesh) : bool :=
  match a, b with
  | None, None => false
  | Some x, Some y => negb (UniqueID x =? UniqueID y)%N
  | _, _ => true
  end.

(** A bone override held by the preview animation instance. *)
Record FAnimNode_ModifyBone := {
  BoneToModify : FName;
  Translation : FVector;
  Rotation : FRotator;
  Scale : FVector;
}.

Record UAnimPreviewInstance := {
  BoneControllers : list FAnimNode_ModifyBone;
}.

(** The preview component: the fields the controller reads and writes. *)
Record UDebugSkelMeshComponent := {
  SkeletalMesh : option USkeletalMesh;
  BonesOfInterest : list int32;
  PreviewInstance : option UAnimPreviewInstance;
}.

Definition set_BonesOfInterest (b : list int32) (c : UDebugSkelMeshComponent) :=
  {| SkeletalMesh := SkeletalMesh c; BonesOfInterest := b;
     PreviewInstance := PreviewInstance c |}.

(** [USkellyBone], the object the details panel edits (SkellyBone.h declares
    the three properties assigned in [GetDetailsViewSourceObject]). *)
Record USkellyBone := {
  BoneName : FName;
  ParentBoneName : FName;
  BoneTransform : FTransform;
}.

Definition set_BoneName (n : FName) (b : USkellyBone) :=
  {| BoneName := n; ParentBoneName := ParentBoneName b; BoneTransform := BoneTransform b |}.
Definition set_ParentBoneName (n : FName) (b : USkellyBone) :=
  {| BoneName := BoneName b; ParentBoneName := n; BoneTransform := BoneTransform b |}.
Definition modify_BoneTransform (f : FTransform -> FTransform) (b : USkellyBone) :=
  {| BoneName := BoneName b; ParentBoneName := ParentBoneName b;
     BoneTransform := f (BoneTransform b) |}.
End Objects.

(** The two engine objects the controller owns and hands out pointers to.  A
  holder of such a pointer sees the object as it currently is in the
  controller's state. *)
Inductive UObjectRef := PreviewComponentRef | DetailsViewBoneRef.

(** The engine operations the controller calls.  None of them is code of this
  repository. *)
Class Engine `{EngineMath} := {
  USkeleton : Type;
  (** [USkeleton::IsCompatibleMesh]. *)
  IsCompatibleMesh : USkeleton -> USkeletalMesh -> bool;
  (** [USkinnedMeshComponent::GetBoneIndex], [GetBoneName], [GetParentBone]. *)
  GetBoneIndex : UDebugSkelMeshComponent -> FName -> int32;
  GetBoneName : UDebugSkelMeshComponent -> int32 -> FName;
  GetParentBone : UDebugSkelMeshComponent -> FName -> FName;
  (** [SetSkeletalMesh] and [InitAnim] of the preview component. *)
  SetSkeletalMesh : USkeletalMesh -> UDebugSkelMeshComponent -> UDebugSkelMeshComponent;
  InitAnim : bool -> UDebugSkelMeshComponent -> UDebugSkelMeshComponent;
  (** [UAnimPreviewInstance::FindModifiedBone]: null when the bone has no override. *)
  FindModifiedBone : UAnimPreviewInstance -> FName -> option FAnimNode_ModifyBone;
  (** [FPreviewScene::AddComponent]. *)
  FPreviewScene : Type;
  AddComponent : UObjectRef -> FTransform -> FPreviewScene -> FPreviewScene;
  (** The viewport widget and its redraw request. *)
  SPoseEditorViewport : Type;
  Refresh : SPoseEditorViewport -> SPoseEditorViewport;
  (** Contents of array storage that was allocated but not yet written. *)
  UninitializedSlot : nat -> int32;
}.

(** ** The panels

    The three panels are collaborators of the controller; their code is not part
    of the controller's translation unit. *)

(** The notifications a panel sends to the controller. *)
Inductive Notification := TreeSelectionChanged | ViewportSelectionChanged.

(** Modelled from the spec: SSkeletonTree (SSkellySkeletonTree.h) is consumed
    only through [getSelectedBoneNames() -> set<Name>] and
    [setSelectedBoneNames(set<Name>)], and emits a "selection changed"
    notification when the user changes its selection; a "set selection" call
    made by the controller does not re-raise it.  [TreeNotifications] counts the
    notifications the tree has emitted. *)
Record SSkeletonTree := {
  TreeSelection : list FName;
  TreeNotifications : nat;
}.

Definition SSkeletonTree_GetSelectedBoneNames (t : SSkeletonTree)
  (outBoneNames : list FName) : list FName :=
  TreeSelection t.

Definition SSkeletonTree_SetSelectedBoneNames (inBoneNames : list FName)
  (t : SSkeletonTree) : SSkeletonTree :=
  {| TreeSelection := inBoneNames; TreeNotifications := TreeNotifications t |}.

(** Modelled from the spec: the user picks bones in the tree; the tree records
    the selection and emits its notification. *)
Definition SSkeletonTree_UserSelect (names : list FName) (t : SSkeletonTree) : SSkeletonTree :=
  {| TreeSelection := names; TreeNotifications := S (TreeNotifications t) |}.

(** Modelled from the spec: the details panel is consumed only through
    [setBoundObject(object|none)]. *)
Record IDetailsView := {
  BoundObject : option UObjectRef;
}.

Definition IDetailsView_SetObject (obj : option UObjectRef) (bForceRefresh : bool)
  (d : IDetailsView) : IDetailsView :=
  {| BoundObject := obj |}.

(** Modelled from the spec: FPoseEditorViewportClient
    (SkellyPoseEditorViewportClient.h) is informed of the preview component and
    emits a "selection changed" notification when the user picks bones in 3D.
    [ViewportNotifications] counts the notifications it has emitted. *)
Record FPoseEditorViewportClient := {
  ClientPreviewComponent : option UObjectRef;
  ViewportNotifications : nat;
}.

Definition SetSkeletalMeshPreviewComponent (c : option UObjectRef)
  (v : FPoseEditorViewportClient) : FPoseEditorViewportClient :=
  {| ClientPreviewComponent := c; ViewportNotifications := ViewportNotifications v |}.

Definition FPoseEditorViewportClient_Notify (v : FPoseEditorViewportClient) :=
  {| ClientPreviewComponent := ClientPreviewComponent v;
     ViewportNotifications := S (ViewportNotifications v) |}.

(** ** The controller's state *)

Section Controller.
Context `{Engine}.

(** Modelled from the spec: a pose identifies a skeleton (USkellyPose,
    PoseAsset/SkellyPose.h); [GetSkeleton] may return null. *)
Record USkellyPose := {
  GetSkeleton : option USkeleton;
}.

(** The fields of [FPoseEditor] that the selection and preview code touches.
    A null pointer (or an invalid shared or weak pointer) is [None]. *)
Record FPoseEditor := {
  _currentPose : option USkellyPose;
  _skeletalMeshPreviewComponent : option UDebugSkelMeshComponent;
  _detailsViewBone : option USkellyBone;
  _skeletonTree : option SSkeletonTree;
  _viewport : option SPoseEditorViewport;
  _viewportClientWeakPtr : option FPoseEditorViewportClient;
  _detailsView : option IDetailsView;
  _previewScene : FPreviewScene;
}.

Definition set_skeletalMeshPreviewComponent (c : option UDebugSkelMeshComponent) (e : FPoseEditor) :=
  {| _currentPose := _currentPose e; _skeletalMeshPreviewComponent := c;
     _detailsViewBone := _detailsViewBone e; _skeletonTree := _skeletonTree e;
     _viewport := _viewport e; _viewportClientWeakPtr := _viewportClientWeakPtr e;
     _detailsView := _detailsView e; _previewScene := _previewScene e |}.

Definition set_detailsViewBone (b : option USkellyBone) (e : FPoseEditor) :=
  {| _currentPose := _currentPose e;
     _skeletalMeshPreviewComponent := _skeletalMeshPreviewComponent e;
     _detailsViewBone := b; _skeletonTree := _skeletonTree e;
     _viewport := _viewport e; _viewportClientWeakPtr := _viewportClientWeakPtr e;
     _detailsView := _detailsView e; _previewScene := _previewScene e |}.

Definition set_skeletonTree (t : option SSkeletonTree) (e : FPoseEditor) :=
  {| _currentPose := _currentPose e;
     _skeletalMeshPreviewComponent := _skeletalMeshPreviewComponent e;
     _detailsViewBone := _detailsViewBone e; _skeletonTree := t;
     _viewport := _viewport e; _viewportClientWeakPtr := _viewportClientWeakPtr e;
     _detailsView := _detailsView e; _previewScene := _previewScene e |}.

Definition set_viewport (v : option SPoseEditorViewport) (e : FPoseEditor) :=
  {| _currentPose := _currentPose e;
     _skeletalMeshPreviewComponent := _skeletalMeshPreviewComponent e;
     _detailsViewBone := _detailsViewBone e; _skeletonTree := _skeletonTree e;
     _viewport := v; _viewportClientWeakPtr := _viewportClientWeakPtr e;
     _detailsView := _detailsView e; _previewScene := _previewScene e |}.

Definition set_viewportClient (v : option FPoseEditorViewportClient) (e : FPoseEditor) :=
  {| _currentPose := _currentPose e;
     _skeletalMeshPreviewComponent := _skeletalMeshPreviewComponent e;
     _detailsViewBone := _detailsViewBone e; _skeletonTree := _skeletonTree e;
     _viewport := _viewport e; _viewportClientWeakPtr := v;
     _detailsView := _detailsView e; _previewScene := _previewScene e |}.

Definition set_detailsView (d : option IDetailsView) (e : FPoseEditor) :=
  {| _currentPose := _currentPose e;
     _skeletalMeshPreviewComponent := _skeletalMeshPreviewComponent e;
     _detailsViewBone := _detailsViewBone e; _skeletonTree := _skeletonTree e;
     _viewport := _viewport e; _viewportClientWeakPtr := _viewportClientWeakPtr e;
     _detailsView := d; _previewScene := _previewScene e |}.

Definition set_previewScene (s : FPreviewScene) (e : FPoseEditor) :=
  {| _currentPose := _currentPose e;
     _skeletalMeshPreviewComponent := _skeletalMeshPreviewComponent e;
     _detailsViewBone := _detailsViewBone e; _skeletonTree := _skeletonTree e;
     _viewport := _viewport e; _viewportClientWeakPtr := _viewportClientWeakPtr e;
     _detailsView := _detailsView e; _previewScene := s |}.

(** ** State and faults

    A member function either returns a value and leaves a new controller state,
    or stops the editor: a failed [check], a null pointer that is dereferenced,
    an array index out of range. *)
Inductive Fault := CheckFailed | NullDereference | IndexOutOfRange.

Inductive Outcome (A : Type) :=
| Ok (a : A) (e : FPoseEditor)
| Crash (f : Fault).
Arguments Ok {A} a e.
Arguments Crash {A} f.

Definition M (A : Type) := FPoseEditor -> Outcome A.

Definition ret {A} (a : A) : M A := fun e => Ok a e.

Definition bind {A B} (m : M A) (k : A -> M B) : M B :=
  fun e => match m e with
           | Ok a e' => k a e'
           | Crash f => Crash f
           end.

Definition fail {A} (f : Fault) : M A := fun _ => Crash f.

(** Read a field of [this]. *)
Definition this {A} (field : FPoseEditor -> A) : M A := fun e => Ok (field e) e.

(** Write [this] through a setter. *)
Definition assign (upd : FPoseEditor -> FPoseEditor) : M unit := fun e => Ok tt (upd e).

(** [p->...]: the object behind a pointer, or a fault when it is null. *)
Definition deref {A} (p : option A) : M A :=
  match p with Some a => ret a | None => fail NullDereference end.

(** [check(p)]. *)
Definition check {A} (p : option A) : M A :=
  match p with Some a => ret a | None => fail CheckFailed end.

(** [a[i]] read. *)
Definition index {A} (a : list A) (i : int32) : M A :=
  match TArray.get a i with Some x => ret x | None => fail IndexOutOfRange end.
End Controller.

Arguments Ok {_ _ A} a e.
Arguments Crash {_ _ A} f.

Notation "'let*' x ':=' m 'in' k" := (bind m (fun x => k))
  (at level 10, x name, m at level 100, k at level 200).
Notation "m ';;;' k" := (bind m (fun _ => k))
  (at level 100, k at level 200, right associativity).

(** ** The member functions of [FPoseEditor] *)

Section MemberFunctions.
Context `{Engine}.

(** [for (int32 i = from; i < from + count; ++i) body(i)]. *)
Fixpoint for_range (count : nat) (i : int32) (body : int32 -> M unit) : M unit :=
  match count with
  | O => ret tt
  | S n => body i ;;; for_range n (i + 1) body
  end.

(** [for (int32 i = 0; i < n; ++i) body(i)]. *)
Definition for_upto (n : int32) (body : int32 -> M unit) : M unit :=
  for_range (Z.to_nat n) 0 body.

(** [_skeletalMeshPreviewComponent->BonesOfInterest.f(...)] for a mutating [f]. *)
Definition BonesOfInterest_do (f : list int32 -> list int32) : M unit :=
  let* p := this _skeletalMeshPreviewComponent in
  let* c := deref p in
  assign (set_skeletalMeshPreviewComponent (Some (set_BonesOfInterest (f (BonesOfInterest c)) c))).

(** [_skeletalMeshPreviewComponent->BonesOfInterest[i] = v]. *)
Definition BonesOfInterest_store (i : int32) (v : int32) : M unit :=
  let* p := this _skeletalMeshPreviewComponent in
  let* c := deref p in
  match TArray.set (BonesOfInterest c) i v with
  | Some a => assign (set_skeletalMeshPreviewComponent (Some (set_BonesOfInterest a c)))
  | None => fail IndexOutOfRange
  end.

(** The body of the loop of [SetSelectedBoneNames] (lines 336-337):
    [BonesOfInterest[i] = GetBoneIndex(inBoneNames[i])]. *)
Definition store_index (inBoneNames : list FName) (i : int32) : M unit :=
  let* name := index inBoneNames i in
  let* q := this _skeletalMeshPreviewComponent in
  let* c := deref q in
  BonesOfInterest_store i (GetBoneIndex c name).

(** [FPoseEditor::SetSelectedBoneNames] (lines 326-340). *)
Definition SetSelectedBoneNames (inBoneNames : list FName) : M unit :=
  let* p := this _skeletalMeshPreviewComponent in
  if p is Some _ then
    BonesOfInterest_do (TArray.Empty (TArray.Num inBoneNames)) ;;;
    BonesOfInterest_do (TArray.AddUninitialized UninitializedSlot (TArray.Num inBoneNames)) ;;;
    for_upto (TArray.Num inBoneNames) (store_index inBoneNames)
  else
    ret tt.

(** [FPoseEditor::GetSelectedBoneNames] (lines 342-356); a [const] member, the
    result is the final contents of the out-parameter. *)
Definition GetSelectedBoneNames (outBoneNames : list FName) (e : FPoseEditor) : list FName :=
  match _skeletalMeshPreviewComponent e with
  | Some c =>
      foldl (fun out boneIndex => TArray.Add (GetBoneName c boneIndex) out)
            (TArray.Empty (TArray.Num (BonesOfInterest c)) outBoneNames)
            (BonesOfInterest c)
  | None => TArray.Empty 0 outBoneNames
  end.

(** [_detailsViewBone->field = ...]. *)
Definition detailsViewBone_do (f : USkellyBone -> USkellyBone) : M unit :=
  let* p := this _detailsViewBone in
  let* b := deref p in
  assign (set_detailsViewBone (Some (f b))).

(** [FPoseEditor::GetDetailsViewSourceObject] (lines 358-389). *)
Definition GetDetailsViewSourceObject : M (option UObjectRef) :=
  let* p := this _skeletalMeshPreviewComponent in
  let bSingleBoneSelected :=
    match p with
    | Some c => TArray.Num (BonesOfInterest c) =? 1
    | None => false
    end in
  if bSingleBoneSelected then
    let* c := deref p in
    let* boneIndex := index (BonesOfInterest c) 0 in
    let boneName := GetBoneName c boneIndex in
    detailsViewBone_do (set_BoneName boneName) ;;;
    detailsViewBone_do (set_ParentBoneName (GetParentBone c boneName)) ;;;
    let* inst := deref (PreviewInstance c) in
    let skeletalControl := FindModifiedBone inst boneName in
    match skeletalControl with
    | Some ctl =>
        detailsViewBone_do (modify_BoneTransform
          (SetComponents (Quaternion (Rotation ctl)) (Translation ctl) (Scale ctl)))
    | None =>
        let* mesh := deref (SkeletalMesh c) in
        let* pose := index (GetRefBonePose (RefSkeleton mesh)) boneIndex in
        detailsViewBone_do (modify_BoneTransform (fun _ => pose))
    end ;;;
    let* b := this _detailsViewBone in
    ret (if b is Some _ then Some DetailsViewBoneRef else None)
  else
    ret None.

(** [FPoseEditor::SkeletonTree_OnSelectionChanged] (lines 391-409). *)
Definition SkeletonTree_OnSelectionChanged : M unit :=
  let boneNames : list FName := [] in
  let* t := this _skeletonTree in
  let* tree := deref t in
  let boneNames := SSkeletonTree_GetSelectedBoneNames tree boneNames in
  SetSelectedBoneNames boneNames ;;;
  let* v := this _viewport in
  (if v is Some viewport then assign (set_viewport (Some (Refresh viewport))) else ret tt) ;;;
  let* d := this _detailsView in
  if d is Some _ then
    let bForceRefresh := true in
    let* obj := GetDetailsViewSourceObject in
    let* d' := this _detailsView in
    let* view := deref d' in
    assign (set_detailsView (Some (IDetailsView_SetObject obj bForceRefresh view)))
  else
    ret tt.

(** [FPoseEditor::Viewport_OnSelectionChanged] (lines 411-426). *)
Definition Viewport_OnSelectionChanged : M unit :=
  let boneNames : list FName := [] in
  let* boneNames := this (GetSelectedBoneNames boneNames) in
  let* t := this _skeletonTree in
  (if t is Some tree
   then assign (set_skeletonTree (Some (SSkeletonTree_SetSelectedBoneNames boneNames tree)))
   else ret tt) ;;;
  let* d := this _detailsView in
  if d is Some _ then
    let bForceRefresh := true in
    let* obj := GetDetailsViewSourceObject in
    let* d' := this _detailsView in
    let* view := deref d' in
    assign (set_detailsView (Some (IDetailsView_SetObject obj bForceRefresh view)))
  else
    ret tt.

(** [FPoseEditor::SetPreviewSkeletalMesh] (lines 279-324). *)
Definition SetPreviewSkeletalMesh (inPreviewSkeletalMesh : option USkeletalMesh) : M unit :=
  let* p := this _currentPose in
  let* pose := check p in
  let* mesh := check inPreviewSkeletalMesh in
  let* skeleton := deref (GetSkeleton pose) in
  if IsCompatibleMesh skeleton mesh then
    let* q := this _skeletalMeshPreviewComponent in
    let* c := deref q in
    if mesh_ptr_neq inPreviewSkeletalMesh (SkeletalMesh c) then
      assign (set_skeletalMeshPreviewComponent (Some (SetSkeletalMesh mesh c))) ;;;
      let* scene := this _previewScene in
      assign (set_previewScene (AddComponent PreviewComponentRef FTransform_Identity scene)) ;;;
      let* w := this _viewportClientWeakPtr in
      if w is Some viewportClient then
        assign (set_viewportClient
                  (Some (SetSkeletalMeshPreviewComponent (Some PreviewComponentRef) viewportClient)))
      else
        ret tt
    else
      assign (set_skeletalMeshPreviewComponent (Some (InitAnim true c)))
  else
    (* TODO in the source: notify the user the mesh is incompatible *)
    ret tt.
End MemberFunctions.

(** ** One controller cycle *)

Section Cycle.
Context `{Engine}.

(** A notification is delivered to the handler bound to it
    ([OnSpawnSkeletonTab] binds the tree's, [InitPoseEditor] the viewport
    client's). *)
Definition Dispatch (n : Notification) : M unit :=
  match n with
  | TreeSelectionChanged => SkeletonTree_OnSelectionChanged
  | ViewportSelectionChanged => Viewport_OnSelectionChanged
  end.

(** Modelled from the spec: the user selects [names] in the skeleton tree; the
    tree reports the selection to the controller. *)
Definition User_SelectInTree (names : list FName) : M unit :=
  let* t := this _skeletonTree in
  let* tree := deref t in
  assign (set_skeletonTree (Some (SSkeletonTree_UserSelect names tree))) ;;;
  Dispatch TreeSelectionChanged.

(** Modelled from the spec: the user picks the bones with the given indices in
    the viewport; the viewport client, which keeps the picked indices in the
    preview component's [BonesOfInterest], reports the pick to the controller. *)
Definition User_PickInViewport (indices : list int32) : M unit :=
  let* w := this _viewportClientWeakPtr in
  let* client := deref w in
  BonesOfInterest_do (fun _ => indices) ;;;
  assign (set_viewportClient (Some (FPoseEditorViewportClient_Notify client))) ;;;
  Dispatch ViewportSelectionChanged.

(** The last statement of both handlers (lines 404-408 and 421-425), in one
    piece: under its [IsValid] guard, the details panel is bound to what
    [GetDetailsViewSourceObject] returns. *)
Definition refresh_details (e : FPoseEditor) : Outcome unit :=
  match _detailsView e with
  | Some view =>
      match GetDetailsViewSourceObject e with
      | Ok obj e' =>
          Ok tt (set_detailsView (Some (IDetailsView_SetObject obj true view)) e')
      | Crash f => Crash f
      end
  | None => Ok tt e
  end.

(** The state in which the component [c] of [e] highlights the indices [a]. *)
Definition highlighting (a : list int32) (c : UDebugSkelMeshComponent) (e : FPoseEditor) :=
  set_skeletalMeshPreviewComponent (Some (set_BonesOfInterest a c)) e.

(** The notifications emitted so far by the two panels that can emit them. *)
Definition Emitted (e : FPoseEditor) : option nat * option nat :=
  (TreeNotifications <$> _skeletonTree e, ViewportNotifications <$> _viewportClientWeakPtr e).

(** What the three panels show of the selection: the highlighted bone indices,
    the rows selected in the tree, the object bound to the details panel and,
    through that binding, the bone it displays. *)
Definition DetailsTarget (e : FPoseEditor) : option USkellyBone :=
  match BoundObject <$> _detailsView e with
  | Some (Some DetailsViewBoneRef) => _detailsViewBone e
  | _ => None
  end.

Record SelectionState := {
  Highlighted : option (list int32);
  TreeRows : option (list FName);
  Bound : option (option UObjectRef);
  Target : option USkellyBone;
}.

Definition selection_state (e : FPoseEditor) : SelectionState :=
  {| Highlighted := BonesOfInterest <$> _skeletalMeshPreviewComponent e;
     TreeRows := TreeSelection <$> _skeletonTree e;
     Bound := BoundObject <$> _detailsView e;
     Target := DetailsTarget e |}.
End Cycle.

(** ** What the controller relies on from the engine

    The bone lookups consult the component's mesh, not its selection; a name
    that the mesh has is found at a valid index and read back unchanged; a name
    the mesh lacks gets [INDEX_NONE]; [SetSkeletalMesh] installs the mesh. *)
Class EngineLaws `{Engine} : Prop := {
  GetBoneIndex_selection : forall c a n,
    GetBoneIndex (set_BonesOfInterest a c) n = GetBoneIndex c n;
  GetBoneIndex_found : forall c m n,
    SkeletalMesh c = Some m -> n ∈ BoneNames m ->
    TArray.IsValidIndex (RefBoneInfo (RefSkeleton m)) (GetBoneIndex c n) = true
    /\ GetBoneName c (GetBoneIndex c n) = n;
  GetBoneIndex_missing : forall c n,
    (forall m, SkeletalMesh c = Some m -> n ∉ BoneNames m) ->
    GetBoneIndex c n = INDEX_NONE;
  SetSkeletalMesh_mesh : forall m c,
    SkeletalMesh (SetSkeletalMesh m c) = Some m;
}.

(** A reference skeleton has one reference pose per bone. *)
Definition mesh_wf `{EngineMath} (m : USkeletalMesh) : Prop :=
  length (RefBonePose (RefSkeleton m)) = length (RefBoneInfo (RefSkeleton m)).

(** ** A small executable engine

    Used to run the controller on concrete editors.  Vectors and quaternions
    have integer coordinates and rotations are kept in quaternion form; bones
    are looked up in the mesh's reference skeleton the way the engine's
    skinned-mesh component does. *)
Module Ref.

Definition Math : EngineMath :=
  {| FVector := Z * Z * Z;
     FQuat := Z * Z * Z * Z;
     FRotator := Z * Z * Z * Z;
     Quaternion := fun r => r;
     FQuat_Identity := (0, 0, 0, 1);
     FVector_ZeroVector := (0, 0, 0);
     FVector_OneVector := (1, 1, 1) |}.

#[local] Existing Instance Math.

Definition FindBoneIndex (bones : list FMeshBoneInfo) (n : FName) : int32 :=
  match list_find (fun b => Name b = n) bones with
  | Some (i, _) => Z.of_nat i
  | None => INDEX_NONE
  end.

Definition BoneIndex (c : UDebugSkelMeshComponent) (n : FName) : int32 :=
  match SkeletalMesh c with
  | Some m => FindBoneIndex (RefBoneInfo (RefSkeleton m)) n
  | None => INDEX_NONE
  end.

Definition BoneNameAt (c : UDebugSkelMeshComponent) (i : int32) : FName :=
  match SkeletalMesh c with
  | Some m =>
      match TArray.get (RefBoneInfo (RefSkeleton m)) i with
      | Some b => Name b
      | None => NAME_None
      end
  | None => NAME_None
  end.

Definition ParentBone (c : UDebugSkelMeshComponent) (n : FName) : FName :=
  let i := BoneIndex c n in
  if negb (i =? INDEX_NONE) && (0 <? i) then
    match SkeletalMesh c with
    | Some m =>
        match TArray.get (RefBoneInfo (RefSkeleton m)) i with
        | Some b => BoneNameAt c (ParentIndex b)
        | None => NAME_None
        end
    | None => NAME_None
    end
  else NAME_None.

Definition ReinitAnim (bForceReinit : bool) (c : UDebugSkelMeshComponent) :=
  match SkeletalMesh c, PreviewInstance c with
  | Some _, None =>
      {| SkeletalMesh := SkeletalMesh c; BonesOfInterest := BonesOfInterest c;
         PreviewInstance := Some {| BoneControllers := [] |} |}
  | _, _ => c
  end.

Definition InstallMesh (m : USkeletalMesh) (c : UDebugSkelMeshComponent) :=
  ReinitAnim false
    {| SkeletalMesh := Some m; BonesOfInterest := BonesOfInterest c;
       PreviewInstance := PreviewInstance c |}.

Definition ModifiedBone (inst : UAnimPreviewInstance) (n : FName) :=
  snd <$> list_find (fun ctl => BoneToModify ctl = n) (BoneControllers inst).

(** A skeleton is given by its bone names; a mesh fits it when every bone of the
    mesh is a bone of the skeleton. *)
Definition Compatible (skeleton : list FName) (m : USkeletalMesh) : bool :=
  forallb (fun n => bool_decide (n ∈ skeleton)) (BoneNames m).

Definition Host : Engine :=
  {| USkeleton := list FName;
     IsCompatibleMesh := Compatible;
     GetBoneIndex := BoneIndex;
     GetBoneName := BoneNameAt;
     GetParentBone := ParentBone;
     SetSkeletalMesh := InstallMesh;
     InitAnim := ReinitAnim;
     FindModifiedBone := ModifiedBone;
     FPreviewScene := list (UObjectRef * FTransform);
     AddComponent := fun r t scene => scene ++ [(r, t)];
     SPoseEditorViewport := nat;
     Refresh := S;
     UninitializedSlot := fun _ => -842150451 |}.

#[local] Existing Instance Host.

(** A small cast: a biped skeleton with a tail, a mesh for it that has no tail,
    a second mesh for the same skeleton, and a mesh of another creature. *)
Definition bone (n : FName) (parent : int32) : FMeshBoneInfo :=
  {| Name := n; ParentIndex := parent |}.

Definition raised (height : Z) : FTransform :=
  {| FTransform_Rotation := (0, 0, 0, 1);
     FTransform_Translation := (0, 0, height);
     FTransform_Scale3D := (1, 1, 1) |}.

Definition Biped : list FName :=
  ["Root"; "Spine_01"; "Spine_02"; "Head"; "Tail"]%string.

Definition Mannequin : USkeletalMesh :=
  {| UniqueID := 7;
     RefSkeleton :=
       {| RefBoneInfo := [bone "Root" (-1); bone "Spine_01" 0; bone "Spine_02" 1; bone "Head" 2];
          RefBonePose := [raised 0; raised 90; raised 120; raised 160] |} |}.

Definition Torso : USkeletalMesh :=
  {| UniqueID := 8;
     RefSkeleton :=
       {| RefBoneInfo := [bone "Root" (-1); bone "Spine_01" 0; bone "Spine_02" 1];
          RefBonePose := [raised 0; raised 80; raised 110] |} |}.

Definition Crab : USkeletalMesh :=
  {| UniqueID := 9;
     RefSkeleton :=
       {| RefBoneInfo := [bone "Root" (-1); bone "Claw" 0];
          RefBonePose := [raised 0; raised 5] |} |}.

Definition HeadTilt : FAnimNode_ModifyBone :=
  {| BoneToModify := "Head"; Translation := (1, 2, 3);
     Rotation := (0, 1, 0, 0); Scale := (2, 2, 2) |}.

Definition Preview : UDebugSkelMeshComponent :=
  {| SkeletalMesh := Some Mannequin; BonesOfInterest := [];
     PreviewInstance := Some {| BoneControllers := [HeadTilt] |} |}.

Definition Blank : USkellyBone :=
  {| BoneName := NAME_None; ParentBoneName := NAME_None; BoneTransform := FTransform_Identity |}.

Definition Standing : USkellyPose := {| GetSkeleton := Some Biped |}.

(** The editor as [InitPoseEditor] leaves it once its three tabs are open:
    nothing selected, nothing bound to the details panel. *)
Definition Studio : FPoseEditor :=
  {| _currentPose := Some Standing;
     _skeletalMeshPreviewComponent := Some Preview;
     _detailsViewBone := Some Blank;
     _skeletonTree := Some {| TreeSelection := []; TreeNotifications := 0 |};
     _viewport := Some 0%nat;
     _viewportClientWeakPtr :=
       Some {| ClientPreviewComponent := Some PreviewComponentRef; ViewportNotifications := 0 |};
     _detailsView := Some {| BoundObject := None |};
     _previewScene := [(PreviewComponentRef, FTransform_Identity)] |}.

(** The same editor with a given selection highlighted in the viewport. *)
Definition Highlighting (indices : list int32) : FPoseEditor :=
  set_skeletalMeshPreviewComponent (Some (set_BonesOfInterest indices Preview)) Studio.

(** The same editor right after the user selected rows in the tree, before the
    controller heard of it. *)
Definition Selecting (names : list FName) : FPoseEditor :=
  set_skeletonTree (Some {| TreeSelection := names; TreeNotifications := 1 |}) Studio.

(** The editor showing the bone "Spine_02" in all three panels after a pick in
    the viewport has been handled. *)
Definition Spine_02_shown : FPoseEditor :=
  set_detailsView (Some {| BoundObject := Some DetailsViewBoneRef |})
    (set_detailsViewBone
       (Some {| BoneName := "Spine_02"; ParentBoneName := "Spine_01";
                BoneTransform := raised 120 |})
       (set_skeletonTree
          (Some {| TreeSelection := ["Spine_02"%string]; TreeNotifications := 0 |})
          (Highlighting [2]))).

(** The same editor with a viewport client that has not been told of the
    preview component yet. *)
Definition Unaware : FPoseEditor :=
  set_viewportClient
    (Some {| ClientPreviewComponent := None; ViewportNotifications := 0 |}) Studio.

(** The same editor before any tab was opened and before the preview
    component was created. *)
Definition Bare : FPoseEditor :=
  {| _currentPose := Some Standing;
     _skeletalMeshPreviewComponent := None;
     _detailsViewBone := None;
     _skeletonTree := None;
     _viewport := None;
     _viewportClientWeakPtr := None;
     _detailsView := None;
     _previewScene := [] |}.

End Ref.

(** ** Which objects exist

    Whether each of the seven pointers of the controller is set: the pose, the
    preview component, the bone object, the tree, the viewport, the viewport
    client, the details panel. *)
Definition present {A} (p : option A) : bool :=
  if p is Some _ then true else false.

Definition allocated `{Engine} (e : FPoseEditor) : list bool :=
  [present (_currentPose e); present (_skeletalMeshPreviewComponent e);
   present (_detailsViewBone e); present (_skeletonTree e); present (_viewport e);
   present (_viewportClientWeakPtr e); present (_detailsView e)].

(** ** Opening the editor

    [InitPoseEditor] and the tab spawners.  They are mostly calls into the
    engine; what those calls hand back is again taken as given. *)

(** [PoseEditorTabID] (lines 42-47). *)
Inductive PoseEditorTabID := Skeleton | Viewport | Details.

(** The widget a dock tab shows: a pointer to one of the controller's panels. *)
Inductive SWidgetRef := SkeletonTreeWidget | ViewportWidget | DetailsViewWidget.

Record SDockTab := {
  Label : string;
  Content : SWidgetRef;
}.

(** The tab titles set by the constructor (lines 113-115). *)
Definition _skeletonTabTitle : string := "Skeleton".
Definition _viewportTabTitle : string := "Viewport".
Definition _detailsTabTitle : string := "Details".

(** The fields of [FDetailsViewArgs] that [InitPoseEditor] sets. *)
Record FDetailsViewArgs := {
  bAllowSearch : bool;
  bLockable : bool;
  bUpdatesFromSelection : bool;
  bHideActorNameArea : bool;
  bObjectsUseNameArea : bool;
}.

(** What the engine hands to [InitPoseEditor] and the spawners, and the engine
    state they act on besides the controller. *)
Class EngineServices `{Engine} := {
  (** The engine's own books: [GEditor]'s undo clients and the collector's root set. *)
  UEditorGlobals : Type;
  RegisterForUndo : UEditorGlobals -> UEditorGlobals;
  AddToRoot : UObjectRef -> UEditorGlobals -> UEditorGlobals;
  (** [SNew(SPoseEditorViewport, ...)] and its [GetViewportClient()]. *)
  SNew_SPoseEditorViewport : SPoseEditorViewport;
  GetViewportClient : SPoseEditorViewport -> option FPoseEditorViewportClient;
  (** [FPropertyEditorModule::CreateDetailView]. *)
  CreateDetailView : FDetailsViewArgs -> IDetailsView;
  (** [SAssignNew(_skeletonTree, SSkeletonTree)] and [SSkeletonTree::Populate]. *)
  SNew_SSkeletonTree : SSkeletonTree;
  Populate : FReferenceSkeleton -> SSkeletonTree -> SSkeletonTree;
  (** [NewObject<UDebugSkelMeshComponent>()], [NewObject<USkellyBone>()]. *)
  NewObject_UDebugSkelMeshComponent : UDebugSkelMeshComponent;
  NewObject_USkellyBone : USkellyBone;
  (** [USkeleton::GetReferenceSkeleton], [USkeleton::GetPreviewMesh]. *)
  GetReferenceSkeleton : USkeleton -> FReferenceSkeleton;
  GetPreviewMesh : USkeleton -> bool -> option USkeletalMesh;
  (** [UDebugSkelMeshComponent::EnablePreview(bEnable, nullptr, nullptr)]. *)
  EnablePreview : bool -> UDebugSkelMeshComponent -> UDebugSkelMeshComponent;
}.

Section Opening.
Context `{EngineServices}.

(** The engine side of the editor: its books, and the panel notifications that
    have a handler of the controller bound to them. *)
Record Host := {
  Globals : UEditorGlobals;
  Delegates : list Notification;
}.

Definition on_globals (f : UEditorGlobals -> UEditorGlobals) (h : Host) : Host :=
  {| Globals := f (Globals h); Delegates := Delegates h |}.

(** [OnSelectionChanged.BindSP(this, &FPoseEditor::..._OnSelectionChanged)]. *)
Definition BindSP (n : Notification) (h : Host) : Host :=
  {| Globals := Globals h; Delegates := n :: Delegates h |}.

Definition set_currentPose (p : option USkellyPose) (e : FPoseEditor) :=
  {| _currentPose := p;
     _skeletalMeshPreviewComponent := _skeletalMeshPreviewComponent e;
     _detailsViewBone := _detailsViewBone e; _skeletonTree := _skeletonTree e;
     _viewport := _viewport e; _viewportClientWeakPtr := _viewportClientWeakPtr e;
     _detailsView := _detailsView e; _previewScene := _previewScene e |}.

(** [p.ToSharedRef()]: the pointer must be valid. *)
Definition ToSharedRef {A} (p : option A) : M A := check p.

(** [FPoseEditor::OnSpawnSkeletonTab] (lines 251-259). *)
Definition OnSpawnSkeletonTab (h : Host) : M (SDockTab * Host) :=
  assign (set_skeletonTree (Some SNew_SSkeletonTree)) ;;;
  ret ({| Label := _skeletonTabTitle; Content := SkeletonTreeWidget |},
       BindSP TreeSelectionChanged h).

(** [FPoseEditor::OnSpawnViewportTab] (lines 261-268). *)
Definition OnSpawnViewportTab : M SDockTab :=
  let* v := this _viewport in
  ToSharedRef v ;;;
  ret {| Label := _viewportTabTitle; Content := ViewportWidget |}.

(** [FPoseEditor::OnSpawnDetailsTab] (lines 270-277). *)
Definition OnSpawnDetailsTab : M SDockTab :=
  let* d := this _detailsView in
  ToSharedRef d ;;;
  ret {| Label := _detailsTabTitle; Content := DetailsViewWidget |}.

(** The spawner that [RegisterTabSpawners] registers under each tab id
    (lines 57-73). *)
Definition SpawnTab (id : PoseEditorTabID) (h : Host) : M (SDockTab * Host) :=
  match id with
  | Skeleton => OnSpawnSkeletonTab h
  | Viewport => let* tab := OnSpawnViewportTab in ret (tab, h)
  | Details => let* tab := OnSpawnDetailsTab in ret (tab, h)
  end.

(** [FAssetEditorToolkit::InitAssetEditor] is the engine's; it reaches the
    controller through the registered spawners only.  [opens] lists the tabs it
    spawns, in order, while it restores the layout. *)
Fixpoint InitAssetEditor (opens : list PoseEditorTabID) (h : Host) : M Host :=
  match opens with
  | [] => ret h
  | id :: rest =>
      let* spawned := SpawnTab id h in
      InitAssetEditor rest (snd spawned)
  end.

(** [FPoseEditor::InitPoseEditor] (lines 144-207).  The toolkit mode and the
    toolkit host are only passed on to [InitAssetEditor]. *)
Definition InitPoseEditor (opens : list PoseEditorTabID)
  (poseToEdit : option USkellyPose) (h : Host) : M Host :=
  let* pose := check poseToEdit in
  let h := on_globals RegisterForUndo h in
  assign (set_currentPose poseToEdit) ;;;
  assign (set_viewport (Some SNew_SPoseEditorViewport)) ;;;
  let* v := this _viewport in
  let* viewport := deref v in
  assign (set_viewportClient (GetViewportClient viewport)) ;;;
  let* viewportClient := this _viewportClientWeakPtr in
  let h := if viewportClient is Some _ then BindSP ViewportSelectionChanged h else h in
  let detailsViewArgs :=
    {| bAllowSearch := true; bLockable := false; bUpdatesFromSelection := false;
       bHideActorNameArea := true; bObjectsUseNameArea := false |} in
  assign (set_detailsView (Some (CreateDetailView detailsViewArgs))) ;;;
  let* h := InitAssetEditor opens h in
  let* c := this _skeletalMeshPreviewComponent in
  (if c is Some _ then fail CheckFailed else ret tt) ;;;
  assign (set_skeletalMeshPreviewComponent (Some NewObject_UDebugSkelMeshComponent)) ;;;
  let* c := this _skeletalMeshPreviewComponent in
  deref c ;;;
  let h := on_globals (AddToRoot PreviewComponentRef) h in
  assign (set_detailsViewBone (Some NewObject_USkellyBone)) ;;;
  let* b := this _detailsViewBone in
  deref b ;;;
  let h := on_globals (AddToRoot DetailsViewBoneRef) h in
  (match GetSkeleton pose with
   | Some skeleton =>
       let* t := this _skeletonTree in
       (if t is Some tree
        then assign (set_skeletonTree
                       (Some (Populate (GetReferenceSkeleton skeleton) tree)))
        else ret tt) ;;;
       let previewMesh := GetPreviewMesh skeleton true in
       if previewMesh is Some _ then SetPreviewSkeletalMesh previewMesh else ret tt
   | None => ret tt
   end) ;;;
  let* c := this _skeletalMeshPreviewComponent in
  let* component := deref c in
  assign (set_skeletalMeshPreviewComponent (Some (EnablePreview true component))) ;;;
  ret h.

(** A use of the controller after it was opened: one of the member functions
    that the panels and the editor call. *)
Inductive Call :=
| CallSetSelectedBoneNames (names : list FName)
| CallGetDetailsViewSourceObject
| CallSkeletonTree_OnSelectionChanged
| CallViewport_OnSelectionChanged
| CallSetPreviewSkeletalMesh (mesh : option USkeletalMesh).

Definition perform (call : Call) : M unit :=
  match call with
  | CallSetSelectedBoneNames names => SetSelectedBoneNames names
  | CallGetDetailsViewSourceObject => GetDetailsViewSourceObject ;;; ret tt
  | CallSkeletonTree_OnSelectionChanged => SkeletonTree_OnSelectionChanged
  | CallViewport_OnSelectionChanged => Viewport_OnSelectionChanged
  | CallSetPreviewSkeletalMesh mesh => SetPreviewSkeletalMesh mesh
  end.

Fixpoint perform_all (calls : list Call) : M unit :=
  match calls with
  | [] => ret tt
  | call :: rest => perform call ;;; perform_all rest
  end.
End Opening.

(** Whether the host spawns the skeleton tab. *)
Definition decide_skeleton (opens : list PoseEditorTabID) : bool :=
  existsb (fun id => if id is Skeleton then true else false) opens.

(** ** The executable engine, continued: opening an editor *)
Module Desk.
#[local] Existing Instance Ref.Math.
#[local] Existing Instance Ref.Host.

(** The books are the number of undo clients and the list of rooted objects.
    Only the biped skeleton has a preview mesh. *)
Definition Services : EngineServices :=
  {| UEditorGlobals := nat * list UObjectRef;
     RegisterForUndo := fun g => (S (fst g), snd g);
     AddToRoot := fun r g => (fst g, r :: snd g);
     SNew_SPoseEditorViewport := 0%nat;
     GetViewportClient := fun _ =>
       Some {| ClientPreviewComponent := None; ViewportNotifications := 0 |};
     CreateDetailView := fun _ => {| BoundObject := None |};
     SNew_SSkeletonTree := {| TreeSelection := []; TreeNotifications := 0 |};
     Populate := fun _ tree => tree;
     NewObject_UDebugSkelMeshComponent :=
       {| SkeletalMesh := None; BonesOfInterest := []; PreviewInstance := None |};
     NewObject_USkellyBone := Ref.Blank;
     GetReferenceSkeleton := fun skeleton =>
       {| RefBoneInfo := (fun n => Ref.bone n INDEX_NONE) <$> skeleton;
          RefBonePose := (fun _ => FTransform_Identity) <$> skeleton |};
     GetPreviewMesh := fun skeleton _ =>
       if decide (skeleton = Ref.Biped) then Some Ref.Mannequin else None;
     EnablePreview := fun _ c => Ref.ReinitAnim true c |}.

#[local] Existing Instance Services.

(** An editor as its constructor leaves it, and the engine before it opens. *)
Definition Closed : FPoseEditor :=
  {| _currentPose := None;
     _skeletalMeshPreviewComponent := None;
     _detailsViewBone := None;
     _skeletonTree := None;
     _viewport := None;
     _viewportClientWeakPtr := None;
     _detailsView := None;
     _previewScene := [] |}.

Definition Idle : Host := {| Globals := (0%nat, []); Delegates := [] |}.

(** A pose whose skeleton has no preview mesh. *)
Definition Sketch : USkellyPose := {| GetSkeleton := Some ["Root"; "Fin"]%string |}.

End Desk.

(** * Properties *)

(** ** Arrays *)

Lemma TArray_get_of_nat {A} (a : list A) (k : nat) :
  TArray.get a (Z.of_nat k) = a !! k.
Proof.
  unfold TArray.get, TArray.IsValidIndex, TArray.Num.
  rewrite Nat2Z.id.
  destruct (Z.ltb_spec (Z.of_nat k) (Z.of_nat (length a))) as [Hlt|Hge].
  - replace (0 <=? Z.of_nat k) with true by (symmetry; apply Z.leb_le; lia).
    reflexivity.
  - rewrite andb_false_r. symmetry. apply lookup_ge_None. lia.
Qed.

Lemma TArray_get_negative {A} (a : list A) (i : int32) :
  i < 0 -> TArray.get a i = None.
Proof.
  intros Hi. unfold TArray.get, TArray.IsValidIndex.
  replace (0 <=? i) with false by (symmetry; apply Z.leb_gt; lia).
  reflexivity.
Qed.

Lemma TArray_get_valid {A} (a : list A) (i : int32) :
  TArray.IsValidIndex a i = true -> is_Some (TArray.get a i).
Proof.
  intros Hv. unfold TArray.get. rewrite Hv.
  unfold TArray.IsValidIndex, TArray.Num in Hv.
  apply andb_true_iff in Hv as [H0 H1].
  apply Z.leb_le in H0. apply Z.ltb_lt in H1.
  apply lookup_lt_is_Some. lia.
Qed.

Lemma TArray_set_middle {A} (done rest : list A) (old x : A) :
  TArray.set (done ++ old :: rest) (Z.of_nat (length done)) x
  = Some (done ++ x :: rest).
Proof.
  unfold TArray.set, TArray.IsValidIndex, TArray.Num.
  rewrite length_app. simpl length.
  replace (0 <=? Z.of_nat (length done)) with true by (symmetry; apply Z.leb_le; lia).
  replace (Z.of_nat (length done) <? Z.of_nat (length done + S (length rest))) with true
    by (symmetry; apply Z.ltb_lt; lia).
  simpl. rewrite Nat2Z.id.
  f_equal. rewrite insert_app_r_alt by lia.
  rewrite Nat.sub_diag. reflexivity.
Qed.

Lemma foldl_Add_fmap {A B} (f : A -> B) (l : list A) (acc : list B) :
  foldl (fun out x => TArray.Add (f x) out) acc l = acc ++ (f <$> l).
Proof.
  revert acc. induction l as [|x l IH]; intros acc; simpl.
  - by rewrite app_nil_r.
  - rewrite IH. unfold TArray.Add. by rewrite <- app_assoc.
Qed.

(** ** The selection stored in the preview component *)

Section Selection.
Context `{Engine}.

Lemma set_component_twice a b (e : FPoseEditor) :
  set_skeletalMeshPreviewComponent a (set_skeletalMeshPreviewComponent b e)
  = set_skeletalMeshPreviewComponent a e.
Proof. reflexivity. Qed.

Lemma set_BonesOfInterest_twice a b (c : UDebugSkelMeshComponent) :
  set_BonesOfInterest a (set_BonesOfInterest b c) = set_BonesOfInterest a c.
Proof. reflexivity. Qed.

Lemma BonesOfInterest_do_run f a c e :
  BonesOfInterest_do f (highlighting a c e) = Ok tt (highlighting (f a) c e).
Proof. reflexivity. Qed.

Lemma BonesOfInterest_do_component f e c :
  _skeletalMeshPreviewComponent e = Some c ->
  BonesOfInterest_do f e = Ok tt (highlighting (f (BonesOfInterest c)) c e).
Proof.
  intros Hc. unfold BonesOfInterest_do, bind, this, deref, assign, ret.
  by rewrite Hc.
Qed.

(** Without a preview component the selection cannot be stored. *)
Lemma SetSelectedBoneNames_no_component names e :
  _skeletalMeshPreviewComponent e = None ->
  SetSelectedBoneNames names e = Ok tt e.
Proof.
  intros Hc. unfold SetSelectedBoneNames, bind, this. by rewrite Hc.
Qed.

Lemma GetSelectedBoneNames_no_component out e :
  _skeletalMeshPreviewComponent e = None ->
  GetSelectedBoneNames out e = [].
Proof. intros Hc. unfold GetSelectedBoneNames. by rewrite Hc. Qed.

(** The out-parameter ends up holding the name of every highlighted index, in
    order; what it held before is dropped. *)
Lemma GetSelectedBoneNames_component out e c :
  _skeletalMeshPreviewComponent e = Some c ->
  GetSelectedBoneNames out e = GetBoneName c <$> BonesOfInterest c.
Proof.
  intros Hc. unfold GetSelectedBoneNames. rewrite Hc.
  by rewrite foldl_Add_fmap.
Qed.

Section Loop.
Context `{!EngineLaws}.
Variable c : UDebugSkelMeshComponent.
Variable names : list FName.

(** Loop invariant: the slots before [i] hold the indices of the first [i]
    names, the slots from [i] on are still unwritten. *)
Lemma for_range_store_index (todo : list FName) :
  forall (seen : list FName) (done rest : list int32) (e : FPoseEditor),
    names = seen ++ todo ->
    length done = length seen ->
    length rest = length todo ->
    for_range (length todo) (Z.of_nat (length done)) (store_index names)
      (highlighting (done ++ rest) c e)
    = Ok tt (highlighting (done ++ (GetBoneIndex c <$> todo)) c e).
Proof.
  induction todo as [|name todo IH]; intros seen done rest e Hnames Hdone Hrest.
  - destruct rest; [|discriminate]. reflexivity.
  - destruct rest as [|old rest]; [discriminate|].
    simpl length. cbn [for_range]. unfold bind at 1.
    assert (Hstep : store_index names (Z.of_nat (length done))
                      (highlighting (done ++ old :: rest) c e)
                    = Ok tt (highlighting ((done ++ [GetBoneIndex c name]) ++ rest) c e)).
    { unfold store_index, index, bind.
      rewrite TArray_get_of_nat, Hnames.
      rewrite lookup_app_r by lia.
      replace (length done - length seen)%nat with 0%nat by lia. cbn.
      unfold BonesOfInterest_store, bind. cbn.
      rewrite GetBoneIndex_selection.
      rewrite TArray_set_middle. cbn.
      unfold highlighting. rewrite <- app_assoc. reflexivity. }
    rewrite Hstep.
    replace (Z.of_nat (length done) + 1)
      with (Z.of_nat (length (done ++ [GetBoneIndex c name])))
      by (rewrite length_app; simpl; lia).
    rewrite (IH (seen ++ [name])).
    + rewrite <- app_assoc. reflexivity.
    + rewrite <- app_assoc. exact Hnames.
    + rewrite !length_app. simpl. lia.
    + simpl in Hrest. lia.
Qed.

(** With a preview component, [SetSelectedBoneNames] replaces the highlighted
    indices by the index of every given name, in order. *)
Lemma SetSelectedBoneNames_component e :
  _skeletalMeshPreviewComponent e = Some c ->
  SetSelectedBoneNames names e = Ok tt (highlighting (GetBoneIndex c <$> names) c e).
Proof.
  intros Hc. unfold SetSelectedBoneNames. unfold bind at 1, this at 1. rewrite Hc.
  assert (He : e = highlighting (BonesOfInterest c) c e).
  { unfold highlighting, set_skeletalMeshPreviewComponent, set_BonesOfInterest.
    destruct e, c; simpl in *; congruence. }
  rewrite He at 1.
  unfold bind at 1. rewrite BonesOfInterest_do_run.
  unfold bind at 1. rewrite BonesOfInterest_do_run.
  unfold TArray.Empty, TArray.AddUninitialized, for_upto, TArray.Num.
  rewrite Nat2Z.id. cbn [app length].
  pose proof (for_range_store_index names [] []
                (UninitializedSlot <$> seq 0 (length names)) e) as Hloop.
  cbn [app length] in Hloop. change (Z.of_nat 0) with 0 in Hloop.
  apply Hloop; [reflexivity..|].
  by rewrite length_fmap, length_seq.
Qed.
End Loop.
End Selection.

(** ** The object shown by the details panel *)

Ltac run :=
  unfold bind, this, assign, deref, check, index, ret, fail in *; cbn in *.

(** Reading the only element of a one-element array. *)
Ltac only_entry i :=
  change (TArray.Num [i] =? 1) with true in *;
  change (TArray.get [i] 0) with (Some i) in *;
  cbn in *.

Section Details.
Context `{Engine}.

Lemma single_entry {A} (a : list A) :
  (TArray.Num a =? 1) = true <-> exists x, a = [x].
Proof.
  unfold TArray.Num. split.
  - intros Hn. apply Z.eqb_eq in Hn.
    destruct a as [|x [|y a]]; simpl in Hn; try lia. by exists x.
  - intros [x ->]. reflexivity.
Qed.

Lemma not_single_entry {A} (a : list A) :
  (TArray.Num a =? 1) = false <-> length a <> 1%nat.
Proof.
  unfold TArray.Num. rewrite Z.eqb_neq. lia.
Qed.

Lemma GetDetailsViewSourceObject_no_component e :
  _skeletalMeshPreviewComponent e = None ->
  GetDetailsViewSourceObject e = Ok None e.
Proof.
  intros Hc. unfold GetDetailsViewSourceObject. run. by rewrite Hc.
Qed.

Lemma GetDetailsViewSourceObject_not_single e c :
  _skeletalMeshPreviewComponent e = Some c ->
  length (BonesOfInterest c) <> 1%nat ->
  GetDetailsViewSourceObject e = Ok None e.
Proof.
  intros Hc Hn. apply not_single_entry in Hn.
  unfold GetDetailsViewSourceObject. run. by rewrite Hc, Hn.
Qed.

(** One highlighted index, and the bone has an override. *)
Lemma GetDetailsViewSourceObject_modified e c i b inst ctl :
  _skeletalMeshPreviewComponent e = Some c ->
  BonesOfInterest c = [i] ->
  _detailsViewBone e = Some b ->
  PreviewInstance c = Some inst ->
  FindModifiedBone inst (GetBoneName c i) = Some ctl ->
  GetDetailsViewSourceObject e
  = Ok (Some DetailsViewBoneRef)
       (set_detailsViewBone
          (Some {| BoneName := GetBoneName c i;
                   ParentBoneName := GetParentBone c (GetBoneName c i);
                   BoneTransform :=
                     SetComponents (Quaternion (Rotation ctl)) (Translation ctl)
                                   (Scale ctl) (BoneTransform b) |}) e).
Proof.
  intros Hc Hi Hb Hinst Hctl.
  unfold GetDetailsViewSourceObject, detailsViewBone_do. run.
  rewrite Hc, Hi. only_entry i. rewrite Hb. cbn. rewrite Hinst. cbn. rewrite Hctl. cbn.
  reflexivity.
Qed.

(** One highlighted index, no override, and the index is one of the mesh's
    reference pose. *)
Lemma GetDetailsViewSourceObject_reference e c i b inst mesh pose :
  _skeletalMeshPreviewComponent e = Some c ->
  BonesOfInterest c = [i] ->
  _detailsViewBone e = Some b ->
  PreviewInstance c = Some inst ->
  FindModifiedBone inst (GetBoneName c i) = None ->
  SkeletalMesh c = Some mesh ->
  TArray.get (GetRefBonePose (RefSkeleton mesh)) i = Some pose ->
  GetDetailsViewSourceObject e
  = Ok (Some DetailsViewBoneRef)
       (set_detailsViewBone
          (Some {| BoneName := GetBoneName c i;
                   ParentBoneName := GetParentBone c (GetBoneName c i);
                   BoneTransform := pose |}) e).
Proof.
  intros Hc Hi Hb Hinst Hctl Hmesh Hpose.
  unfold GetDetailsViewSourceObject, detailsViewBone_do. run.
  rewrite Hc, Hi. only_entry i. rewrite Hb. cbn. rewrite Hinst. cbn. rewrite Hctl. cbn.
  rewrite Hmesh. cbn. rewrite Hpose. cbn. reflexivity.
Qed.

(** One highlighted index, no override, and the index is outside the mesh's
    reference pose: [GetRefBonePose()[boneIndex]] (line 384) stops the editor. *)
Lemma GetDetailsViewSourceObject_out_of_range e c i b inst mesh :
  _skeletalMeshPreviewComponent e = Some c ->
  BonesOfInterest c = [i] ->
  _detailsViewBone e = Some b ->
  PreviewInstance c = Some inst ->
  FindModifiedBone inst (GetBoneName c i) = None ->
  SkeletalMesh c = Some mesh ->
  TArray.get (GetRefBonePose (RefSkeleton mesh)) i = None ->
  GetDetailsViewSourceObject e = Crash IndexOutOfRange.
Proof.
  intros Hc Hi Hb Hinst Hctl Hmesh Hpose.
  unfold GetDetailsViewSourceObject, detailsViewBone_do. run.
  rewrite Hc, Hi. only_entry i. rewrite Hb. cbn. rewrite Hinst. cbn. rewrite Hctl. cbn.
  rewrite Hmesh. cbn. rewrite Hpose. reflexivity.
Qed.

(** In particular the one highlighted index may be [INDEX_NONE], which is what
    [SetSelectedBoneNames] stores for a name the mesh does not have. *)
Lemma GetDetailsViewSourceObject_INDEX_NONE e c b inst mesh :
  _skeletalMeshPreviewComponent e = Some c ->
  BonesOfInterest c = [INDEX_NONE] ->
  _detailsViewBone e = Some b ->
  PreviewInstance c = Some inst ->
  FindModifiedBone inst (GetBoneName c INDEX_NONE) = None ->
  SkeletalMesh c = Some mesh ->
  GetDetailsViewSourceObject e = Crash IndexOutOfRange.
Proof.
  intros Hc Hi Hb Hinst Hctl Hmesh.
  eapply GetDetailsViewSourceObject_out_of_range; try eassumption.
  by apply TArray_get_negative.
Qed.

(** Whatever [GetDetailsViewSourceObject] returns, it returns for one of two
    reasons: nothing, with the editor untouched, when the component is missing
    or does not highlight exactly one index; the bone object, filled in from the
    highlighted index, otherwise. *)
Lemma GetDetailsViewSourceObject_returned e r e' :
  GetDetailsViewSourceObject e = Ok r e' ->
  (r = None /\ e' = e
   /\ forall c, _skeletalMeshPreviewComponent e = Some c ->
                length (BonesOfInterest c) <> 1%nat)
  \/ (exists c i b inst bone,
        _skeletalMeshPreviewComponent e = Some c
        /\ BonesOfInterest c = [i]
        /\ _detailsViewBone e = Some b
        /\ PreviewInstance c = Some inst
        /\ r = Some DetailsViewBoneRef
        /\ e' = set_detailsViewBone (Some bone) e
        /\ BoneName bone = GetBoneName c i
        /\ ParentBoneName bone = GetParentBone c (GetBoneName c i)
        /\ match FindModifiedBone inst (GetBoneName c i) with
           | Some ctl =>
               BoneTransform bone
               = SetComponents (Quaternion (Rotation ctl)) (Translation ctl)
                               (Scale ctl) (BoneTransform b)
           | None =>
               exists mesh, SkeletalMesh c = Some mesh
                 /\ TArray.get (GetRefBonePose (RefSkeleton mesh)) i
                    = Some (BoneTransform bone)
           end).
Proof.
  intros Hrun.
  destruct (_skeletalMeshPreviewComponent e) as [c|] eqn:Hc.
  2:{ rewrite (GetDetailsViewSourceObject_no_component e Hc) in Hrun.
      injection Hrun as Hr He. left. repeat split; congruence. }
  destruct (TArray.Num (BonesOfInterest c) =? 1) eqn:Hn.
  2:{ apply not_single_entry in Hn.
      rewrite (GetDetailsViewSourceObject_not_single e c Hc Hn) in Hrun.
      injection Hrun as Hr He. left. repeat split; congruence. }
  apply single_entry in Hn as [i Hi]. right.
  destruct (_detailsViewBone e) as [b|] eqn:Hb.
  2:{ unfold GetDetailsViewSourceObject, detailsViewBone_do in Hrun. run.
      rewrite Hc, Hi in Hrun. only_entry i. rewrite Hb in Hrun. discriminate. }
  destruct (PreviewInstance c) as [inst|] eqn:Hinst.
  2:{ unfold GetDetailsViewSourceObject, detailsViewBone_do in Hrun. run.
      rewrite Hc, Hi in Hrun. only_entry i. rewrite Hb in Hrun. cbn in Hrun.
      rewrite Hinst in Hrun. discriminate. }
  destruct (FindModifiedBone inst (GetBoneName c i)) as [ctl|] eqn:Hctl.
  - rewrite (GetDetailsViewSourceObject_modified e c i b inst ctl) in Hrun by assumption.
    injection Hrun as Hr He. subst r e'.
    eexists c, i, b, inst, _. rewrite Hctl.
    repeat split; try reflexivity; assumption.
  - destruct (SkeletalMesh c) as [mesh|] eqn:Hmesh.
    2:{ unfold GetDetailsViewSourceObject, detailsViewBone_do in Hrun. run.
        rewrite Hc, Hi in Hrun. only_entry i. rewrite Hb in Hrun. cbn in Hrun.
        rewrite Hinst in Hrun. cbn in Hrun. rewrite Hctl in Hrun. cbn in Hrun.
        rewrite Hmesh in Hrun. discriminate. }
    destruct (TArray.get (GetRefBonePose (RefSkeleton mesh)) i) as [pose|] eqn:Hpose.
    + rewrite (GetDetailsViewSourceObject_reference e c i b inst mesh pose) in Hrun
        by assumption.
      injection Hrun as Hr He. subst r e'.
      eexists c, i, b, inst, _. rewrite Hctl.
      repeat split; try reflexivity; try assumption.
      exists mesh. split; [exact Hmesh|exact Hpose].
    + rewrite (GetDetailsViewSourceObject_out_of_range e c i b inst mesh) in Hrun
        by assumption.
      discriminate.
Qed.
End Details.

Section DetailsOfBone.
Context `{Engine}.

(** A highlighted index that is an index of the mesh's reference pose always
    yields the bone object. *)
Lemma GetDetailsViewSourceObject_bone e c i b inst mesh :
  _skeletalMeshPreviewComponent e = Some c ->
  BonesOfInterest c = [i] ->
  _detailsViewBone e = Some b ->
  PreviewInstance c = Some inst ->
  SkeletalMesh c = Some mesh ->
  TArray.IsValidIndex (GetRefBonePose (RefSkeleton mesh)) i = true ->
  exists bone,
    GetDetailsViewSourceObject e
    = Ok (Some DetailsViewBoneRef) (set_detailsViewBone (Some bone) e)
    /\ BoneName bone = GetBoneName c i
    /\ ParentBoneName bone = GetParentBone c (GetBoneName c i).
Proof.
  intros Hc Hi Hb Hinst Hmesh Hvalid.
  destruct (FindModifiedBone inst (GetBoneName c i)) as [ctl|] eqn:Hctl.
  - eexists. split; [by eapply GetDetailsViewSourceObject_modified|]. by split.
  - destruct (TArray_get_valid _ _ Hvalid) as [pose Hpose].
    eexists. split; [by eapply GetDetailsViewSourceObject_reference|]. by split.
Qed.

(** [GetDetailsViewSourceObject] writes nothing but the bone object. *)
Lemma GetDetailsViewSourceObject_frame e r e' :
  GetDetailsViewSourceObject e = Ok r e' ->
  exists b, e' = set_detailsViewBone b e.
Proof.
  intros Hrun. apply GetDetailsViewSourceObject_returned in Hrun
    as [(_ & -> & _) | (c & i & b & inst & bone & _ & _ & _ & _ & _ & -> & _)].
  - exists (_detailsViewBone e). by destruct e.
  - by eexists.
Qed.

(** C4. Whenever exactly one bone is selected, the object returned by
    [GetDetailsViewSourceObject] is the bone object, carrying the name the
    component gives for the selected index, the name of that bone's parent, and
    a transform that is built from the preview instance's override for the bone
    when there is one and is otherwise the entry of the mesh's reference pose at
    the selected index.  The object is returned as soon as the bone object and
    the preview instance exist and the bone has an override or the index is one
    of the reference pose. *)
Theorem details_proxy_contents e c i :
  _skeletalMeshPreviewComponent e = Some c ->
  BonesOfInterest c = [i] ->
  (forall r e', GetDetailsViewSourceObject e = Ok r e' ->
     r = Some DetailsViewBoneRef
     /\ exists b inst bone,
          _detailsViewBone e = Some b
          /\ PreviewInstance c = Some inst
          /\ _detailsViewBone e' = Some bone
          /\ BoneName bone = GetBoneName c i
          /\ ParentBoneName bone = GetParentBone c (GetBoneName c i)
          /\ match FindModifiedBone inst (GetBoneName c i) with
             | Some ctl =>
                 BoneTransform bone
                 = SetComponents (Quaternion (Rotation ctl)) (Translation ctl)
                                 (Scale ctl) (BoneTransform b)
             | None =>
                 exists mesh, SkeletalMesh c = Some mesh
                   /\ TArray.get (GetRefBonePose (RefSkeleton mesh)) i
                      = Some (BoneTransform bone)
             end)
  /\ (forall b inst,
        _detailsViewBone e = Some b ->
        PreviewInstance c = Some inst ->
        (is_Some (FindModifiedBone inst (GetBoneName c i))
         \/ exists mesh, SkeletalMesh c = Some mesh
              /\ is_Some (TArray.get (GetRefBonePose (RefSkeleton mesh)) i)) ->
        exists e', GetDetailsViewSourceObject e = Ok (Some DetailsViewBoneRef) e').
Proof.
  intros Hc Hi. split.
  - intros r e' Hrun.
    apply GetDetailsViewSourceObject_returned in Hrun
      as [(_ & _ & Hn) | (c' & i' & b & inst & bone & Hc' & Hi' & Hb & Hinst & -> & -> & Hrest)].
    + exfalso. apply (Hn c Hc). by rewrite Hi.
    + assert (c' = c) as -> by congruence.
      assert (i' = i) as -> by congruence.
      split; [reflexivity|]. exists b, inst, bone.
      repeat split; try assumption; tauto.
  - intros b inst Hb Hinst [[ctl Hctl] | (mesh & Hmesh & [pose Hpose])].
    + eexists. by eapply GetDetailsViewSourceObject_modified.
    + destruct (FindModifiedBone inst (GetBoneName c i)) as [ctl|] eqn:Hctl.
      * eexists. by eapply GetDetailsViewSourceObject_modified.
      * eexists. by eapply GetDetailsViewSourceObject_reference.
Qed.

(** When [GetDetailsViewSourceObject] returns, it returns the bone object
    exactly when there is a preview component that highlights one index. *)
Lemma GetDetailsViewSourceObject_gate e r e' :
  GetDetailsViewSourceObject e = Ok r e' ->
  r = Some DetailsViewBoneRef
  <-> exists c, _skeletalMeshPreviewComponent e = Some c
                /\ length (BonesOfInterest c) = 1%nat.
Proof.
  intros Hrun. apply GetDetailsViewSourceObject_returned in Hrun
    as [(-> & _ & Hn) | (c & i & _ & _ & _ & Hc & Hi & _ & _ & -> & _)].
  - split; [discriminate|]. intros (c & Hc & Hlen). by destruct (Hn c Hc).
  - split; [|reflexivity]. intros _. exists c. by rewrite Hi.
Qed.
End DetailsOfBone.

(** ** Storing and reading back a selection *)

Section StoredSelection.
Context `{Engine} `{!EngineLaws}.

(** C10. [SetSelectedBoneNames] stores one index per given name: entry [k] of
    the component's [BonesOfInterest] is [GetBoneIndex] of name [k], a name the
    mesh does not have is stored as [INDEX_NONE] rather than skipped, the number
    of stored indices is the number of names, and [GetSelectedBoneNames] then
    returns as many names. *)
Theorem SetSelectedBoneNames_stores_every_index (names out : list FName) e c :
  _skeletalMeshPreviewComponent e = Some c ->
  exists e' c',
    SetSelectedBoneNames names e = Ok tt e'
    /\ _skeletalMeshPreviewComponent e' = Some c'
    /\ BonesOfInterest c' = GetBoneIndex c <$> names
    /\ (forall k name, names !! k = Some name ->
          BonesOfInterest c' !! k = Some (GetBoneIndex c name))
    /\ (forall k name, names !! k = Some name ->
          (forall m, SkeletalMesh c = Some m -> name ∉ BoneNames m) ->
          BonesOfInterest c' !! k = Some INDEX_NONE)
    /\ length (BonesOfInterest c') = length names
    /\ length (GetSelectedBoneNames out e') = length names.
Proof.
  intros Hc.
  exists (highlighting (GetBoneIndex c <$> names) c e),
         (set_BonesOfInterest (GetBoneIndex c <$> names) c).
  split; [by apply SetSelectedBoneNames_component|].
  split; [reflexivity|]. split; [reflexivity|]. cbn [BonesOfInterest set_BonesOfInterest].
  repeat split.
  - intros k name Hk. by rewrite list_lookup_fmap, Hk.
  - intros k name Hk Hmissing.
    rewrite list_lookup_fmap, Hk. cbn. f_equal. by apply GetBoneIndex_missing.
  - by rewrite length_fmap.
  - erewrite GetSelectedBoneNames_component by reflexivity.
    cbn. by rewrite !length_fmap.
Qed.
End StoredSelection.

(** ** Changing the preview mesh *)

Section PreviewMesh.
Context `{Engine}.

(** C2. A mesh that does not fit the skeleton of the current pose is ignored:
    [SetPreviewSkeletalMesh] returns normally and the editor -- the component
    and its mesh, the preview scene, the viewport client and everything else --
    is exactly as it was. *)
Theorem SetPreviewSkeletalMesh_incompatible e pose skeleton mesh :
  _currentPose e = Some pose ->
  GetSkeleton pose = Some skeleton ->
  IsCompatibleMesh skeleton mesh = false ->
  SetPreviewSkeletalMesh (Some mesh) e = Ok tt e.
Proof.
  intros Hpose Hskel Hbad. unfold SetPreviewSkeletalMesh. run.
  rewrite Hpose. cbn. rewrite Hskel. cbn. by rewrite Hbad.
Qed.

(** The mesh the component already shows: only the animation is set up again. *)
Lemma SetPreviewSkeletalMesh_same e pose skeleton mesh c :
  _currentPose e = Some pose ->
  GetSkeleton pose = Some skeleton ->
  IsCompatibleMesh skeleton mesh = true ->
  _skeletalMeshPreviewComponent e = Some c ->
  mesh_ptr_neq (Some mesh) (SkeletalMesh c) = false ->
  SetPreviewSkeletalMesh (Some mesh) e
  = Ok tt (set_skeletalMeshPreviewComponent (Some (InitAnim true c)) e).
Proof.
  intros Hpose Hskel Hfit Hc Hsame. unfold SetPreviewSkeletalMesh. run.
  rewrite Hpose. cbn. rewrite Hskel. cbn. rewrite Hfit, Hc. cbn. by rewrite Hsame.
Qed.

(** Another mesh than the one the component shows. *)
Lemma SetPreviewSkeletalMesh_other e pose skeleton mesh c :
  _currentPose e = Some pose ->
  GetSkeleton pose = Some skeleton ->
  IsCompatibleMesh skeleton mesh = true ->
  _skeletalMeshPreviewComponent e = Some c ->
  mesh_ptr_neq (Some mesh) (SkeletalMesh c) = true ->
  SetPreviewSkeletalMesh (Some mesh) e
  = Ok tt
      (set_viewportClient
         (SetSkeletalMeshPreviewComponent (Some PreviewComponentRef)
            <$> _viewportClientWeakPtr e)
         (set_previewScene
            (AddComponent PreviewComponentRef FTransform_Identity (_previewScene e))
            (set_skeletalMeshPreviewComponent (Some (SetSkeletalMesh mesh c)) e))).
Proof.
  intros Hpose Hskel Hfit Hc Hother. unfold SetPreviewSkeletalMesh. run.
  rewrite Hpose. cbn. rewrite Hskel. cbn. rewrite Hfit, Hc. cbn. rewrite Hother.
  destruct (_viewportClientWeakPtr e) eqn:Hw; cbn; [reflexivity|].
  unfold set_viewportClient, set_previewScene, set_skeletalMeshPreviewComponent.
  cbn. by rewrite Hw.
Qed.
End PreviewMesh.

Section PreviewMeshSwap.
Context `{Engine} `{!EngineLaws}.

(** C5, as the code has it.  For a mesh that fits the skeleton of the current
    pose and is not the mesh the preview component already shows,
    [SetPreviewSkeletalMesh] makes it the component's mesh, adds the component
    to the preview scene and, when the viewport client is still alive, hands the
    component to it.  For the mesh the component already shows it only sets up
    the component's animation again: the preview scene and the viewport client
    are not touched. *)
Theorem SetPreviewSkeletalMesh_compatible e pose skeleton mesh c :
  _currentPose e = Some pose ->
  GetSkeleton pose = Some skeleton ->
  IsCompatibleMesh skeleton mesh = true ->
  _skeletalMeshPreviewComponent e = Some c ->
  (mesh_ptr_neq (Some mesh) (SkeletalMesh c) = true ->
   exists e' c',
     SetPreviewSkeletalMesh (Some mesh) e = Ok tt e'
     /\ _skeletalMeshPreviewComponent e' = Some c'
     /\ c' = SetSkeletalMesh mesh c
     /\ SkeletalMesh c' = Some mesh
     /\ _previewScene e'
        = AddComponent PreviewComponentRef FTransform_Identity (_previewScene e)
     /\ _viewportClientWeakPtr e'
        = SetSkeletalMeshPreviewComponent (Some PreviewComponentRef)
            <$> _viewportClientWeakPtr e)
  /\ (mesh_ptr_neq (Some mesh) (SkeletalMesh c) = false ->
      exists e',
        SetPreviewSkeletalMesh (Some mesh) e = Ok tt e'
        /\ _skeletalMeshPreviewComponent e' = Some (InitAnim true c)
        /\ _previewScene e' = _previewScene e
        /\ _viewportClientWeakPtr e' = _viewportClientWeakPtr e).
Proof.
  intros Hpose Hskel Hfit Hc. split; intros Hptr.
  - eexists _, _. split; [by eapply SetPreviewSkeletalMesh_other|].
    cbn. repeat split. apply SetSkeletalMesh_mesh.
  - eexists. split; [by eapply SetPreviewSkeletalMesh_same|]. by cbn.
Qed.
End PreviewMeshSwap.

(** ** The two selection handlers *)

Section Handlers.
Context `{Engine}.

Lemma refresh_details_run (e : FPoseEditor) :
  (let* d := this _detailsView in
   if d is Some _ then
     let bForceRefresh := true in
     let* obj := GetDetailsViewSourceObject in
     let* d' := this _detailsView in
     let* view := deref d' in
     assign (set_detailsView (Some (IDetailsView_SetObject obj bForceRefresh view)))
   else ret tt) e
  = refresh_details e.
Proof.
  unfold refresh_details. unfold bind at 1, this at 1.
  destruct (_detailsView e) as [view|] eqn:Hd; [|reflexivity].
  cbn zeta. unfold bind at 1.
  destruct (GetDetailsViewSourceObject e) as [obj e'|f] eqn:Hrun; [|reflexivity].
  apply GetDetailsViewSourceObject_frame in Hrun as [b ->].
  run. by rewrite Hd.
Qed.

(** The viewport handler: the names of the highlighted indices go to the tree
    (when there is one), then the details panel (when there is one) is bound
    anew. *)
Lemma Viewport_OnSelectionChanged_run e :
  Viewport_OnSelectionChanged e
  = refresh_details
      (set_skeletonTree
         (SSkeletonTree_SetSelectedBoneNames (GetSelectedBoneNames [] e)
            <$> _skeletonTree e) e).
Proof.
  unfold Viewport_OnSelectionChanged. cbn zeta.
  unfold bind at 1, this at 1. unfold bind at 1, this at 1. unfold bind at 1.
  destruct (_skeletonTree e) as [tree|] eqn:Ht.
  - unfold assign at 1. rewrite refresh_details_run. reflexivity.
  - unfold ret at 1. rewrite refresh_details_run. f_equal.
    destruct e; cbn in *; by subst.
Qed.

(** The tree handler stops at [_skeletonTree->GetSelectedBoneNames] (line 394)
    when there is no tree. *)
Lemma SkeletonTree_OnSelectionChanged_no_tree e :
  _skeletonTree e = None ->
  SkeletonTree_OnSelectionChanged e = Crash NullDereference.
Proof.
  intros Ht. unfold SkeletonTree_OnSelectionChanged. run. by rewrite Ht.
Qed.

(** [SetPreviewSkeletalMesh] stops at [_skeletalMeshPreviewComponent->SkeletalMesh]
    (line 286) when there is no preview component. *)
Lemma SetPreviewSkeletalMesh_no_component e pose skeleton mesh :
  _currentPose e = Some pose ->
  GetSkeleton pose = Some skeleton ->
  IsCompatibleMesh skeleton mesh = true ->
  _skeletalMeshPreviewComponent e = None ->
  SetPreviewSkeletalMesh (Some mesh) e = Crash NullDereference.
Proof.
  intros Hpose Hskel Hfit Hc. unfold SetPreviewSkeletalMesh. run.
  rewrite Hpose. cbn. rewrite Hskel. cbn. by rewrite Hfit, Hc.
Qed.

(** The tree handler, given a tree: the selection is stored (when there is a
    component), the viewport is asked to redraw (when there is one), and the
    details panel (when there is one) is bound anew. *)
Lemma SkeletonTree_OnSelectionChanged_run e tree e1 :
  _skeletonTree e = Some tree ->
  SetSelectedBoneNames (TreeSelection tree) e = Ok tt e1 ->
  SkeletonTree_OnSelectionChanged e
  = refresh_details
      (match _viewport e1 with
       | Some viewport => set_viewport (Some (Refresh viewport)) e1
       | None => e1
       end).
Proof.
  intros Ht Hset. unfold SkeletonTree_OnSelectionChanged. cbn zeta.
  unfold bind at 1, this at 1. rewrite Ht. unfold bind at 1, deref at 1, ret at 1.
  unfold SSkeletonTree_GetSelectedBoneNames. unfold bind at 1. rewrite Hset.
  unfold bind at 1, this at 1. unfold bind at 1.
  destruct (_viewport e1) as [viewport|] eqn:Hv.
  - unfold assign at 1. by rewrite refresh_details_run.
  - unfold ret at 1. by rewrite refresh_details_run.
Qed.
End Handlers.

Section Agreement.
Context `{Engine}.

(** The bone object that [GetDetailsViewSourceObject] fills in is determined by
    the component and the highlighted index alone. *)
Lemma GetDetailsViewSourceObject_same_component e e' c i r e1 :
  _skeletalMeshPreviewComponent e = Some c ->
  _skeletalMeshPreviewComponent e' = Some c ->
  BonesOfInterest c = [i] ->
  is_Some (_detailsViewBone e') ->
  GetDetailsViewSourceObject e = Ok r e1 ->
  GetDetailsViewSourceObject e' = Ok r (set_detailsViewBone (_detailsViewBone e1) e').
Proof.
  intros Hc Hc' Hi [b' Hb'] Hrun.
  apply GetDetailsViewSourceObject_returned in Hrun
    as [(_ & _ & Hn) | (c0 & i0 & b & inst & bone & Hc0 & Hi0 & Hb & Hinst & -> & -> & Hname & Hparent & Hxf)].
  { exfalso. apply (Hn c Hc). by rewrite Hi. }
  assert (c0 = c) as -> by congruence.
  assert (i0 = i) as -> by congruence.
  cbn [_detailsViewBone set_detailsViewBone].
  destruct (FindModifiedBone inst (GetBoneName c i)) as [ctl|] eqn:Hctl.
  - rewrite (GetDetailsViewSourceObject_modified e' c i b' inst ctl) by assumption.
    do 3 f_equal. destruct bone; cbn in *; by subst.
  - destruct Hxf as (mesh & Hmesh & Hpose).
    rewrite (GetDetailsViewSourceObject_reference e' c i b' inst mesh (BoneTransform bone))
      by assumption.
    do 3 f_equal. destruct bone; cbn in *; by subst.
Qed.

(** Binding the details panel to the bone object of a one-bone selection. *)
Lemma refresh_details_bone e c i view bone :
  _skeletalMeshPreviewComponent e = Some c ->
  BonesOfInterest c = [i] ->
  _detailsView e = Some view ->
  GetDetailsViewSourceObject e
  = Ok (Some DetailsViewBoneRef) (set_detailsViewBone (Some bone) e) ->
  exists e',
    refresh_details e = Ok tt e'
    /\ _skeletalMeshPreviewComponent e' = Some c
    /\ selection_state e'
       = {| Highlighted := Some [i];
            TreeRows := TreeSelection <$> _skeletonTree e;
            Bound := Some (Some DetailsViewBoneRef);
            Target := Some bone |}.
Proof.
  intros Hc Hi Hview Hrun. unfold refresh_details. rewrite Hview, Hrun.
  eexists. split; [reflexivity|]. split; [exact Hc|].
  unfold selection_state, DetailsTarget. cbn. rewrite Hc. cbn. by rewrite Hi.
Qed.
End Agreement.

Section Synchronisation.
Context `{Engine} `{!EngineLaws}.

(** The index of a bone of a well-formed mesh is an index of its reference
    pose, and names the bone. *)
Lemma GetBoneIndex_bone c mesh b a :
  SkeletalMesh c = Some mesh ->
  b ∈ BoneNames mesh ->
  mesh_wf mesh ->
  TArray.IsValidIndex (GetRefBonePose (RefSkeleton mesh)) (GetBoneIndex c b) = true
  /\ GetBoneName (set_BonesOfInterest a c) (GetBoneIndex c b) = b.
Proof.
  intros Hmesh Hb Hwf.
  destruct (GetBoneIndex_found (set_BonesOfInterest a c) mesh b Hmesh Hb) as [Hvalid Hname].
  rewrite GetBoneIndex_selection in Hvalid, Hname. split; [|exact Hname].
  unfold TArray.IsValidIndex, TArray.Num, GetRefBonePose in *. by rewrite Hwf.
Qed.

(** What the tree handler leaves behind when the one selected row names a bone
    of the preview mesh. *)
Lemma SkeletonTree_OnSelectionChanged_bone e tree c mesh b inst bone0 view :
  _skeletonTree e = Some tree ->
  TreeSelection tree = [b] ->
  _skeletalMeshPreviewComponent e = Some c ->
  SkeletalMesh c = Some mesh ->
  b ∈ BoneNames mesh ->
  mesh_wf mesh ->
  PreviewInstance c = Some inst ->
  _detailsViewBone e = Some bone0 ->
  _detailsView e = Some view ->
  exists e' bone,
    SkeletonTree_OnSelectionChanged e = Ok tt e'
    /\ _skeletalMeshPreviewComponent e'
       = Some (set_BonesOfInterest [GetBoneIndex c b] c)
    /\ selection_state e'
       = {| Highlighted := Some [GetBoneIndex c b];
            TreeRows := Some [b];
            Bound := Some (Some DetailsViewBoneRef);
            Target := Some bone |}
    /\ BoneName bone = b
    /\ GetDetailsViewSourceObject (highlighting [GetBoneIndex c b] c e)
       = Ok (Some DetailsViewBoneRef)
            (set_detailsViewBone (Some bone) (highlighting [GetBoneIndex c b] c e)).
Proof.
  intros Ht Hsel Hc Hmesh Hb Hwf Hinst Hbone Hview.
  destruct (GetBoneIndex_bone c mesh b [GetBoneIndex c b] Hmesh Hb Hwf) as [Hvalid Hname].
  set (i := GetBoneIndex c b) in *.
  set (c1 := set_BonesOfInterest [i] c) in *.
  pose proof (SetSelectedBoneNames_component c (TreeSelection tree) e Hc) as Hset.
  rewrite Hsel in Hset. cbn [fmap list_fmap] in Hset. fold i in Hset.
  rewrite <- Hsel in Hset at 1.
  rewrite (SkeletonTree_OnSelectionChanged_run e tree _ Ht Hset).
  set (e1 := highlighting [i] c e) in *.
  destruct (GetDetailsViewSourceObject_bone e1 c1 i bone0 inst mesh)
    as (bone & Hrun & Hbn & _); try done.
  set (e2 := match _viewport e1 with
             | Some viewport => set_viewport (Some (Refresh viewport)) e1
             | None => e1
             end).
  assert (Hc2 : _skeletalMeshPreviewComponent e2 = Some c1)
    by (subst e2; by destruct (_viewport e1)).
  assert (Hrun2 : GetDetailsViewSourceObject e2
                  = Ok (Some DetailsViewBoneRef) (set_detailsViewBone (Some bone) e2)).
  { assert (Hb2 : is_Some (_detailsViewBone e2))
      by (exists bone0; subst e2; by destruct (_viewport e1)).
    by rewrite (GetDetailsViewSourceObject_same_component
                  e1 e2 c1 i _ _ eq_refl Hc2 eq_refl Hb2 Hrun). }
  destruct (refresh_details_bone e2 c1 i view bone Hc2 eq_refl) as (e' & Hfin & Hc' & Hstate).
  { subst e2. by destruct (_viewport e1). }
  { exact Hrun2. }
  exists e', bone. split; [exact Hfin|]. split; [exact Hc'|].
  split; [|split; [by rewrite Hbn, Hname | exact Hrun]].
  rewrite Hstate. f_equal.
  subst e2. destruct (_viewport e1); cbn; rewrite Ht; cbn; by rewrite Hsel.
Qed.

(** C3. When the one row selected in the skeleton tree names a bone [b] of the
    preview mesh, then after [SkeletonTree_OnSelectionChanged] the indices
    highlighted in the viewport, read back as names, are exactly [b], and the
    object bound to the details panel is the bone object with bone name [b]. *)
Theorem tree_selection_reaches_viewport_and_details e tree c mesh b inst bone0 view out :
  _skeletonTree e = Some tree ->
  TreeSelection tree = [b] ->
  _skeletalMeshPreviewComponent e = Some c ->
  SkeletalMesh c = Some mesh ->
  b ∈ BoneNames mesh ->
  mesh_wf mesh ->
  PreviewInstance c = Some inst ->
  _detailsViewBone e = Some bone0 ->
  _detailsView e = Some view ->
  exists e' proxy,
    SkeletonTree_OnSelectionChanged e = Ok tt e'
    /\ GetSelectedBoneNames out e' = [b]
    /\ BoundObject <$> _detailsView e' = Some (Some DetailsViewBoneRef)
    /\ DetailsTarget e' = Some proxy
    /\ BoneName proxy = b
    /\ BoneName proxy = GetBoneName (set_BonesOfInterest [GetBoneIndex c b] c) (GetBoneIndex c b).
Proof.
  intros Ht Hsel Hc Hmesh Hb Hwf Hinst Hbone Hview.
  destruct (SkeletonTree_OnSelectionChanged_bone e tree c mesh b inst bone0 view)
    as (e' & proxy & Hrun & Hc' & Hstate & Hname & _); try done.
  exists e', proxy. split; [exact Hrun|].
  destruct (GetBoneIndex_bone c mesh b [GetBoneIndex c b] Hmesh Hb Hwf) as [_ Hback].
  split.
  { rewrite (GetSelectedBoneNames_component out e' _ Hc'). cbn. by rewrite Hback. }
  injection Hstate as _ _ Hbound Htarget.
  by rewrite Hback.
Qed.
End Synchronisation.

(** ** What a handler leaves alone *)

Section Frames.
Context `{Engine}.

Lemma set_component_same (e : FPoseEditor) :
  e = set_skeletalMeshPreviewComponent (_skeletalMeshPreviewComponent e) e.
Proof. by destruct e. Qed.

Lemma BonesOfInterest_store_frame i v e e' :
  BonesOfInterest_store i v e = Ok tt e' ->
  exists p, e' = set_skeletalMeshPreviewComponent p e.
Proof.
  unfold BonesOfInterest_store. run.
  destruct (_skeletalMeshPreviewComponent e) as [c|]; [|discriminate]. cbn.
  destruct (TArray.set (BonesOfInterest c) i v); [|discriminate].
  intros [= <-]. by eexists.
Qed.

Lemma store_index_frame names i e e' :
  store_index names i e = Ok tt e' ->
  exists p, e' = set_skeletalMeshPreviewComponent p e.
Proof.
  unfold store_index. unfold bind at 1, index at 1.
  destruct (TArray.get names i) as [name|]; [|discriminate].
  unfold ret at 1, bind at 1, this at 1, bind at 1, deref at 1.
  destruct (_skeletalMeshPreviewComponent e) as [c|]; [|discriminate].
  unfold ret at 1. apply BonesOfInterest_store_frame.
Qed.

Lemma for_range_frame names n :
  forall i e e',
    for_range n i (store_index names) e = Ok tt e' ->
    exists p, e' = set_skeletalMeshPreviewComponent p e.
Proof.
  induction n as [|n IH]; intros i e e'; cbn [for_range].
  - intros [= <-]. eexists. apply set_component_same.
  - unfold bind at 1.
    destruct (store_index names i e) as [[] e1|] eqn:Hstep; [|discriminate].
    intros Hrest. apply store_index_frame in Hstep as [p ->].
    apply IH in Hrest as [q ->]. by eexists.
Qed.

(** [SetSelectedBoneNames] writes nothing but the preview component. *)
Lemma SetSelectedBoneNames_frame names e e' :
  SetSelectedBoneNames names e = Ok tt e' ->
  exists p, e' = set_skeletalMeshPreviewComponent p e.
Proof.
  unfold SetSelectedBoneNames. unfold bind at 1, this at 1.
  destruct (_skeletalMeshPreviewComponent e) as [c|] eqn:Hc.
  2:{ intros [= <-]. eexists. apply set_component_same. }
  unfold bind at 1, BonesOfInterest_do at 1. run. rewrite Hc. cbn.
  unfold for_upto. intros Hloop.
  apply for_range_frame in Hloop as [p ->]. by eexists.
Qed.

(** Binding the details panel writes the bone object and the panel only. *)
Lemma refresh_details_frame e e' :
  refresh_details e = Ok tt e' ->
  exists b d, e' = set_detailsView d (set_detailsViewBone b e).
Proof.
  unfold refresh_details.
  destruct (_detailsView e) as [view|] eqn:Hd.
  - destruct (GetDetailsViewSourceObject e) as [obj e1|] eqn:Hrun; [|discriminate].
    apply GetDetailsViewSourceObject_frame in Hrun as [b ->].
    intros [= <-]. by eexists _, _.
  - intros [= <-]. exists (_detailsViewBone e), None. destruct e; cbn in *; by subst.
Qed.

(** The tree handler does not write the tree, the viewport client or the
    preview scene. *)
Lemma SkeletonTree_OnSelectionChanged_frame e e' :
  SkeletonTree_OnSelectionChanged e = Ok tt e' ->
  _skeletonTree e' = _skeletonTree e
  /\ _viewportClientWeakPtr e' = _viewportClientWeakPtr e
  /\ _previewScene e' = _previewScene e.
Proof.
  intros Hrun.
  destruct (_skeletonTree e) as [tree|] eqn:Ht.
  2:{ by rewrite SkeletonTree_OnSelectionChanged_no_tree in Hrun. }
  destruct (SetSelectedBoneNames (TreeSelection tree) e) as [[] e1|f] eqn:Hset.
  2:{ unfold SkeletonTree_OnSelectionChanged in Hrun. cbn zeta in Hrun.
      unfold bind at 1, this at 1 in Hrun. rewrite Ht in Hrun.
      unfold bind at 1, deref at 1, ret at 1 in Hrun.
      unfold SSkeletonTree_GetSelectedBoneNames in Hrun.
      unfold bind at 1 in Hrun. by rewrite Hset in Hrun. }
  rewrite (SkeletonTree_OnSelectionChanged_run e tree e1 Ht Hset) in Hrun.
  apply SetSelectedBoneNames_frame in Hset as [p ->].
  apply refresh_details_frame in Hrun as (b & d & ->).
  destruct (_viewport (set_skeletalMeshPreviewComponent p e)); cbn; by rewrite ?Ht.
Qed.

(** The viewport handler does not write the preview component, the viewport
    client or the preview scene, and makes the tree emit nothing. *)
Lemma Viewport_OnSelectionChanged_frame e e' :
  Viewport_OnSelectionChanged e = Ok tt e' ->
  _skeletalMeshPreviewComponent e' = _skeletalMeshPreviewComponent e
  /\ _viewportClientWeakPtr e' = _viewportClientWeakPtr e
  /\ _previewScene e' = _previewScene e
  /\ TreeNotifications <$> _skeletonTree e' = TreeNotifications <$> _skeletonTree e.
Proof.
  rewrite Viewport_OnSelectionChanged_run. intros Hrun.
  apply refresh_details_frame in Hrun as (b & d & ->). cbn.
  repeat split. by destruct (_skeletonTree e).
Qed.

(** C8. Handling a selection-changed notification makes no panel emit another
    one: the tree handler leaves the tree and the viewport client as they are
    (it only writes the component's [BonesOfInterest]), and the viewport handler
    sets the tree's selection without the tree notifying and leaves the
    component and the viewport client as they are.  So no handler is entered
    again within the cycle. *)
Theorem dispatch_emits_nothing n e e' :
  Dispatch n e = Ok tt e' ->
  Emitted e' = Emitted e
  /\ match n with
     | TreeSelectionChanged =>
         _skeletonTree e' = _skeletonTree e
         /\ _viewportClientWeakPtr e' = _viewportClientWeakPtr e
     | ViewportSelectionChanged =>
         _skeletalMeshPreviewComponent e' = _skeletalMeshPreviewComponent e
         /\ _viewportClientWeakPtr e' = _viewportClientWeakPtr e
     end.
Proof.
  unfold Emitted. destruct n; cbn [Dispatch]; intros Hrun.
  - apply SkeletonTree_OnSelectionChanged_frame in Hrun as (-> & -> & _). tauto.
  - apply Viewport_OnSelectionChanged_frame in Hrun as (-> & -> & _ & ->). tauto.
Qed.
End Frames.

Section FromTheViewport.
Context `{Engine}.

(** C6. For a selection made in the viewport -- indices of bones of the preview
    mesh, kept in the component's [BonesOfInterest] -- the viewport handler
    reads those indices, maps each to its bone name, makes these names the
    tree's selection, and refreshes what the details panel is bound to.  For
    one index the bone object is filled in with that bone's name, its parent's
    name and its transform (built from the override when the bone has one, the
    entry of the reference pose otherwise) and the panel is bound to it, so
    that the panel displays that bone; for no index or several the bone object
    is left as it is and the panel is bound to nothing.  The handler writes the
    tree, the bone object and the details panel, and nothing else: the
    component is left as it is. *)
Theorem viewport_selection_reaches_tree_and_details e c tree view mesh inst bone0 :
  _skeletalMeshPreviewComponent e = Some c ->
  _skeletonTree e = Some tree ->
  _detailsView e = Some view ->
  _detailsViewBone e = Some bone0 ->
  SkeletalMesh c = Some mesh ->
  PreviewInstance c = Some inst ->
  Forall (fun i => TArray.IsValidIndex (GetRefBonePose (RefSkeleton mesh)) i = true)
         (BonesOfInterest c) ->
  exists e' obj bone,
    Viewport_OnSelectionChanged e = Ok tt e'
    /\ e' = set_detailsView (Some (IDetailsView_SetObject obj true view))
              (set_detailsViewBone (Some bone)
                 (set_skeletonTree
                    (Some (SSkeletonTree_SetSelectedBoneNames
                             (GetBoneName c <$> BonesOfInterest c) tree)) e))
    /\ _skeletalMeshPreviewComponent e' = Some c
    /\ TreeSelection <$> _skeletonTree e' = Some (GetBoneName c <$> BonesOfInterest c)
    /\ GetDetailsViewSourceObject
         (set_skeletonTree
            (Some (SSkeletonTree_SetSelectedBoneNames
                     (GetBoneName c <$> BonesOfInterest c) tree)) e)
       = Ok obj
           (set_detailsViewBone (Some bone)
              (set_skeletonTree
                 (Some (SSkeletonTree_SetSelectedBoneNames
                          (GetBoneName c <$> BonesOfInterest c) tree)) e))
    /\ BoundObject <$> _detailsView e' = Some obj
    /\ obj = (if decide (length (BonesOfInterest c) = 1%nat)
              then Some DetailsViewBoneRef else None)
    /\ _detailsViewBone e' = Some bone
    /\ match BonesOfInterest c with
       | [i] =>
           DetailsTarget e' = Some bone
           /\ BoneName bone = GetBoneName c i
           /\ ParentBoneName bone = GetParentBone c (GetBoneName c i)
           /\ match FindModifiedBone inst (GetBoneName c i) with
              | Some ctl =>
                  BoneTransform bone
                  = SetComponents (Quaternion (Rotation ctl)) (Translation ctl)
                                  (Scale ctl) (BoneTransform bone0)
              | None =>
                  TArray.get (GetRefBonePose (RefSkeleton mesh)) i
                  = Some (BoneTransform bone)
              end
       | _ => bone = bone0 /\ DetailsTarget e' = None
       end.
Proof.
  intros Hc Ht Hview Hbone Hmesh Hinst Hvalid.
  rewrite Viewport_OnSelectionChanged_run, Ht.
  rewrite (GetSelectedBoneNames_component [] e c Hc). cbn [fmap option_fmap option_map].
  unfold refresh_details. cbn [_detailsView set_skeletonTree]. rewrite Hview.
  assert (Hkeep : forall t,
            set_detailsViewBone (Some bone0) (set_skeletonTree t e)
            = set_skeletonTree t e).
  { intros t. destruct e; cbn in *; by subst. }
  assert (Hnone : forall a,
            BonesOfInterest c = a -> length a <> 1%nat ->
            exists e' obj bone,
              match
                GetDetailsViewSourceObject
                  (set_skeletonTree
                     (Some (SSkeletonTree_SetSelectedBoneNames (GetBoneName c <$> a) tree)) e)
              with
              | Ok obj e' =>
                  Ok tt (set_detailsView (Some (IDetailsView_SetObject obj true view)) e')
              | Crash f => Crash f
              end = Ok tt e'
              /\ e' = set_detailsView (Some (IDetailsView_SetObject obj true view))
                        (set_detailsViewBone (Some bone)
                           (set_skeletonTree
                              (Some (SSkeletonTree_SetSelectedBoneNames
                                       (GetBoneName c <$> a) tree)) e))
              /\ _skeletalMeshPreviewComponent e' = Some c
              /\ TreeSelection <$> _skeletonTree e' = Some (GetBoneName c <$> a)
              /\ GetDetailsViewSourceObject
                   (set_skeletonTree
                      (Some (SSkeletonTree_SetSelectedBoneNames (GetBoneName c <$> a) tree)) e)
                 = Ok obj
                     (set_detailsViewBone (Some bone)
                        (set_skeletonTree
                           (Some (SSkeletonTree_SetSelectedBoneNames
                                    (GetBoneName c <$> a) tree)) e))
              /\ BoundObject <$> _detailsView e' = Some obj
              /\ obj = None
              /\ _detailsViewBone e' = Some bone
              /\ bone = bone0 /\ DetailsTarget e' = None).
  { intros a Ha Hlen.
    rewrite (GetDetailsViewSourceObject_not_single _ c) by (by rewrite ?Ha).
    exists (set_detailsView (Some (IDetailsView_SetObject None true view))
              (set_skeletonTree
                 (Some (SSkeletonTree_SetSelectedBoneNames (GetBoneName c <$> a) tree)) e)),
      None, bone0.
    rewrite Hkeep. by repeat split. }
  destruct (BonesOfInterest c) as [|i [|j rest]] eqn:Hi.
  - destruct (Hnone [] eq_refl) as (e' & obj & bone & H1 & H2 & H3 & H4 & H5 & H6 & -> & H8 & H9 & H10);
      [done|].
    exists e', None, bone. by repeat split.
  - apply Forall_inv in Hvalid.
    set (e0 := set_skeletonTree _ e).
    destruct (FindModifiedBone inst (GetBoneName c i)) as [ctl|] eqn:Hctl.
    + rewrite (GetDetailsViewSourceObject_modified e0 c i bone0 inst ctl) by done.
      eexists _, _, _. split; [reflexivity|].
      by repeat split.
    + destruct (TArray_get_valid _ _ Hvalid) as [pose Hpose].
      rewrite (GetDetailsViewSourceObject_reference e0 c i bone0 inst mesh pose) by done.
      eexists _, _, _. split; [reflexivity|].
      by repeat split.
  - destruct (Hnone (i :: j :: rest) eq_refl)
      as (e' & obj & bone & H1 & H2 & H3 & H4 & H5 & H6 & -> & H8 & H9 & H10);
      [done|].
    exists e', None, bone. by repeat split.
Qed.
End FromTheViewport.

Section Convergence.
Context `{Engine} `{!EngineLaws}.

(** Selecting one bone of the preview mesh in the tree. *)
Lemma User_SelectInTree_bone e tree c mesh b inst bone0 view :
  _skeletonTree e = Some tree ->
  _skeletalMeshPreviewComponent e = Some c ->
  SkeletalMesh c = Some mesh ->
  b ∈ BoneNames mesh ->
  mesh_wf mesh ->
  PreviewInstance c = Some inst ->
  _detailsViewBone e = Some bone0 ->
  _detailsView e = Some view ->
  exists e' bone,
    User_SelectInTree [b] e = Ok tt e'
    /\ _skeletalMeshPreviewComponent e'
       = Some (set_BonesOfInterest [GetBoneIndex c b] c)
    /\ _viewportClientWeakPtr e' = _viewportClientWeakPtr e
    /\ selection_state e'
       = {| Highlighted := Some [GetBoneIndex c b];
            TreeRows := Some [b];
            Bound := Some (Some DetailsViewBoneRef);
            Target := Some bone |}
    /\ forall y,
         _skeletalMeshPreviewComponent y
         = Some (set_BonesOfInterest [GetBoneIndex c b] c) ->
         is_Some (_detailsViewBone y) ->
         GetDetailsViewSourceObject y
         = Ok (Some DetailsViewBoneRef) (set_detailsViewBone (Some bone) y).
Proof.
  intros Ht Hc Hmesh Hb Hwf Hinst Hbone Hview.
  unfold User_SelectInTree. unfold bind at 1, this at 1. rewrite Ht.
  unfold bind at 1, deref at 1, ret at 1. unfold bind at 1, assign at 1.
  cbn [Dispatch].
  set (tree' := SSkeletonTree_UserSelect [b] tree).
  set (e0 := set_skeletonTree (Some tree') e).
  destruct (SkeletonTree_OnSelectionChanged_bone e0 tree' c mesh b inst bone0 view)
    as (e' & bone & Hrun & Hc' & Hstate & _ & Hshow); try done.
  exists e', bone. split; [exact Hrun|]. split; [exact Hc'|].
  split.
  { apply SkeletonTree_OnSelectionChanged_frame in Hrun as (_ & -> & _). reflexivity. }
  split; [exact Hstate|].
  intros y Hy Hby.
  set (i := GetBoneIndex c b) in *.
  by rewrite (GetDetailsViewSourceObject_same_component
                (highlighting [i] c e0) y (set_BonesOfInterest [i] c) i _ _
                eq_refl Hy eq_refl Hby Hshow).
Qed.

End Convergence.

Section ConvergenceFromViewport.
Context `{Engine}.

(** Picking one bone in the viewport, when the bone object for that pick is
    known. *)
Lemma User_PickInViewport_bone x cx i client tree view bx bone :
  _viewportClientWeakPtr x = Some client ->
  _skeletalMeshPreviewComponent x = Some cx ->
  _skeletonTree x = Some tree ->
  _detailsView x = Some view ->
  _detailsViewBone x = Some bx ->
  (forall y,
     _skeletalMeshPreviewComponent y = Some (set_BonesOfInterest [i] cx) ->
     is_Some (_detailsViewBone y) ->
     GetDetailsViewSourceObject y
     = Ok (Some DetailsViewBoneRef) (set_detailsViewBone (Some bone) y)) ->
  exists e',
    User_PickInViewport [i] x = Ok tt e'
    /\ selection_state e'
       = {| Highlighted := Some [i];
            TreeRows := Some [GetBoneName (set_BonesOfInterest [i] cx) i];
            Bound := Some (Some DetailsViewBoneRef);
            Target := Some bone |}.
Proof.
  intros Hw Hc Ht Hview Hbx Hshow.
  unfold User_PickInViewport. unfold bind at 1, this at 1. rewrite Hw.
  unfold bind at 1, deref at 1, ret at 1.
  unfold bind at 1. rewrite (BonesOfInterest_do_component _ x cx Hc).
  unfold bind at 1, assign at 1. cbn [Dispatch].
  rewrite Viewport_OnSelectionChanged_run.
  match goal with |- context [GetSelectedBoneNames [] ?s] => set (e0 := s) end.
  rewrite (GetSelectedBoneNames_component [] e0 (set_BonesOfInterest [i] cx) eq_refl).
  change (_skeletonTree e0) with (_skeletonTree x). rewrite Ht.
  cbn [fmap option_fmap option_map list_fmap BonesOfInterest set_BonesOfInterest].
  match goal with |- context [refresh_details ?s] => set (e1 := s) end.
  destruct (refresh_details_bone e1 (set_BonesOfInterest [i] cx) i view bone)
    as (e' & Hfin & _ & Hstate); try done.
  { apply Hshow; [reflexivity|]. exists bx. exact Hbx. }
  exists e'. split; [exact Hfin|]. rewrite Hstate. reflexivity.
Qed.
End ConvergenceFromViewport.

Section SameBoneTwice.
Context `{Engine} `{!EngineLaws}.

(** Selecting a bone of the preview mesh in the tree, in the viewport, or in the
    tree and then in the viewport, leaves the three panels showing the same
    selection. *)
Lemma select_bone_converges e tree c mesh b inst bone0 view client :
  _skeletonTree e = Some tree ->
  _skeletalMeshPreviewComponent e = Some c ->
  SkeletalMesh c = Some mesh ->
  b ∈ BoneNames mesh ->
  mesh_wf mesh ->
  PreviewInstance c = Some inst ->
  _detailsViewBone e = Some bone0 ->
  _detailsView e = Some view ->
  _viewportClientWeakPtr e = Some client ->
  exists e1 e2 e3 proxy,
    User_SelectInTree [b] e = Ok tt e1
    /\ User_PickInViewport [GetBoneIndex c b] e1 = Ok tt e2
    /\ User_PickInViewport [GetBoneIndex c b] e = Ok tt e3
    /\ selection_state e2 = selection_state e1
    /\ selection_state e3 = selection_state e1
    /\ selection_state e1
       = {| Highlighted := Some [GetBoneIndex c b];
            TreeRows := Some [b];
            Bound := Some (Some DetailsViewBoneRef);
            Target := Some proxy |}
    /\ BoneName proxy = b.
Proof.
  intros Ht Hc Hmesh Hb Hwf Hinst Hbone Hview Hw.
  destruct (GetBoneIndex_bone c mesh b [GetBoneIndex c b] Hmesh Hb Hwf) as [_ Hback].
  destruct (User_SelectInTree_bone e tree c mesh b inst bone0 view)
    as (e1 & proxy & Hrun1 & Hc1 & Hw1 & Hstate1 & Hshow); try done.
  set (i := GetBoneIndex c b) in *.
  assert (Hparts : exists tree1 view1,
             _skeletonTree e1 = Some tree1 /\ _detailsView e1 = Some view1
             /\ _detailsViewBone e1 = Some proxy).
  { unfold selection_state, DetailsTarget in Hstate1.
    injection Hstate1 as _ Hrows Hbound Htarget.
    destruct (_skeletonTree e1) as [tree1|]; [|discriminate].
    destruct (_detailsView e1) as [view1|]; [|discriminate].
    cbn in Hbound, Htarget. injection Hbound as Hbound. rewrite Hbound in Htarget.
    by exists tree1, view1. }
  destruct Hparts as (tree1 & view1 & Ht1 & Hview1 & Hbone1).
  destruct (User_PickInViewport_bone e1 (set_BonesOfInterest [i] c) i client
              tree1 view1 proxy proxy)
    as (e2 & Hrun2 & Hstate2); try done.
  { by rewrite Hw1. }
  destruct (User_PickInViewport_bone e c i client tree view bone0 proxy)
    as (e3 & Hrun3 & Hstate3); try done.
  rewrite set_BonesOfInterest_twice in Hstate2.
  rewrite Hback in Hstate2, Hstate3.
  exists e1, e2, e3, proxy. repeat split; try done.
  - by rewrite Hstate2, Hstate1.
  - by rewrite Hstate3, Hstate1.
  - unfold selection_state, DetailsTarget in Hstate1.
    injection Hstate1 as _ _ Hbound Htarget.
    destruct (_detailsView e1) as [v|]; [|discriminate].
    cbn in Hbound, Htarget. injection Hbound as Hbound. rewrite Hbound in Htarget.
    pose proof (Hshow e1 Hc1 ltac:(by exists proxy)) as Hagain.
    apply GetDetailsViewSourceObject_returned in Hagain
      as [(Hnone & _) | (c' & i' & _ & _ & bone & Hc' & Hi' & _ & _ & _ & Heq & Hname & _)];
      [discriminate|].
    assert (c' = set_BonesOfInterest [i] c) as -> by congruence.
    assert (i' = i) as -> by (cbn in Hi'; congruence).
    assert (bone = proxy) as ->.
    { apply (f_equal _detailsViewBone) in Heq. cbn in Heq. congruence. }
    by rewrite Hname.
Qed.

(** C9. Selecting the bone named "Spine_02" in the skeleton tree and then in
    the viewport leaves the same selection state -- the same highlighted
    indices, the same rows selected in the tree, the same object bound to the
    details panel showing the same bone -- as selecting it in the tree alone or
    in the viewport alone. *)
Theorem Spine_02_converges e tree c mesh inst bone0 view client :
  _skeletonTree e = Some tree ->
  _skeletalMeshPreviewComponent e = Some c ->
  SkeletalMesh c = Some mesh ->
  "Spine_02"%string ∈ BoneNames mesh ->
  mesh_wf mesh ->
  PreviewInstance c = Some inst ->
  _detailsViewBone e = Some bone0 ->
  _detailsView e = Some view ->
  _viewportClientWeakPtr e = Some client ->
  exists tree_only tree_then_viewport viewport_only proxy,
    User_SelectInTree ["Spine_02"%string] e = Ok tt tree_only
    /\ User_PickInViewport [GetBoneIndex c "Spine_02"%string] tree_only
       = Ok tt tree_then_viewport
    /\ User_PickInViewport [GetBoneIndex c "Spine_02"%string] e = Ok tt viewport_only
    /\ selection_state tree_then_viewport = selection_state tree_only
    /\ selection_state viewport_only = selection_state tree_only
    /\ selection_state tree_only
       = {| Highlighted := Some [GetBoneIndex c "Spine_02"%string];
            TreeRows := Some ["Spine_02"%string];
            Bound := Some (Some DetailsViewBoneRef);
            Target := Some proxy |}
    /\ BoneName proxy = "Spine_02"%string.
Proof. apply select_bone_converges. Qed.
End SameBoneTwice.

(** ** Storing a selection, for any engine *)

Section StoringAnyEngine.
Context `{Engine}.
Variable c : UDebugSkelMeshComponent.
Variable names : list FName.

(** The loop of [SetSelectedBoneNames] writes slot after slot of an array that
    was sized for it: every indexed store is in range, whatever the engine
    answers for the bone indices. *)
Lemma for_range_store_index_in_range (todo : list FName) :
  forall (seen : list FName) (done rest : list int32) (e : FPoseEditor),
    names = seen ++ todo ->
    length done = length seen ->
    length rest = length todo ->
    exists out,
      for_range (length todo) (Z.of_nat (length done)) (store_index names)
        (highlighting (done ++ rest) c e)
      = Ok tt (highlighting (done ++ out) c e)
      /\ length out = length todo.
Proof.
  induction todo as [|name todo IH]; intros seen done rest e Hnames Hdone Hrest.
  - destruct rest; [|discriminate]. by exists [].
  - destruct rest as [|old rest]; [discriminate|].
    simpl length. cbn [for_range]. unfold bind at 1.
    set (v := GetBoneIndex (set_BonesOfInterest (done ++ old :: rest) c) name).
    assert (Hstep : store_index names (Z.of_nat (length done))
                      (highlighting (done ++ old :: rest) c e)
                    = Ok tt (highlighting ((done ++ [v]) ++ rest) c e)).
    { unfold store_index, index, bind.
      rewrite TArray_get_of_nat, Hnames.
      rewrite lookup_app_r by lia.
      replace (length done - length seen)%nat with 0%nat by lia. cbn.
      unfold BonesOfInterest_store, bind. cbn. fold v.
      rewrite TArray_set_middle. cbn.
      unfold highlighting. rewrite <- app_assoc. reflexivity. }
    rewrite Hstep.
    replace (Z.of_nat (length done) + 1)
      with (Z.of_nat (length (done ++ [v])))
      by (rewrite length_app; simpl; lia).
    destruct (IH (seen ++ [name]) (done ++ [v]) rest e) as (out & Hrun & Hlen).
    + rewrite <- app_assoc. exact Hnames.
    + rewrite !length_app. simpl. lia.
    + simpl in Hrest. lia.
    + exists (v :: out). rewrite Hrun, <- app_assoc. split; [reflexivity|].
      simpl. by rewrite Hlen.
Qed.

(** With a preview component, [SetSelectedBoneNames] cannot fail and
    writes nothing but [BonesOfInterest]: the component keeps its mesh and its
    preview instance, every other field of the editor is as before, and there
    are as many highlighted indices as names. *)
Lemma SetSelectedBoneNames_only_writes_selection_holds e :
  _skeletalMeshPreviewComponent e = Some c ->
  exists a,
    SetSelectedBoneNames names e = Ok tt (highlighting a c e)
    /\ length a = length names.
Proof.
  intros Hc. unfold SetSelectedBoneNames. unfold bind at 1, this at 1. rewrite Hc.
  unfold bind at 1. rewrite (BonesOfInterest_do_component _ e c Hc).
  unfold bind at 1. rewrite BonesOfInterest_do_run.
  unfold TArray.Empty, TArray.AddUninitialized, for_upto, TArray.Num.
  rewrite Nat2Z.id. cbn [app length].
  destruct (for_range_store_index_in_range names [] []
              (UninitializedSlot <$> seq 0 (length names)) e)
    as (out & Hrun & Hlen); try reflexivity.
  { by rewrite length_fmap, length_seq. }
  exists out. split; [exact Hrun|exact Hlen].
Qed.
End StoringAnyEngine.

(** ** Guards *)

Section Guards.
Context `{Engine}.

(** [SetSelectedBoneNames] always returns, and leaves the three panels alone. *)
Lemma SetSelectedBoneNames_returns names e :
  exists e1,
    SetSelectedBoneNames names e = Ok tt e1
    /\ _skeletonTree e1 = _skeletonTree e
    /\ _viewport e1 = _viewport e
    /\ _detailsView e1 = _detailsView e.
Proof.
  destruct (_skeletalMeshPreviewComponent e) as [c|] eqn:Hc.
  - destruct (SetSelectedBoneNames_only_writes_selection_holds c names e Hc)
      as (a & Hrun & _).
    eexists. split; [exact Hrun|]. by repeat split.
  - exists e. split; [by apply SetSelectedBoneNames_no_component|]. by repeat split.
Qed.

(** C7, as the code has it.  Each call that the controller makes under a
    validity check is skipped when its target is absent, whatever else is
    there.  Without a preview component [SetSelectedBoneNames] does nothing,
    [GetSelectedBoneNames] returns no name and [GetDetailsViewSourceObject]
    returns nothing.  Without a viewport the tree handler stores the selection
    and goes on to the details panel; without a details panel it stores the
    selection, asks the viewport (if any) to redraw, and returns.  Without a
    tree the viewport handler goes straight to the details panel; without a
    details panel it hands the names to the tree (if any) and returns.  Without
    a viewport client [SetPreviewSkeletalMesh] installs the mesh, adds the
    component to the scene and informs nobody. *)
Theorem guarded_calls_skip_absent_targets :
  (forall names e,
     _skeletalMeshPreviewComponent e = None ->
     SetSelectedBoneNames names e = Ok tt e)
  /\ (forall out e,
        _skeletalMeshPreviewComponent e = None ->
        GetSelectedBoneNames out e = [])
  /\ (forall e,
        _skeletalMeshPreviewComponent e = None ->
        GetDetailsViewSourceObject e = Ok None e)
  /\ (forall e tree,
        _skeletonTree e = Some tree ->
        _viewport e = None ->
        exists e1,
          SetSelectedBoneNames (TreeSelection tree) e = Ok tt e1
          /\ _viewport e1 = None
          /\ SkeletonTree_OnSelectionChanged e = refresh_details e1)
  /\ (forall e tree,
        _skeletonTree e = Some tree ->
        _detailsView e = None ->
        exists e1,
          SetSelectedBoneNames (TreeSelection tree) e = Ok tt e1
          /\ _detailsView e1 = None
          /\ SkeletonTree_OnSelectionChanged e
             = Ok tt (set_viewport (Refresh <$> _viewport e) e1))
  /\ (forall e,
        _skeletonTree e = None ->
        Viewport_OnSelectionChanged e = refresh_details e)
  /\ (forall e,
        _detailsView e = None ->
        refresh_details e = Ok tt e
        /\ Viewport_OnSelectionChanged e
           = Ok tt (set_skeletonTree
                      (SSkeletonTree_SetSelectedBoneNames (GetSelectedBoneNames [] e)
                         <$> _skeletonTree e) e))
  /\ (forall e pose skeleton mesh c,
        _currentPose e = Some pose ->
        GetSkeleton pose = Some skeleton ->
        IsCompatibleMesh skeleton mesh = true ->
        _skeletalMeshPreviewComponent e = Some c ->
        mesh_ptr_neq (Some mesh) (SkeletalMesh c) = true ->
        _viewportClientWeakPtr e = None ->
        exists e',
          SetPreviewSkeletalMesh (Some mesh) e = Ok tt e'
          /\ _viewportClientWeakPtr e' = None
          /\ e' = set_previewScene
                    (AddComponent PreviewComponentRef FTransform_Identity
                       (_previewScene e))
                    (set_skeletalMeshPreviewComponent
                       (Some (SetSkeletalMesh mesh c)) e)).
Proof.
  split; [exact SetSelectedBoneNames_no_component|].
  split; [exact GetSelectedBoneNames_no_component|].
  split; [exact GetDetailsViewSourceObject_no_component|].
  split; [|split; [|split; [|split]]].
  - intros e tree Ht Hv.
    destruct (SetSelectedBoneNames_returns (TreeSelection tree) e)
      as (e1 & Hset & _ & Hv1 & _).
    exists e1. split; [exact Hset|]. split; [congruence|].
    rewrite (SkeletonTree_OnSelectionChanged_run e tree e1 Ht Hset).
    by rewrite Hv1, Hv.
  - intros e tree Ht Hd.
    destruct (SetSelectedBoneNames_returns (TreeSelection tree) e)
      as (e1 & Hset & _ & Hv1 & Hd1).
    exists e1. split; [exact Hset|]. split; [congruence|].
    rewrite (SkeletonTree_OnSelectionChanged_run e tree e1 Ht Hset).
    rewrite <- Hv1. unfold refresh_details.
    destruct (_viewport e1) as [viewport|] eqn:Hv; cbn.
    + by rewrite Hd1, Hd.
    + rewrite Hd1, Hd. f_equal. destruct e1; cbn in *; by subst.
  - intros e Ht. rewrite Viewport_OnSelectionChanged_run, Ht. cbn.
    f_equal. destruct e; cbn in *; by subst.
  - intros e Hd. split; [unfold refresh_details; by rewrite Hd|].
    rewrite Viewport_OnSelectionChanged_run. unfold refresh_details. cbn.
    by rewrite Hd.
  - intros e pose skeleton mesh c Hpose Hskel Hfit Hc Hother Hw.
    eexists. split; [by eapply SetPreviewSkeletalMesh_other|].
    split; [cbn; by rewrite Hw|].
    rewrite Hw. cbn. destruct e; cbn in *; by subst.
Qed.
End Guards.

(** * Further properties of the member functions *)

(** ** Storing and reading a selection, again *)

Section StoringTwice.
Context `{Engine} `{!EngineLaws}.

(** X2. The last selection wins: storing one list of names and then another
    leaves the editor exactly as storing the second list alone does. *)
Theorem SetSelectedBoneNames_overwrites (first second : list FName) e :
  (SetSelectedBoneNames first ;;; SetSelectedBoneNames second) e
  = SetSelectedBoneNames second e.
Proof.
  unfold bind.
  destruct (_skeletalMeshPreviewComponent e) as [c|] eqn:Hc.
  - rewrite (SetSelectedBoneNames_component c first e Hc).
    rewrite (SetSelectedBoneNames_component
               (set_BonesOfInterest (GetBoneIndex c <$> first) c) second
               (highlighting (GetBoneIndex c <$> first) c e) eq_refl).
    rewrite (SetSelectedBoneNames_component c second e Hc).
    unfold highlighting. rewrite set_component_twice, set_BonesOfInterest_twice.
    do 4 f_equal. apply list_fmap_ext. intros k n _. apply GetBoneIndex_selection.
  - by rewrite !SetSelectedBoneNames_no_component.
Qed.

(** Names of bones of the preview mesh survive the round trip through the
    component: after [SetSelectedBoneNames names], [GetSelectedBoneNames]
    returns [names], in the same order and with the same repetitions. *)
Lemma selected_bone_names_round_trip_holds (names out : list FName) e c mesh :
  _skeletalMeshPreviewComponent e = Some c ->
  SkeletalMesh c = Some mesh ->
  Forall (fun n => n ∈ BoneNames mesh) names ->
  exists e',
    SetSelectedBoneNames names e = Ok tt e'
    /\ GetSelectedBoneNames out e' = names.
Proof.
  intros Hc Hmesh Hnames. eexists. split; [by apply SetSelectedBoneNames_component|].
  erewrite GetSelectedBoneNames_component by reflexivity.
  cbn [BonesOfInterest set_BonesOfInterest].
  generalize (GetBoneIndex c <$> names) at 1. intros a.
  induction Hnames as [|n names Hn _ IH]; [reflexivity|].
  cbn [fmap list_fmap]. f_equal; [|exact IH].
  destruct (GetBoneIndex_found (set_BonesOfInterest a c) mesh n Hmesh Hn) as [_ Hback].
  by rewrite GetBoneIndex_selection in Hback.
Qed.
End StoringTwice.

Section ReadingAnyEngine.
Context `{Engine}.

(** X4. [GetSelectedBoneNames] overwrites its out-parameter: the result is the
    name of every highlighted index, in order and with repetitions, whatever
    the array held before; without a preview component it is empty. *)
Theorem GetSelectedBoneNames_overwrites_out (out : list FName) e :
  GetSelectedBoneNames out e
  = match _skeletalMeshPreviewComponent e with
    | Some c => GetBoneName c <$> BonesOfInterest c
    | None => []
    end
  /\ GetSelectedBoneNames out e = GetSelectedBoneNames [] e
  /\ length (GetSelectedBoneNames out e)
     = length (default [] (BonesOfInterest <$> _skeletalMeshPreviewComponent e)).
Proof.
  destruct (_skeletalMeshPreviewComponent e) as [c|] eqn:Hc.
  - rewrite !(GetSelectedBoneNames_component _ e c Hc). cbn.
    by rewrite length_fmap.
  - by rewrite !GetSelectedBoneNames_no_component.
Qed.
End ReadingAnyEngine.

(** ** When the details source stops the editor *)

Section DetailsFaults.
Context `{Engine}.

Lemma GetDetailsViewSourceObject_no_bone_object e c i :
  _skeletalMeshPreviewComponent e = Some c ->
  BonesOfInterest c = [i] ->
  _detailsViewBone e = None ->
  GetDetailsViewSourceObject e = Crash NullDereference.
Proof.
  intros Hc Hi Hb. unfold GetDetailsViewSourceObject, detailsViewBone_do. run.
  rewrite Hc, Hi. only_entry i. by rewrite Hb.
Qed.

Lemma GetDetailsViewSourceObject_no_preview_instance e c i b :
  _skeletalMeshPreviewComponent e = Some c ->
  BonesOfInterest c = [i] ->
  _detailsViewBone e = Some b ->
  PreviewInstance c = None ->
  GetDetailsViewSourceObject e = Crash NullDereference.
Proof.
  intros Hc Hi Hb Hinst. unfold GetDetailsViewSourceObject, detailsViewBone_do. run.
  rewrite Hc, Hi. only_entry i. rewrite Hb. cbn. by rewrite Hinst.
Qed.

Lemma GetDetailsViewSourceObject_no_mesh e c i b inst :
  _skeletalMeshPreviewComponent e = Some c ->
  BonesOfInterest c = [i] ->
  _detailsViewBone e = Some b ->
  PreviewInstance c = Some inst ->
  FindModifiedBone inst (GetBoneName c i) = None ->
  SkeletalMesh c = None ->
  GetDetailsViewSourceObject e = Crash NullDereference.
Proof.
  intros Hc Hi Hb Hinst Hctl Hmesh.
  unfold GetDetailsViewSourceObject, detailsViewBone_do. run.
  rewrite Hc, Hi. only_entry i. rewrite Hb. cbn. rewrite Hinst. cbn.
  rewrite Hctl. cbn. by rewrite Hmesh.
Qed.

(** [GetDetailsViewSourceObject] stops the editor in exactly these
    situations, all with one highlighted index: the bone object or the preview
    instance is missing, or the bone has no override and the component has no
    mesh (a null pointer is dereferenced), or the bone has no override and the
    index is outside the mesh's reference pose (an array is read out of range).
    A bone with an override never needs the mesh or a valid index. *)
Lemma GetDetailsViewSourceObject_stops_exactly_when_holds e f :
  GetDetailsViewSourceObject e = Crash f
  <-> exists c i,
        _skeletalMeshPreviewComponent e = Some c
        /\ BonesOfInterest c = [i]
        /\ ((f = NullDereference /\ _detailsViewBone e = None)
            \/ (f = NullDereference /\ is_Some (_detailsViewBone e)
                /\ PreviewInstance c = None)
            \/ (exists inst,
                  is_Some (_detailsViewBone e)
                  /\ PreviewInstance c = Some inst
                  /\ FindModifiedBone inst (GetBoneName c i) = None
                  /\ ((f = NullDereference /\ SkeletalMesh c = None)
                      \/ (f = IndexOutOfRange
                          /\ exists mesh,
                               SkeletalMesh c = Some mesh
                               /\ TArray.get (GetRefBonePose (RefSkeleton mesh)) i
                                  = None)))).
Proof.
  split.
  - intros Hrun.
    destruct (_skeletalMeshPreviewComponent e) as [c|] eqn:Hc.
    2:{ by rewrite GetDetailsViewSourceObject_no_component in Hrun. }
    destruct (TArray.Num (BonesOfInterest c) =? 1) eqn:Hn.
    2:{ apply not_single_entry in Hn.
        by rewrite (GetDetailsViewSourceObject_not_single e c Hc Hn) in Hrun. }
    apply single_entry in Hn as [i Hi]. exists c, i. split; [reflexivity|].
    split; [exact Hi|].
    destruct (_detailsViewBone e) as [b|] eqn:Hb.
    2:{ rewrite (GetDetailsViewSourceObject_no_bone_object e c i) in Hrun by done.
        left. split; congruence. }
    destruct (PreviewInstance c) as [inst|] eqn:Hinst.
    2:{ rewrite (GetDetailsViewSourceObject_no_preview_instance e c i b) in Hrun by done.
        right; left. split; [congruence|]. split; [by eexists|reflexivity]. }
    right; right. exists inst.
    destruct (FindModifiedBone inst (GetBoneName c i)) as [ctl|] eqn:Hctl.
    { by rewrite (GetDetailsViewSourceObject_modified e c i b inst ctl) in Hrun. }
    split; [by eexists|]. split; [reflexivity|]. split; [reflexivity|].
    destruct (SkeletalMesh c) as [mesh|] eqn:Hmesh.
    2:{ rewrite (GetDetailsViewSourceObject_no_mesh e c i b inst) in Hrun by done.
        left. split; congruence. }
    destruct (TArray.get (GetRefBonePose (RefSkeleton mesh)) i) as [pose|] eqn:Hpose.
    { by rewrite (GetDetailsViewSourceObject_reference e c i b inst mesh pose) in Hrun. }
    rewrite (GetDetailsViewSourceObject_out_of_range e c i b inst mesh) in Hrun by done.
    right. split; [congruence|]. by exists mesh.
  - intros (c & i & Hc & Hi & Hcase).
    destruct Hcase as [[-> Hb] | [(-> & [b Hb] & Hinst) | (inst & [b Hb] & Hinst & Hctl & Hcase)]].
    + by eapply GetDetailsViewSourceObject_no_bone_object.
    + by eapply GetDetailsViewSourceObject_no_preview_instance.
    + destruct Hcase as [[-> Hmesh] | (-> & mesh & Hmesh & Hpose)].
      * by eapply GetDetailsViewSourceObject_no_mesh.
      * by eapply GetDetailsViewSourceObject_out_of_range.
Qed.

Lemma set_detailsViewBone_same (e : FPoseEditor) :
  set_detailsViewBone (_detailsViewBone e) e = e.
Proof. by destruct e. Qed.

(** Asking twice is asking once: when [GetDetailsViewSourceObject] has
    returned, calling it again returns the same pointer and changes nothing. *)
Lemma GetDetailsViewSourceObject_idempotent_holds e r e' :
  GetDetailsViewSourceObject e = Ok r e' ->
  GetDetailsViewSourceObject e' = Ok r e'.
Proof.
  intros Hrun.
  destruct (GetDetailsViewSourceObject_returned e r e' Hrun)
    as [(-> & -> & _) | (c & i & b & inst & bone & Hc & Hi & _ & _ & _ & He' & _)].
  - exact Hrun.
  - assert (Hc' : _skeletalMeshPreviewComponent e' = Some c) by (by subst e').
    assert (Hb' : is_Some (_detailsViewBone e')) by (subst e'; by eexists).
    rewrite (GetDetailsViewSourceObject_same_component e e' c i r e' Hc Hc' Hi Hb' Hrun).
    by rewrite set_detailsViewBone_same.
Qed.

(** X7. There is one bone object, and the details panel holds a pointer to it,
    not a copy: when the panel is bound to the bone object, a call to
    [GetDetailsViewSourceObject] that returns it changes the bone the panel
    displays to the one now highlighted, although the panel itself is not
    written. *)
Theorem details_panel_sees_the_shared_bone_object e c i e' :
  BoundObject <$> _detailsView e = Some (Some DetailsViewBoneRef) ->
  _skeletalMeshPreviewComponent e = Some c ->
  BonesOfInterest c = [i] ->
  GetDetailsViewSourceObject e = Ok (Some DetailsViewBoneRef) e' ->
  _detailsView e' = _detailsView e
  /\ exists bone,
       DetailsTarget e' = Some bone
       /\ BoneName bone = GetBoneName c i
       /\ ParentBoneName bone = GetParentBone c (GetBoneName c i).
Proof.
  intros Hbound Hc Hi Hrun.
  destruct (GetDetailsViewSourceObject_returned e _ e' Hrun)
    as [(Hnone & _) | (c' & i' & b & inst & bone & Hc' & Hi' & _ & _ & _ & -> & Hname & Hparent & _)];
    [discriminate|].
  assert (c' = c) as -> by congruence.
  assert (i' = i) as -> by congruence.
  split; [reflexivity|]. exists bone.
  unfold DetailsTarget. cbn. by rewrite Hbound.
Qed.

(** The details source does not look at the details panel. *)
Lemma GetDetailsViewSourceObject_set_detailsView d e :
  GetDetailsViewSourceObject (set_detailsView d e)
  = match GetDetailsViewSourceObject e with
    | Ok r e' => Ok r (set_detailsView d e')
    | Crash f => Crash f
    end.
Proof.
  destruct (GetDetailsViewSourceObject e) as [r e'|f] eqn:Hrun.
  - destruct (GetDetailsViewSourceObject_returned e r e' Hrun)
      as [(-> & -> & Hn) | (c & i & b & inst & bone & Hc & Hi & Hb & _ & -> & -> & _)].
    + destruct (_skeletalMeshPreviewComponent e) as [c|] eqn:Hc.
      * by apply (GetDetailsViewSourceObject_not_single _ c), Hn.
      * by apply GetDetailsViewSourceObject_no_component.
    + rewrite (GetDetailsViewSourceObject_same_component
                 e (set_detailsView d e) c i _ _ Hc Hc Hi ltac:(by exists b) Hrun).
      reflexivity.
  - apply GetDetailsViewSourceObject_stops_exactly_when_holds.
    apply GetDetailsViewSourceObject_stops_exactly_when_holds in Hrun. exact Hrun.
Qed.

(** Binding the details panel again changes nothing. *)
Lemma refresh_details_idempotent e e' :
  refresh_details e = Ok tt e' ->
  refresh_details e' = Ok tt e'.
Proof.
  unfold refresh_details.
  destruct (_detailsView e) as [view|] eqn:Hview.
  - destruct (GetDetailsViewSourceObject e) as [obj e1|] eqn:Hrun; [|discriminate].
    intros [= <-]. cbn [_detailsView set_detailsView].
    rewrite GetDetailsViewSourceObject_set_detailsView.
    by rewrite (GetDetailsViewSourceObject_idempotent_holds e obj e1 Hrun).
  - intros [= <-]. by rewrite Hview.
Qed.
End DetailsFaults.

(** ** The handlers, beyond one selected bone *)

Section HandlersAnyEngine.
Context `{Engine}.

Lemma SSkeletonTree_SetSelectedBoneNames_twice names (t : SSkeletonTree) :
  SSkeletonTree_SetSelectedBoneNames names (SSkeletonTree_SetSelectedBoneNames names t)
  = SSkeletonTree_SetSelectedBoneNames names t.
Proof. reflexivity. Qed.

Lemma set_skeletonTree_same (e : FPoseEditor) :
  set_skeletonTree (_skeletonTree e) e = e.
Proof. by destruct e. Qed.

(** X8. The viewport handler is idempotent: handling the same pick a second
    time returns normally and leaves the editor exactly as the first handling
    left it. *)
Theorem Viewport_OnSelectionChanged_idempotent e e' :
  Viewport_OnSelectionChanged e = Ok tt e' ->
  Viewport_OnSelectionChanged e' = Ok tt e'.
Proof.
  intros Hrun. pose proof Hrun as Hfirst.
  rewrite Viewport_OnSelectionChanged_run in Hfirst.
  pose proof (refresh_details_idempotent _ _ Hfirst) as Hagain.
  apply refresh_details_frame in Hfirst as (b & d & ->).
  rewrite Viewport_OnSelectionChanged_run.
  match goal with |- refresh_details ?s = _ => set (again := s) end.
  match type of Hagain with refresh_details ?s = _ => set (first := s) in * end.
  assert (again = first) as ->; [|exact Hagain].
  subst again first. unfold GetSelectedBoneNames.
  destruct e as [p c bo t v w dv s]; destruct t; reflexivity.
Qed.

(** X9. The viewport handler can stop the editor only while binding the
    details panel to a single highlighted bone: there is a details panel and
    the component highlights exactly one index.  With no index, several
    indices, no component or no details panel it always returns. *)
Theorem Viewport_OnSelectionChanged_stops_only_on_one_bone e f :
  Viewport_OnSelectionChanged e = Crash f ->
  is_Some (_detailsView e)
  /\ exists c i,
       _skeletalMeshPreviewComponent e = Some c /\ BonesOfInterest c = [i].
Proof.
  rewrite Viewport_OnSelectionChanged_run. unfold refresh_details.
  cbn [_detailsView set_skeletonTree].
  destruct (_detailsView e) as [view|]; [|discriminate].
  match goal with |- context [GetDetailsViewSourceObject ?s] =>
    destruct (GetDetailsViewSourceObject s) as [obj e1|f'] eqn:Hrun end;
    [discriminate|].
  intros _. split; [by eexists|].
  apply GetDetailsViewSourceObject_stops_exactly_when_holds in Hrun
    as (c & i & Hc & Hi & _).
  by exists c, i.
Qed.

(** X10. The tree handler can stop the editor in two ways only: there is no
    tree to ask for its selection, or exactly one row is selected and the
    details panel is being bound to that bone.  With a tree and no row or
    several rows selected it always returns: as many indices are highlighted as
    rows are selected, the viewport (if any) is asked to redraw, and the
    details panel (if any) is bound to nothing. *)
Theorem SkeletonTree_OnSelectionChanged_stops_only_on_one_row e :
  (forall f, SkeletonTree_OnSelectionChanged e = Crash f ->
     _skeletonTree e = None
     \/ exists tree,
          _skeletonTree e = Some tree
          /\ length (TreeSelection tree) = 1%nat
          /\ is_Some (_skeletalMeshPreviewComponent e)
          /\ is_Some (_detailsView e))
  /\ (forall tree,
        _skeletonTree e = Some tree ->
        length (TreeSelection tree) <> 1%nat ->
        exists e',
          SkeletonTree_OnSelectionChanged e = Ok tt e'
          /\ length <$> (BonesOfInterest <$> _skeletalMeshPreviewComponent e')
             = (fun _ => length (TreeSelection tree)) <$> _skeletalMeshPreviewComponent e
          /\ _viewport e' = Refresh <$> _viewport e
          /\ BoundObject <$> _detailsView e' = (fun _ => None) <$> _detailsView e
          /\ _detailsViewBone e' = _detailsViewBone e).
Proof.
  assert (Hstored : forall tree, _skeletonTree e = Some tree ->
            exists e1,
              SetSelectedBoneNames (TreeSelection tree) e = Ok tt e1
              /\ _detailsView e1 = _detailsView e
              /\ _viewport e1 = _viewport e
              /\ _detailsViewBone e1 = _detailsViewBone e
              /\ match _skeletalMeshPreviewComponent e with
                 | Some c => exists a, _skeletalMeshPreviewComponent e1
                                       = Some (set_BonesOfInterest a c)
                                       /\ length a = length (TreeSelection tree)
                 | None => _skeletalMeshPreviewComponent e1 = None
                 end).
  { intros tree Ht.
    destruct (_skeletalMeshPreviewComponent e) as [c|] eqn:Hc.
    - destruct (SetSelectedBoneNames_only_writes_selection_holds c (TreeSelection tree) e Hc)
        as (a & Hset & Hlen).
      eexists. split; [exact Hset|]. repeat split. by exists a.
    - exists e. split; [by apply SetSelectedBoneNames_no_component|]. by repeat split. }
  split.
  - intros f Hrun.
    destruct (_skeletonTree e) as [tree|] eqn:Ht; [right|by left].
    destruct (Hstored tree eq_refl) as (e1 & Hset & Hd & Hv & Hb & Hc1).
    rewrite (SkeletonTree_OnSelectionChanged_run e tree e1 Ht Hset) in Hrun.
    unfold refresh_details in Hrun.
    match type of Hrun with context [_detailsView ?s] =>
      assert (Hd2 : _detailsView s = _detailsView e)
        by (destruct (_viewport e1); cbn; exact Hd);
      assert (Hc2 : _skeletalMeshPreviewComponent s = _skeletalMeshPreviewComponent e1)
        by (by destruct (_viewport e1));
      rewrite Hd2 in Hrun;
      destruct (_detailsView e) as [view|]; [|discriminate];
      destruct (GetDetailsViewSourceObject s) as [obj e2|f'] eqn:Hsrc; [discriminate|]
    end.
    apply GetDetailsViewSourceObject_stops_exactly_when_holds in Hsrc
      as (c' & i & Hc' & Hi & _).
    rewrite Hc2 in Hc'.
    exists tree. split; [reflexivity|].
    destruct (_skeletalMeshPreviewComponent e) as [c|]; [|congruence].
    destruct Hc1 as (a & Hc1 & Hlen).
    assert (c' = set_BonesOfInterest a c) as -> by congruence.
    cbn in Hi. subst a. cbn in Hlen.
    split; [by rewrite <- Hlen|]. split; by eexists.
  - intros tree Ht Hrows.
    destruct (Hstored tree Ht) as (e1 & Hset & Hd & Hv & Hb & Hc1).
    rewrite (SkeletonTree_OnSelectionChanged_run e tree e1 Ht Hset).
    set (e2 := match _viewport e1 with
               | Some viewport => set_viewport (Some (Refresh viewport)) e1
               | None => e1
               end).
    assert (Hc2 : _skeletalMeshPreviewComponent e2 = _skeletalMeshPreviewComponent e1)
      by (subst e2; by destruct (_viewport e1)).
    assert (Hd2 : _detailsView e2 = _detailsView e)
      by (subst e2; destruct (_viewport e1); cbn; exact Hd).
    assert (Hb2 : _detailsViewBone e2 = _detailsViewBone e)
      by (subst e2; destruct (_viewport e1); cbn; exact Hb).
    assert (Hv2 : _viewport e2 = Refresh <$> _viewport e).
    { subst e2. rewrite <- Hv.
      destruct (_viewport e1) eqn:Hv1; [reflexivity|by rewrite Hv1]. }
    assert (Hsrc : GetDetailsViewSourceObject e2 = Ok None e2).
    { destruct (_skeletalMeshPreviewComponent e) as [c|].
      - destruct Hc1 as (a & Hc1 & Hlen).
        apply (GetDetailsViewSourceObject_not_single e2 (set_BonesOfInterest a c)).
        + by rewrite Hc2.
        + cbn. by rewrite Hlen.
      - apply GetDetailsViewSourceObject_no_component. by rewrite Hc2. }
    assert (Hlen2 : length <$> (BonesOfInterest <$> _skeletalMeshPreviewComponent e2)
                    = (fun _ => length (TreeSelection tree))
                        <$> _skeletalMeshPreviewComponent e).
    { rewrite Hc2. destruct (_skeletalMeshPreviewComponent e) as [c|].
      - destruct Hc1 as (a & -> & Hlen). cbn. by rewrite Hlen.
      - by rewrite Hc1. }
    unfold refresh_details. rewrite Hd2, Hsrc.
    destruct (_detailsView e) as [view|]; eexists; (split; [reflexivity|]);
      cbn; repeat split; try assumption; by rewrite Hd2.
Qed.
End HandlersAnyEngine.

Section HandlersWithLaws.
Context `{Engine} `{!EngineLaws}.

(** X11. A selection of several rows (or of none) in the tree reaches the
    viewport whole: when every selected row names a bone of the preview mesh,
    the tree handler returns, the highlighted indices read back as exactly the
    selected names, and the details panel is bound to nothing. *)
Theorem tree_multi_selection_reaches_viewport e tree c mesh view out :
  _skeletonTree e = Some tree ->
  length (TreeSelection tree) <> 1%nat ->
  _skeletalMeshPreviewComponent e = Some c ->
  SkeletalMesh c = Some mesh ->
  Forall (fun n => n ∈ BoneNames mesh) (TreeSelection tree) ->
  _detailsView e = Some view ->
  exists e',
    SkeletonTree_OnSelectionChanged e = Ok tt e'
    /\ GetSelectedBoneNames out e' = TreeSelection tree
    /\ BoundObject <$> _detailsView e' = Some None
    /\ DetailsTarget e' = None.
Proof.
  intros Ht Hrows Hc Hmesh Hnames Hview.
  destruct (selected_bone_names_round_trip_holds (TreeSelection tree) out e c mesh Hc Hmesh Hnames)
    as (e1 & Hset & Hback).
  rewrite (SkeletonTree_OnSelectionChanged_run e tree e1 Ht Hset).
  rewrite (SetSelectedBoneNames_component c _ e Hc) in Hset. injection Hset as <-.
  set (e1 := highlighting (GetBoneIndex c <$> TreeSelection tree) c e) in *.
  set (e2 := match _viewport e1 with
             | Some viewport => set_viewport (Some (Refresh viewport)) e1
             | None => e1
             end).
  assert (Hc2 : _skeletalMeshPreviewComponent e2 = _skeletalMeshPreviewComponent e1)
    by (subst e2; by destruct (_viewport e1)).
  assert (Hd2 : _detailsView e2 = Some view)
    by (subst e2; destruct (_viewport e1); cbn; exact Hview).
  assert (Hsrc : GetDetailsViewSourceObject e2 = Ok None e2).
  { eapply GetDetailsViewSourceObject_not_single; [by rewrite Hc2|].
    cbn. by rewrite length_fmap. }
  unfold refresh_details. rewrite Hd2, Hsrc.
  eexists. split; [reflexivity|]. split; [|by split].
  rewrite <- Hback. unfold GetSelectedBoneNames. cbn. by rewrite Hc2.
Qed.

(** X12. No echo: once the tree handler has pushed a selection of mesh bones
    to the viewport, a selection-changed notification coming back from the
    viewport changes nothing -- the viewport handler returns and leaves the
    editor exactly as the tree handler left it. *)
Theorem viewport_echo_changes_nothing e tree c mesh e' :
  _skeletonTree e = Some tree ->
  _skeletalMeshPreviewComponent e = Some c ->
  SkeletalMesh c = Some mesh ->
  Forall (fun n => n ∈ BoneNames mesh) (TreeSelection tree) ->
  SkeletonTree_OnSelectionChanged e = Ok tt e' ->
  Viewport_OnSelectionChanged e' = Ok tt e'.
Proof.
  intros Ht Hc Hmesh Hnames Hrun.
  destruct (selected_bone_names_round_trip_holds (TreeSelection tree) [] e c mesh Hc Hmesh Hnames)
    as (e1 & Hset & Hback).
  pose proof Hrun as Hfirst.
  rewrite (SkeletonTree_OnSelectionChanged_run e tree e1 Ht Hset) in Hfirst.
  pose proof (refresh_details_idempotent _ _ Hfirst) as Hagain.
  apply SkeletonTree_OnSelectionChanged_frame in Hrun as (Ht' & _).
  rewrite Viewport_OnSelectionChanged_run.
  assert (Hread : GetSelectedBoneNames [] e' = TreeSelection tree).
  { rewrite <- Hback. apply refresh_details_frame in Hfirst as (b & d & ->).
    unfold GetSelectedBoneNames. cbn. by destruct (_viewport e1). }
  rewrite Hread, Ht', Ht. cbn [fmap option_fmap option_map].
  assert (SSkeletonTree_SetSelectedBoneNames (TreeSelection tree) tree = tree) as ->
    by (by destruct tree).
  rewrite <- Ht, <- Ht', set_skeletonTree_same. exact Hagain.
Qed.
End HandlersWithLaws.

(** ** Changing the preview mesh, in full *)

Section PreviewMeshInFull.
Context `{Engine}.

(** [SetPreviewSkeletalMesh] returns exactly when there is a current
    pose, a mesh is given, the pose has a skeleton, and either the mesh does not
    fit it or there is a preview component.  It fails a [check] without a pose
    (whatever else holds) or without a mesh, and dereferences a null pointer
    when the pose has no skeleton or when a fitting mesh meets no preview
    component. *)
Lemma SetPreviewSkeletalMesh_returns_exactly_when_holds inPreviewSkeletalMesh e :
  ((exists e', SetPreviewSkeletalMesh inPreviewSkeletalMesh e = Ok tt e')
   <-> exists pose skeleton mesh,
         _currentPose e = Some pose
         /\ inPreviewSkeletalMesh = Some mesh
         /\ GetSkeleton pose = Some skeleton
         /\ (IsCompatibleMesh skeleton mesh = false
             \/ is_Some (_skeletalMeshPreviewComponent e)))
  /\ (_currentPose e = None ->
      SetPreviewSkeletalMesh inPreviewSkeletalMesh e = Crash CheckFailed)
  /\ (is_Some (_currentPose e) -> inPreviewSkeletalMesh = None ->
      SetPreviewSkeletalMesh inPreviewSkeletalMesh e = Crash CheckFailed)
  /\ (forall pose, _currentPose e = Some pose -> is_Some inPreviewSkeletalMesh ->
      GetSkeleton pose = None ->
      SetPreviewSkeletalMesh inPreviewSkeletalMesh e = Crash NullDereference)
  /\ (forall pose skeleton mesh,
        _currentPose e = Some pose -> inPreviewSkeletalMesh = Some mesh ->
        GetSkeleton pose = Some skeleton ->
        IsCompatibleMesh skeleton mesh = true ->
        _skeletalMeshPreviewComponent e = None ->
        SetPreviewSkeletalMesh inPreviewSkeletalMesh e = Crash NullDereference).
Proof.
  assert (Hnopose : _currentPose e = None ->
            SetPreviewSkeletalMesh inPreviewSkeletalMesh e = Crash CheckFailed).
  { intros Hp. unfold SetPreviewSkeletalMesh. run. by rewrite Hp. }
  assert (Hnomesh : is_Some (_currentPose e) -> inPreviewSkeletalMesh = None ->
            SetPreviewSkeletalMesh inPreviewSkeletalMesh e = Crash CheckFailed).
  { intros [pose Hp] ->. unfold SetPreviewSkeletalMesh. run. by rewrite Hp. }
  assert (Hnoskel : forall pose, _currentPose e = Some pose ->
            is_Some inPreviewSkeletalMesh -> GetSkeleton pose = None ->
            SetPreviewSkeletalMesh inPreviewSkeletalMesh e = Crash NullDereference).
  { intros pose Hp [mesh ->] Hs. unfold SetPreviewSkeletalMesh. run.
    rewrite Hp. cbn. by rewrite Hs. }
  assert (Hnocomp : forall pose skeleton mesh,
            _currentPose e = Some pose -> inPreviewSkeletalMesh = Some mesh ->
            GetSkeleton pose = Some skeleton ->
            IsCompatibleMesh skeleton mesh = true ->
            _skeletalMeshPreviewComponent e = None ->
            SetPreviewSkeletalMesh inPreviewSkeletalMesh e = Crash NullDereference).
  { intros pose skeleton mesh Hp -> Hs Hfit Hc.
    by eapply SetPreviewSkeletalMesh_no_component. }
  split; [|by repeat split].
  split.
  - intros [e' Hrun].
    destruct (_currentPose e) as [pose|] eqn:Hp.
    2:{ by rewrite Hnopose in Hrun. }
    destruct inPreviewSkeletalMesh as [mesh|].
    2:{ by rewrite Hnomesh in Hrun. }
    destruct (GetSkeleton pose) as [skeleton|] eqn:Hs.
    2:{ by rewrite (Hnoskel pose) in Hrun. }
    exists pose, skeleton, mesh. do 3 (split; [done|]).
    destruct (IsCompatibleMesh skeleton mesh) eqn:Hfit; [right|by left].
    destruct (_skeletalMeshPreviewComponent e) as [c|] eqn:Hc; [by eexists|].
    by rewrite (Hnocomp pose skeleton mesh) in Hrun.
  - intros (pose & skeleton & mesh & Hp & -> & Hs & Hcase).
    destruct (IsCompatibleMesh skeleton mesh) eqn:Hfit.
    + destruct Hcase as [|[c Hc]]; [discriminate|].
      destruct (mesh_ptr_neq (Some mesh) (SkeletalMesh c)) eqn:Hptr.
      * eexists. by eapply SetPreviewSkeletalMesh_other.
      * eexists. by eapply SetPreviewSkeletalMesh_same.
    + eexists. by eapply SetPreviewSkeletalMesh_incompatible.
Qed.

Lemma present_fmap {A B} (f : A -> B) (p : option A) :
  present (f <$> p) = present p.
Proof. by destruct p. Qed.

(** Every way [SetPreviewSkeletalMesh] can return. *)
Lemma SetPreviewSkeletalMesh_returned inPreviewSkeletalMesh e e' :
  SetPreviewSkeletalMesh inPreviewSkeletalMesh e = Ok tt e' ->
  e' = e
  \/ (exists c mesh,
        _skeletalMeshPreviewComponent e = Some c
        /\ inPreviewSkeletalMesh = Some mesh
        /\ (e' = set_skeletalMeshPreviewComponent (Some (InitAnim true c)) e
            \/ e' = set_viewportClient
                      (SetSkeletalMeshPreviewComponent (Some PreviewComponentRef)
                         <$> _viewportClientWeakPtr e)
                      (set_previewScene
                         (AddComponent PreviewComponentRef FTransform_Identity
                            (_previewScene e))
                         (set_skeletalMeshPreviewComponent
                            (Some (SetSkeletalMesh mesh c)) e)))).
Proof.
  intros Hrun.
  destruct (proj1 (proj1 (SetPreviewSkeletalMesh_returns_exactly_when_holds
                            inPreviewSkeletalMesh e)) (ex_intro _ e' Hrun))
    as (pose & skeleton & mesh & Hp & -> & Hs & _).
  destruct (IsCompatibleMesh skeleton mesh) eqn:Hfit.
  - destruct (_skeletalMeshPreviewComponent e) as [c|] eqn:Hc.
    2:{ by rewrite (SetPreviewSkeletalMesh_no_component e pose skeleton mesh) in Hrun. }
    right. exists c, mesh. split; [reflexivity|]. split; [reflexivity|].
    destruct (mesh_ptr_neq (Some mesh) (SkeletalMesh c)) eqn:Hptr.
    + rewrite (SetPreviewSkeletalMesh_other e pose skeleton mesh c) in Hrun by done.
      right. congruence.
    + rewrite (SetPreviewSkeletalMesh_same e pose skeleton mesh c) in Hrun by done.
      left. congruence.
  - rewrite (SetPreviewSkeletalMesh_incompatible e pose skeleton mesh) in Hrun by done.
    left. congruence.
Qed.

(** [SetPreviewSkeletalMesh] stays away from the selection panels: when
    it returns, the pose, the bone object, the tree, the viewport widget and the
    details panel are exactly as before, and no pointer was set or cleared. *)
Lemma SetPreviewSkeletalMesh_leaves_panels_holds inPreviewSkeletalMesh e e' :
  SetPreviewSkeletalMesh inPreviewSkeletalMesh e = Ok tt e' ->
  _currentPose e' = _currentPose e
  /\ _detailsViewBone e' = _detailsViewBone e
  /\ _skeletonTree e' = _skeletonTree e
  /\ _viewport e' = _viewport e
  /\ _detailsView e' = _detailsView e
  /\ allocated e' = allocated e.
Proof.
  intros Hrun. apply SetPreviewSkeletalMesh_returned in Hrun
    as [-> | (c & mesh & Hc & _ & [-> | ->])].
  - by repeat split.
  - repeat split. unfold allocated. cbn. by rewrite Hc.
  - repeat split. unfold allocated. cbn. by rewrite Hc, present_fmap.
Qed.
End PreviewMeshInFull.

Section PreviewMeshTwice.
Context `{Engine} `{!EngineLaws}.

(** X15. Setting a fitting mesh that the component does not show yet, twice.
    The first call installs the mesh in the component, adds the component to
    the preview scene and tells the viewport client (if there is one) about the
    component.  The second call finds the mesh already installed and only sets
    up the animation again: the scene, the viewport client and everything else
    but the component are as the first call left them. *)
Theorem SetPreviewSkeletalMesh_twice e pose skeleton mesh c :
  _currentPose e = Some pose ->
  GetSkeleton pose = Some skeleton ->
  IsCompatibleMesh skeleton mesh = true ->
  _skeletalMeshPreviewComponent e = Some c ->
  mesh_ptr_neq (Some mesh) (SkeletalMesh c) = true ->
  exists e1 e2,
    SetPreviewSkeletalMesh (Some mesh) e = Ok tt e1
    /\ e1 = set_viewportClient
              (SetSkeletalMeshPreviewComponent (Some PreviewComponentRef)
                 <$> _viewportClientWeakPtr e)
              (set_previewScene
                 (AddComponent PreviewComponentRef FTransform_Identity (_previewScene e))
                 (set_skeletalMeshPreviewComponent (Some (SetSkeletalMesh mesh c)) e))
    /\ _skeletalMeshPreviewComponent e1 = Some (SetSkeletalMesh mesh c)
    /\ _previewScene e1
       = AddComponent PreviewComponentRef FTransform_Identity (_previewScene e)
    /\ _viewportClientWeakPtr e1
       = SetSkeletalMeshPreviewComponent (Some PreviewComponentRef)
           <$> _viewportClientWeakPtr e
    /\ SetPreviewSkeletalMesh (Some mesh) e1 = Ok tt e2
    /\ e2 = set_skeletalMeshPreviewComponent
              (Some (InitAnim true (SetSkeletalMesh mesh c))) e1
    /\ _previewScene e2 = _previewScene e1
    /\ _viewportClientWeakPtr e2 = _viewportClientWeakPtr e1
    /\ _skeletalMeshPreviewComponent e2
       = Some (InitAnim true (SetSkeletalMesh mesh c)).
Proof.
  intros Hp Hs Hfit Hc Hptr.
  eexists _, _. split; [by eapply SetPreviewSkeletalMesh_other|].
  do 4 (split; [reflexivity|]).
  split.
  - eapply SetPreviewSkeletalMesh_same; try done.
    cbn. rewrite SetSkeletalMesh_mesh. cbn. by rewrite N.eqb_refl.
  - by repeat split.
Qed.
End PreviewMeshTwice.

(** ** No object is created or lost *)

Section Allocation.
Context `{Engine}.

Lemma refresh_details_allocated e e' :
  refresh_details e = Ok tt e' -> allocated e' = allocated e.
Proof.
  unfold refresh_details.
  destruct (_detailsView e) as [view|] eqn:Hview; [|by intros [= <-]].
  destruct (GetDetailsViewSourceObject e) as [obj e1|] eqn:Hrun; [|discriminate].
  intros [= <-].
  apply GetDetailsViewSourceObject_returned in Hrun
    as [(_ & -> & _) | (c & i & b & inst & bone & _ & _ & Hb & _ & _ & -> & _)];
    unfold allocated; cbn; by rewrite ?Hview, ?Hb.
Qed.

(** The selection code never creates, frees or clears one of the
    controller's objects: after [SetSelectedBoneNames],
    [GetDetailsViewSourceObject], either handler or [SetPreviewSkeletalMesh]
    has returned, each of the seven pointers is set exactly if it was set
    before. *)
Lemma member_functions_keep_the_objects_holds e e' :
  (forall names, SetSelectedBoneNames names e = Ok tt e' -> allocated e' = allocated e)
  /\ (forall r, GetDetailsViewSourceObject e = Ok r e' -> allocated e' = allocated e)
  /\ (SkeletonTree_OnSelectionChanged e = Ok tt e' -> allocated e' = allocated e)
  /\ (Viewport_OnSelectionChanged e = Ok tt e' -> allocated e' = allocated e)
  /\ (forall mesh, SetPreviewSkeletalMesh mesh e = Ok tt e' -> allocated e' = allocated e).
Proof.
  assert (Hset : forall names x x', SetSelectedBoneNames names x = Ok tt x' ->
                                    allocated x' = allocated x).
  { intros names x x' Hrun.
    destruct (_skeletalMeshPreviewComponent x) as [c|] eqn:Hc.
    - destruct (SetSelectedBoneNames_only_writes_selection_holds c names x Hc) as (a & Ha & _).
      rewrite Ha in Hrun. injection Hrun as <-. unfold allocated. cbn. by rewrite Hc.
    - rewrite SetSelectedBoneNames_no_component in Hrun by done. by injection Hrun as <-. }
  split; [intros names; apply Hset|]. split; [|split; [|split]].
  - intros r Hrun. apply GetDetailsViewSourceObject_returned in Hrun
      as [(_ & -> & _) | (c & i & b & inst & bone & _ & _ & Hb & _ & _ & -> & _)];
      [reflexivity|]. unfold allocated. cbn. by rewrite Hb.
  - intros Hrun.
    destruct (_skeletonTree e) as [tree|] eqn:Ht.
    2:{ by rewrite SkeletonTree_OnSelectionChanged_no_tree in Hrun. }
    destruct (SetSelectedBoneNames (TreeSelection tree) e) as [[] e1|f] eqn:Hstore.
    2:{ destruct (_skeletalMeshPreviewComponent e) as [c|] eqn:Hc.
        - destruct (SetSelectedBoneNames_only_writes_selection_holds c (TreeSelection tree) e Hc)
            as (a & Ha & _). congruence.
        - rewrite SetSelectedBoneNames_no_component in Hstore by done. discriminate. }
    rewrite (SkeletonTree_OnSelectionChanged_run e tree e1 Ht Hstore) in Hrun.
    apply refresh_details_allocated in Hrun. rewrite Hrun.
    rewrite <- (Hset _ _ _ Hstore).
    destruct (_viewport e1) eqn:Hv; [|reflexivity].
    unfold allocated. cbn. by rewrite Hv.
  - rewrite Viewport_OnSelectionChanged_run. intros Hrun.
    apply refresh_details_allocated in Hrun. rewrite Hrun.
    unfold allocated. cbn. by rewrite present_fmap.
  - intros mesh Hrun.
    by apply SetPreviewSkeletalMesh_leaves_panels_holds in Hrun as (_ & _ & _ & _ & _ & Hsame).
Qed.
End Allocation.

(** ** The member functions in short *)

Section InShort.
Context `{Engine}.

(** X1. With a preview component, [SetSelectedBoneNames] cannot fail and
    writes nothing but [BonesOfInterest]: the component keeps its mesh and its
    preview instance, every other field of the editor is as before, and there
    are as many highlighted indices as names. *)
Theorem SetSelectedBoneNames_only_writes_selection names e c :
  _skeletalMeshPreviewComponent e = Some c ->
  exists e' c',
    SetSelectedBoneNames names e = Ok tt e'
    /\ _skeletalMeshPreviewComponent e' = Some c'
    /\ SkeletalMesh c' = SkeletalMesh c
    /\ PreviewInstance c' = PreviewInstance c
    /\ length (BonesOfInterest c') = length names
    /\ set_skeletalMeshPreviewComponent (Some c) e' = e.
Proof.
  intros Hc.
  destruct (SetSelectedBoneNames_only_writes_selection_holds c names e Hc)
    as (a & Hrun & Hlen).
  eexists _, _. split; [exact Hrun|]. split; [reflexivity|].
  repeat split; [exact Hlen|].
  unfold highlighting. rewrite set_component_twice, <- Hc. symmetry.
  apply set_component_same.
Qed.

(** X5. [GetDetailsViewSourceObject] stops the editor in exactly these
    situations, all with one highlighted index: the bone object or the preview
    instance is missing, or the bone has no override and the component has no
    mesh (a null pointer is dereferenced), or the bone has no override and the
    index is outside the mesh's reference pose (an array is read out of range).
    A bone with an override never needs the mesh or a valid index. *)
Theorem GetDetailsViewSourceObject_stops_exactly_when e f :
  GetDetailsViewSourceObject e = Crash f
  <-> exists c i,
        _skeletalMeshPreviewComponent e = Some c
        /\ BonesOfInterest c = [i]
        /\ ((f = NullDereference /\ _detailsViewBone e = None)
            \/ (f = NullDereference /\ is_Some (_detailsViewBone e)
                /\ PreviewInstance c = None)
            \/ (exists inst,
                  is_Some (_detailsViewBone e)
                  /\ PreviewInstance c = Some inst
                  /\ FindModifiedBone inst (GetBoneName c i) = None
                  /\ ((f = NullDereference /\ SkeletalMesh c = None)
                      \/ (f = IndexOutOfRange
                          /\ exists mesh,
                               SkeletalMesh c = Some mesh
                               /\ TArray.get (GetRefBonePose (RefSkeleton mesh)) i
                                  = None)))).
Proof. apply GetDetailsViewSourceObject_stops_exactly_when_holds. Qed.

(** X6. Asking twice is asking once: when [GetDetailsViewSourceObject] has
    returned, calling it again returns the same pointer and changes nothing. *)
Theorem GetDetailsViewSourceObject_idempotent e r e' :
  GetDetailsViewSourceObject e = Ok r e' ->
  GetDetailsViewSourceObject e' = Ok r e'.
Proof. apply GetDetailsViewSourceObject_idempotent_holds. Qed.

(** X13. [SetPreviewSkeletalMesh] returns exactly when there is a current
    pose, a mesh is given, the pose has a skeleton, and either the mesh does not
    fit it or there is a preview component.  It fails a [check] without a pose
    (whatever else holds) or without a mesh, and dereferences a null pointer
    when the pose has no skeleton or when a fitting mesh meets no preview
    component. *)
Theorem SetPreviewSkeletalMesh_returns_exactly_when inPreviewSkeletalMesh e :
  ((exists e', SetPreviewSkeletalMesh inPreviewSkeletalMesh e = Ok tt e')
   <-> exists pose skeleton mesh,
         _currentPose e = Some pose
         /\ inPreviewSkeletalMesh = Some mesh
         /\ GetSkeleton pose = Some skeleton
         /\ (IsCompatibleMesh skeleton mesh = false
             \/ is_Some (_skeletalMeshPreviewComponent e)))
  /\ (_currentPose e = None ->
      SetPreviewSkeletalMesh inPreviewSkeletalMesh e = Crash CheckFailed)
  /\ (is_Some (_currentPose e) -> inPreviewSkeletalMesh = None ->
      SetPreviewSkeletalMesh inPreviewSkeletalMesh e = Crash CheckFailed)
  /\ (forall pose, _currentPose e = Some pose -> is_Some inPreviewSkeletalMesh ->
      GetSkeleton pose = None ->
      SetPreviewSkeletalMesh inPreviewSkeletalMesh e = Crash NullDereference)
  /\ (forall pose skeleton mesh,
        _currentPose e = Some pose -> inPreviewSkeletalMesh = Some mesh ->
        GetSkeleton pose = Some skeleton ->
        IsCompatibleMesh skeleton mesh = true ->
        _skeletalMeshPreviewComponent e = None ->
        SetPreviewSkeletalMesh inPreviewSkeletalMesh e = Crash NullDereference).
Proof. apply SetPreviewSkeletalMesh_returns_exactly_when_holds. Qed.

(** X14. [SetPreviewSkeletalMesh] stays away from the selection panels: when
    it returns, the pose, the bone object, the tree, the viewport widget and the
    details panel are exactly as before, and no pointer was set or cleared. *)
Theorem SetPreviewSkeletalMesh_leaves_panels inPreviewSkeletalMesh e e' :
  SetPreviewSkeletalMesh inPreviewSkeletalMesh e = Ok tt e' ->
  _currentPose e' = _currentPose e
  /\ _detailsViewBone e' = _detailsViewBone e
  /\ _skeletonTree e' = _skeletonTree e
  /\ _viewport e' = _viewport e
  /\ _detailsView e' = _detailsView e
  /\ allocated e' = allocated e.
Proof. apply SetPreviewSkeletalMesh_leaves_panels_holds. Qed.
End InShort.

Section InShortWithLaws.
Context `{Engine} `{!EngineLaws}.

(** X3. Names of bones of the preview mesh survive the round trip through the
    component: after [SetSelectedBoneNames names], [GetSelectedBoneNames]
    returns [names], in the same order and with the same repetitions. *)
Theorem selected_bone_names_round_trip (names out : list FName) e c mesh :
  _skeletalMeshPreviewComponent e = Some c ->
  SkeletalMesh c = Some mesh ->
  Forall (fun n => n ∈ BoneNames mesh) names ->
  exists e',
    SetSelectedBoneNames names e = Ok tt e'
    /\ GetSelectedBoneNames out e' = names.
Proof. apply selected_bone_names_round_trip_holds. Qed.
End InShortWithLaws.

(** ** Opening the editor *)

Lemma decide_skeleton_spec (opens : list PoseEditorTabID) :
  Skeleton ∈ opens <-> decide_skeleton opens = true.
Proof.
  unfold decide_skeleton. rewrite existsb_exists. split.
  - intros Hin. exists Skeleton. split; [by apply list_elem_of_In|reflexivity].
  - intros (id & Hin & Hid). destruct id; try discriminate. by apply list_elem_of_In.
Qed.

Section OpeningTheEditor.
Context `{EngineServices}.

(** The tabs that the host spawns while the asset editor is set up: with the
    viewport and the details panel in place no spawner fails, and nothing but
    the tree is written. *)
Lemma InitAssetEditor_run opens :
  forall h e,
    is_Some (_viewport e) ->
    is_Some (_detailsView e) ->
    exists h' t,
      InitAssetEditor opens h e = Ok h' (set_skeletonTree t e)
      /\ Globals h' = Globals h
      /\ (Skeleton ∈ opens -> t = Some SNew_SSkeletonTree)
      /\ (Skeleton ∉ opens -> t = _skeletonTree e /\ h' = h).
Proof.
  induction opens as [|id rest IH]; intros h e Hv Hd.
  - exists h, (_skeletonTree e). cbn. unfold ret. rewrite set_skeletonTree_same.
    repeat split. intros Hin. by apply elem_of_nil in Hin.
  - cbn [InitAssetEditor]. unfold bind at 1.
    destruct Hv as [v Hv], Hd as [d Hd].
    destruct id; cbn [SpawnTab].
    + unfold OnSpawnSkeletonTab, bind, assign, ret. cbn [snd].
      destruct (IH (BindSP TreeSelectionChanged h)
                  (set_skeletonTree (Some SNew_SSkeletonTree) e))
        as (h' & t & Hrun & Hg & Hin & Hout); [by exists v|by exists d|].
      rewrite Hrun. exists h', t. split; [reflexivity|].
      split; [exact Hg|]. split.
      * intros _. destruct (decide_skeleton rest) eqn:Hdec.
        -- apply Hin. by apply decide_skeleton_spec.
        -- apply Hout. intros Hin'. apply decide_skeleton_spec in Hin'. congruence.
      * intros Hnot. exfalso. apply Hnot. by left.
    + unfold OnSpawnViewportTab, ToSharedRef, bind, this, check, ret. rewrite Hv. cbn [snd].
      destruct (IH h e) as (h' & t & Hrun & Hg & Hin & Hout); [by exists v|by exists d|].
      exists h', t. split; [exact Hrun|]. split; [exact Hg|]. split.
      * intros Hin'. apply Hin. apply elem_of_cons in Hin' as [|]; [discriminate|done].
      * intros Hnot. apply Hout. intros Hin'. apply Hnot. by right.
    + unfold OnSpawnDetailsTab, ToSharedRef, bind, this, check, ret. rewrite Hd. cbn [snd].
      destruct (IH h e) as (h' & t & Hrun & Hg & Hin & Hout); [by exists v|by exists d|].
      exists h', t. split; [exact Hrun|]. split; [exact Hg|]. split.
      * intros Hin'. apply Hin. apply elem_of_cons in Hin' as [|]; [discriminate|done].
      * intros Hnot. apply Hout. intros Hin'. apply Hnot. by right.
Qed.
End OpeningTheEditor.

Section OpeningTheEditorTwice.
Context `{EngineServices}.

(** [InitPoseEditor] refuses to run without a pose, and refuses to open
    an editor a second time: with the preview component already created it
    fails [check(!_skeletalMeshPreviewComponent)], whatever pose is given and
    whatever tabs the host spawns. *)
Lemma InitPoseEditor_rejects_holds opens h e :
  InitPoseEditor opens None h e = Crash CheckFailed
  /\ forall pose,
       is_Some (_skeletalMeshPreviewComponent e) ->
       InitPoseEditor opens (Some pose) h e = Crash CheckFailed.
Proof.
  split; [reflexivity|].
  intros pose [c Hc]. unfold InitPoseEditor. run.
  match goal with |- context [InitAssetEditor opens ?h1 ?e1] =>
    destruct (InitAssetEditor_run opens h1 e1) as (h' & t & Hrun & _);
      [by eexists|by eexists|rewrite Hrun]
  end.
  cbn. by rewrite Hc.
Qed.
End OpeningTheEditorTwice.

Section OpeningTheEditorOnce.
Context `{EngineServices}.

(** The part of [InitPoseEditor] under [if (poseToEdit && poseToEdit->GetSkeleton())]
    (lines 191-204) cannot fail once the pose and the preview component are
    set, and it leaves the panels' pointers as they are. *)
Lemma InitPoseEditor_preview_run pose e :
  _currentPose e = Some pose ->
  is_Some (_skeletalMeshPreviewComponent e) ->
  exists e',
    (match GetSkeleton pose with
     | Some skeleton =>
         let* t := this _skeletonTree in
         (if t is Some tree
          then assign (set_skeletonTree
                         (Some (Populate (GetReferenceSkeleton skeleton) tree)))
          else ret tt) ;;;
         let previewMesh := GetPreviewMesh skeleton true in
         if previewMesh is Some _ then SetPreviewSkeletalMesh previewMesh else ret tt
     | None => ret tt
     end) e = Ok tt e'
    /\ allocated e' = allocated e
    /\ _currentPose e' = _currentPose e
    /\ _detailsViewBone e' = _detailsViewBone e
    /\ _viewport e' = _viewport e
    /\ _detailsView e' = _detailsView e.
Proof.
  intros Hp Hc.
  destruct (GetSkeleton pose) as [skeleton|] eqn:Hs; [|by exists e].
  unfold bind at 1, this at 1. unfold bind at 1.
  set (e1 := match _skeletonTree e with
             | Some tree => set_skeletonTree
                              (Some (Populate (GetReferenceSkeleton skeleton) tree)) e
             | None => e
             end).
  assert (Hpop : (if _skeletonTree e is Some tree
                  then assign (set_skeletonTree
                                 (Some (Populate (GetReferenceSkeleton skeleton) tree)))
                  else ret tt) e = Ok tt e1)
    by (subst e1; by destruct (_skeletonTree e)).
  rewrite Hpop.
  assert (Hsame : allocated e1 = allocated e /\ _currentPose e1 = _currentPose e
                  /\ _detailsViewBone e1 = _detailsViewBone e
                  /\ _viewport e1 = _viewport e /\ _detailsView e1 = _detailsView e
                  /\ _skeletalMeshPreviewComponent e1 = _skeletalMeshPreviewComponent e).
  { subst e1. destruct (_skeletonTree e) eqn:Ht; [|done].
    unfold allocated. cbn. by rewrite Ht. }
  destruct Hsame as (Ha & Hp1 & Hb1 & Hv1 & Hd1 & Hc1).
  cbn zeta. destruct (GetPreviewMesh skeleton true) as [mesh|].
  - destruct (proj2 (proj1 (SetPreviewSkeletalMesh_returns_exactly_when_holds
                              (Some mesh) e1))) as [e' Hrun].
    { exists pose, skeleton, mesh. rewrite Hp1, Hc1. by repeat split; [..|right]. }
    exists e'. split; [exact Hrun|].
    apply SetPreviewSkeletalMesh_leaves_panels_holds in Hrun
      as (Hp2 & Hb2 & _ & Hv2 & Hd2 & Ha2).
    by rewrite Ha2, Hp2, Hb2, Hv2, Hd2.
  - exists e1. by repeat split.
Qed.

(** Opening an editor that has no preview component yet always works,
    whatever pose is given and whatever tabs the host spawns: [InitPoseEditor]
    returns, the pose is the current pose, the preview component, the bone
    object, the viewport and the details panel exist, the viewport client is
    the one the new viewport has, the tree exists if the host spawned the
    skeleton tab, and the editor is registered for undo and both new objects
    are rooted. *)
Lemma InitPoseEditor_opens_the_editor_holds opens pose h e :
  _skeletalMeshPreviewComponent e = None ->
  exists h' e',
    InitPoseEditor opens (Some pose) h e = Ok h' e'
    /\ _currentPose e' = Some pose
    /\ is_Some (_skeletalMeshPreviewComponent e')
    /\ _detailsViewBone e' = Some NewObject_USkellyBone
    /\ _viewport e' = Some SNew_SPoseEditorViewport
    /\ is_Some (_detailsView e')
    /\ present (_viewportClientWeakPtr e')
       = present (GetViewportClient SNew_SPoseEditorViewport)
    /\ (Skeleton ∈ opens -> is_Some (_skeletonTree e'))
    /\ (Skeleton ∉ opens -> present (_skeletonTree e') = present (_skeletonTree e))
    /\ Globals h'
       = AddToRoot DetailsViewBoneRef
           (AddToRoot PreviewComponentRef (RegisterForUndo (Globals h))).
Proof.
  intros Hc. unfold InitPoseEditor. run.
  match goal with |- context [InitAssetEditor opens ?h1 ?e1] =>
    destruct (InitAssetEditor_run opens h1 e1) as (h' & t & Hrun & Hg & Hin & Hout);
      [by eexists|by eexists|rewrite Hrun]
  end.
  cbn. rewrite Hc.
  match goal with |- context [match GetSkeleton pose with _ => _ end ?s] =>
    destruct (InitPoseEditor_preview_run pose s eq_refl) as (e2 & Hpre & Ha & Hp2 & Hb2 & Hv2 & Hd2);
      [by eexists|]
  end.
  unfold bind, this, assign, ret in Hpre. rewrite Hpre.
  injection Ha as _ Hcomp _ Htree _ Hclient _.
  destruct (_skeletalMeshPreviewComponent e2) as [c2|] eqn:Hc2; [|discriminate].
  eexists _, _. split; [reflexivity|]. cbn.
  rewrite Hp2, Hb2, Hv2, Hd2. cbn.
  split; [reflexivity|]. split; [by eexists|]. split; [reflexivity|].
  split; [reflexivity|]. split; [by eexists|]. split; [exact Hclient|].
  split; [|split].
  - intros Hopen. rewrite (Hin Hopen) in Htree.
    destruct (_skeletonTree e2); [by eexists|discriminate].
  - intros Hclosed. destruct (Hout Hclosed) as [-> _]. exact Htree.
  - rewrite Hg. by destruct (GetViewportClient SNew_SPoseEditorViewport).
Qed.
End OpeningTheEditorOnce.

Section OpenedEditor.
Context `{EngineServices}.

#[local] Arguments SetPreviewSkeletalMesh : simpl never.

(** X19. What [InitPoseEditor] previews.  When the pose has a skeleton whose
    preview mesh fits it, the new component gets that mesh (and then
    [EnablePreview]), is added to the preview scene, and the viewport client, if
    there is one, is told about it.  When the pose has no skeleton, or the
    skeleton no preview mesh, or the mesh does not fit, the editor still opens:
    the component is the new one with [EnablePreview] applied, the scene is not
    touched and the client is told nothing. *)
Theorem InitPoseEditor_previews opens pose h e :
  _skeletalMeshPreviewComponent e = None ->
  (forall skeleton mesh,
     GetSkeleton pose = Some skeleton ->
     GetPreviewMesh skeleton true = Some mesh ->
     IsCompatibleMesh skeleton mesh = true ->
     mesh_ptr_neq (Some mesh) (SkeletalMesh NewObject_UDebugSkelMeshComponent) = true ->
     exists h' e',
       InitPoseEditor opens (Some pose) h e = Ok h' e'
       /\ _skeletalMeshPreviewComponent e'
          = Some (EnablePreview true
                    (SetSkeletalMesh mesh NewObject_UDebugSkelMeshComponent))
       /\ _previewScene e'
          = AddComponent PreviewComponentRef FTransform_Identity (_previewScene e)
       /\ _viewportClientWeakPtr e'
          = SetSkeletalMeshPreviewComponent (Some PreviewComponentRef)
              <$> GetViewportClient SNew_SPoseEditorViewport)
  /\ (match GetSkeleton pose with
      | Some skeleton =>
          match GetPreviewMesh skeleton true with
          | Some mesh => IsCompatibleMesh skeleton mesh = false
          | None => True
          end
      | None => True
      end ->
      exists h' e',
        InitPoseEditor opens (Some pose) h e = Ok h' e'
        /\ _skeletalMeshPreviewComponent e'
           = Some (EnablePreview true NewObject_UDebugSkelMeshComponent)
        /\ _previewScene e' = _previewScene e
        /\ _viewportClientWeakPtr e' = GetViewportClient SNew_SPoseEditorViewport).
Proof.
  intros Hc. split.
  - intros skeleton mesh Hs Hm Hfit Hptr. unfold InitPoseEditor. run.
    match goal with |- context [InitAssetEditor opens ?h1 ?e1] =>
      destruct (InitAssetEditor_run opens h1 e1) as (h' & t & Hrun & _);
        [by eexists|by eexists|rewrite Hrun]
    end.
    cbn. rewrite Hc, Hs. cbn. rewrite Hm.
    destruct t as [tree|]; cbn;
      match goal with |- context [SetPreviewSkeletalMesh (Some mesh) ?s] =>
        rewrite (SetPreviewSkeletalMesh_other s pose skeleton mesh
                   NewObject_UDebugSkelMeshComponent) by done
      end;
      by eexists _, _.
  - intros Hno. unfold InitPoseEditor. run.
    match goal with |- context [InitAssetEditor opens ?h1 ?e1] =>
      destruct (InitAssetEditor_run opens h1 e1) as (h' & t & Hrun & _);
        [by eexists|by eexists|rewrite Hrun]
    end.
    cbn. rewrite Hc.
    destruct (GetSkeleton pose) as [skeleton|] eqn:Hs; cbn; [|by eexists _, _].
    destruct (GetPreviewMesh skeleton true) as [mesh|] eqn:Hm.
    + destruct t as [tree|]; cbn;
        match goal with |- context [SetPreviewSkeletalMesh (Some mesh) ?s] =>
          rewrite (SetPreviewSkeletalMesh_incompatible s pose skeleton mesh) by done
        end;
        by eexists _, _.
    + destruct t as [tree|]; cbn; by eexists _, _.
Qed.

(** A use of the controller that returns leaves the objects and the pose. *)
Lemma perform_keeps_objects call e e' :
  perform call e = Ok tt e' ->
  allocated e' = allocated e /\ _currentPose e' = _currentPose e.
Proof.
  destruct (member_functions_keep_the_objects_holds e e')
    as (Hset & Hsrc & Htree & Hview & Hmesh).
  destruct call; cbn [perform]; intros Hrun.
  - split; [by eapply Hset|].
    apply SetSelectedBoneNames_frame in Hrun as [p ->]. reflexivity.
  - unfold bind, ret in Hrun.
    destruct (GetDetailsViewSourceObject e) as [r e1|] eqn:Hget; [|discriminate].
    injection Hrun as <-. split; [by eapply Hsrc|].
    apply GetDetailsViewSourceObject_frame in Hget as [b ->]. reflexivity.
  - split; [by apply Htree|].
    destruct (_skeletonTree e) as [tree|] eqn:Ht.
    2:{ by rewrite SkeletonTree_OnSelectionChanged_no_tree in Hrun. }
    destruct (SetSelectedBoneNames (TreeSelection tree) e) as [[] e1|f] eqn:Hstore.
    + rewrite (SkeletonTree_OnSelectionChanged_run e tree e1 Ht Hstore) in Hrun.
      apply SetSelectedBoneNames_frame in Hstore as [p ->].
      apply refresh_details_frame in Hrun as (b & d & ->).
      by destruct (_viewport (set_skeletalMeshPreviewComponent p e)).
    + unfold SkeletonTree_OnSelectionChanged in Hrun. cbn zeta in Hrun.
      unfold bind at 1, this at 1 in Hrun. rewrite Ht in Hrun.
      unfold bind at 1, deref at 1, ret at 1 in Hrun.
      unfold SSkeletonTree_GetSelectedBoneNames in Hrun.
      unfold bind at 1 in Hrun. by rewrite Hstore in Hrun.
  - split; [by apply Hview|].
    rewrite Viewport_OnSelectionChanged_run in Hrun.
    apply refresh_details_frame in Hrun as (b & d & ->). reflexivity.
  - split; [by eapply Hmesh|].
    by apply SetPreviewSkeletalMesh_leaves_panels_holds in Hrun as (Hp & _).
Qed.

Lemma perform_all_keeps_objects calls :
  forall e e',
    perform_all calls e = Ok tt e' ->
    allocated e' = allocated e /\ _currentPose e' = _currentPose e.
Proof.
  induction calls as [|call rest IH]; intros e e'; cbn [perform_all].
  - by intros [= <-].
  - unfold bind at 1.
    destruct (perform call e) as [[] e1|] eqn:Hfirst; [|discriminate].
    intros Hrest. apply perform_keeps_objects in Hfirst as [Ha Hp].
    apply IH in Hrest as [Ha' Hp']. by rewrite Ha', Hp', Ha, Hp.
Qed.

(** X16. The selection code never creates, frees or clears one of the
    controller's objects: after any sequence of calls of [SetSelectedBoneNames],
    [GetDetailsViewSourceObject], the two handlers and [SetPreviewSkeletalMesh]
    that all return, each of the seven pointers is set exactly if it was set
    before, and the current pose is the same. *)
Theorem objects_outlive_every_use calls e e' :
  perform_all calls e = Ok tt e' ->
  allocated e' = allocated e /\ _currentPose e' = _currentPose e.
Proof. apply perform_all_keeps_objects. Qed.

(** X17. [InitPoseEditor] refuses to run without a pose, and refuses to open
    an editor a second time: with the preview component already created it
    fails [check(!_skeletalMeshPreviewComponent)], whatever pose is given and
    whatever tabs the host spawns. *)
Theorem InitPoseEditor_rejects opens h e :
  InitPoseEditor opens None h e = Crash CheckFailed
  /\ forall pose,
       is_Some (_skeletalMeshPreviewComponent e) ->
       InitPoseEditor opens (Some pose) h e = Crash CheckFailed.
Proof. apply InitPoseEditor_rejects_holds. Qed.

(** X18. Opening an editor that has no preview component yet always works,
    whatever pose is given and whatever tabs the host spawns: [InitPoseEditor]
    returns, the pose is the current pose, the preview component, the bone
    object, the viewport and the details panel exist, the viewport client is
    the one the new viewport has, the tree exists if the host spawned the
    skeleton tab, and the editor is registered for undo and both new objects
    are rooted. *)
Theorem InitPoseEditor_opens_the_editor opens pose h e :
  _skeletalMeshPreviewComponent e = None ->
  exists h' e',
    InitPoseEditor opens (Some pose) h e = Ok h' e'
    /\ _currentPose e' = Some pose
    /\ is_Some (_skeletalMeshPreviewComponent e')
    /\ _detailsViewBone e' = Some NewObject_USkellyBone
    /\ _viewport e' = Some SNew_SPoseEditorViewport
    /\ is_Some (_detailsView e')
    /\ present (_viewportClientWeakPtr e')
       = present (GetViewportClient SNew_SPoseEditorViewport)
    /\ (Skeleton ∈ opens -> is_Some (_skeletonTree e'))
    /\ (Skeleton ∉ opens -> present (_skeletonTree e') = present (_skeletonTree e))
    /\ Globals h'
       = AddToRoot DetailsViewBoneRef
           (AddToRoot PreviewComponentRef (RegisterForUndo (Globals h))).
Proof. apply InitPoseEditor_opens_the_editor_holds. Qed.

Lemma present_is_Some {A} (p : option A) : present p = true <-> is_Some p.
Proof. destruct p; cbn; split; try done; by eexists. Qed.

(** X20. An opened editor stays usable.  After [InitPoseEditor] has returned,
    and after any further calls of the member functions that return, the pose is
    still the one the editor was opened with and the preview component, the
    bone object, the viewport and the details panel still exist, as does the
    tree if the host spawned the skeleton tab.  So the dereferences that the
    code makes without a check find their target: [SetPreviewSkeletalMesh]
    returns for every mesh as soon as the pose has a skeleton. *)
Theorem opened_editor_stays_usable opens pose h e h' e1 calls e2 :
  InitPoseEditor opens (Some pose) h e = Ok h' e1 ->
  perform_all calls e1 = Ok tt e2 ->
  _currentPose e2 = Some pose
  /\ is_Some (_skeletalMeshPreviewComponent e2)
  /\ is_Some (_detailsViewBone e2)
  /\ is_Some (_viewport e2)
  /\ is_Some (_detailsView e2)
  /\ (Skeleton ∈ opens -> is_Some (_skeletonTree e2))
  /\ (is_Some (GetSkeleton pose) ->
      forall mesh, exists e3, SetPreviewSkeletalMesh (Some mesh) e2 = Ok tt e3).
Proof.
  intros Hinit Hcalls.
  destruct (_skeletalMeshPreviewComponent e) as [c|] eqn:Hc.
  { rewrite (proj2 (InitPoseEditor_rejects_holds opens h e) pose) in Hinit;
      [discriminate|by eexists]. }
  destruct (InitPoseEditor_opens_the_editor_holds opens pose h e Hc)
    as (h0 & e0 & Hrun & Hp & Hcomp & Hb & Hv & Hd & _ & Htree & _).
  rewrite Hrun in Hinit. injection Hinit as <- <-.
  apply perform_all_keeps_objects in Hcalls as [Ha Hp2].
  injection Ha as _ Ha_c Ha_b Ha_t Ha_v _ Ha_d.
  assert (Hcomp2 : is_Some (_skeletalMeshPreviewComponent e2)).
  { apply present_is_Some. rewrite Ha_c. by apply present_is_Some. }
  split; [by rewrite Hp2|]. split; [exact Hcomp2|].
  split. { apply present_is_Some. rewrite Ha_b, Hb. reflexivity. }
  split. { apply present_is_Some. rewrite Ha_v, Hv. reflexivity. }
  split. { apply present_is_Some. rewrite Ha_d. by apply present_is_Some. }
  split. { intros Hopen. apply present_is_Some. rewrite Ha_t.
           by apply present_is_Some, Htree. }
  intros [skeleton Hs] mesh.
  apply (proj1 (SetPreviewSkeletalMesh_returns_exactly_when_holds (Some mesh) e2)).
  exists pose, skeleton, mesh. rewrite Hp2, Hp.
  do 3 (split; [done|]).
  destruct (IsCompatibleMesh skeleton mesh); [by right|by left].
Qed.
End OpenedEditor.

(** * The executable engine *)

#[local] Existing Instance Ref.Math.
#[local] Existing Instance Ref.Host.

Lemma FindBoneIndex_found (bones : list FMeshBoneInfo) (n : FName) :
  n ∈ Name <$> bones ->
  exists b, TArray.get bones (Ref.FindBoneIndex bones n) = Some b /\ Name b = n.
Proof.
  intros Hn. apply list_elem_of_fmap in Hn as (y & -> & Hy).
  destruct (list_find_elem_of (fun b => Name b = Name y) bones y Hy eq_refl)
    as [[k b] Hfind].
  unfold Ref.FindBoneIndex. rewrite Hfind.
  apply list_find_Some in Hfind as (Hk & Hb & _).
  exists b. by rewrite TArray_get_of_nat.
Qed.

Lemma FindBoneIndex_missing (bones : list FMeshBoneInfo) (n : FName) :
  n ∉ Name <$> bones ->
  Ref.FindBoneIndex bones n = INDEX_NONE.
Proof.
  intros Hn. unfold Ref.FindBoneIndex.
  destruct (list_find (fun b => Name b = n) bones) as [[k b]|] eqn:Hfind; [|reflexivity].
  apply list_find_Some in Hfind as (Hk & Hb & _).
  exfalso. apply Hn. apply list_elem_of_fmap. exists b. split; [done|].
  by eapply list_elem_of_lookup_2.
Qed.

Lemma TArray_get_is_valid {A} (a : list A) (i : int32) (x : A) :
  TArray.get a i = Some x -> TArray.IsValidIndex a i = true.
Proof.
  unfold TArray.get. by destruct (TArray.IsValidIndex a i).
Qed.

#[local] Instance Host_laws : EngineLaws.
Proof.
  split.
  - reflexivity.
  - intros c m n Hmesh Hn. cbn. unfold Ref.BoneIndex, Ref.BoneNameAt. rewrite Hmesh.
    destruct (FindBoneIndex_found _ _ Hn) as (b & Hget & Hname).
    rewrite Hget. split; [by eapply TArray_get_is_valid | exact Hname].
  - intros c n Hmissing. cbn. unfold Ref.BoneIndex.
    destruct (SkeletalMesh c) as [m|]; [|reflexivity].
    apply FindBoneIndex_missing. by apply Hmissing.
  - intros m c. cbn. unfold Ref.InstallMesh, Ref.ReinitAnim. cbn.
    by destruct (PreviewInstance c).
Qed.

(** * The controller at work in the executable engine *)

(** C1. [GetDetailsViewSourceObject] does not return the bone object for every
    one-entry selection: "Tail" is a bone of the skeleton that the preview mesh
    lacks, selecting it in the tree stores [INDEX_NONE] as the one highlighted
    index, and binding the details panel then stops the editor at
    [GetRefBonePose()[boneIndex]] (line 384). *)
Theorem details_source_stops_on_missing_bone :
  IsCompatibleMesh Ref.Biped Ref.Mannequin = true
  /\ ("Tail"%string ∈ Ref.Biped)
  /\ ("Tail"%string ∉ BoneNames Ref.Mannequin)
  /\ SetSelectedBoneNames ["Tail"%string] Ref.Studio
     = Ok tt (Ref.Highlighting [INDEX_NONE])
  /\ (exists c, _skeletalMeshPreviewComponent (Ref.Highlighting [INDEX_NONE]) = Some c
                /\ length (BonesOfInterest c) = 1%nat)
  /\ GetDetailsViewSourceObject (Ref.Highlighting [INDEX_NONE]) = Crash IndexOutOfRange
  /\ User_SelectInTree ["Tail"%string] Ref.Studio = Crash IndexOutOfRange.
Proof.
  split; [reflexivity|].
  split; [apply list_elem_of_In; cbn; tauto|].
  split; [rewrite list_elem_of_In; cbn; intuition discriminate|].
  split; [reflexivity|].
  split; [eexists; split; reflexivity|].
  split; [|reflexivity].
  by eapply GetDetailsViewSourceObject_INDEX_NONE.
Qed.

Lemma SetPreviewSkeletalMesh_incompatible_witness :
  IsCompatibleMesh Ref.Biped Ref.Crab = false
  /\ SetPreviewSkeletalMesh (Some Ref.Crab) Ref.Studio = Ok tt Ref.Studio.
Proof.
  split; [reflexivity|].
  apply (SetPreviewSkeletalMesh_incompatible
           Ref.Studio Ref.Standing Ref.Biped Ref.Crab);
    reflexivity.
Defined.

Lemma tree_selection_reaches_viewport_and_details_witness :
  exists e' proxy,
    SkeletonTree_OnSelectionChanged (Ref.Selecting ["Spine_02"%string]) = Ok tt e'
    /\ GetSelectedBoneNames [] e' = ["Spine_02"%string]
    /\ BoundObject <$> _detailsView e' = Some (Some DetailsViewBoneRef)
    /\ DetailsTarget e' = Some proxy
    /\ BoneName proxy = "Spine_02"%string
    /\ BoneName proxy
       = GetBoneName
           (set_BonesOfInterest [GetBoneIndex Ref.Preview "Spine_02"%string] Ref.Preview)
           (GetBoneIndex Ref.Preview "Spine_02"%string).
Proof.
  apply (tree_selection_reaches_viewport_and_details
           (Ref.Selecting ["Spine_02"%string])
           {| TreeSelection := ["Spine_02"%string]; TreeNotifications := 1 |}
           Ref.Preview Ref.Mannequin "Spine_02"%string
           {| BoneControllers := [Ref.HeadTilt] |} Ref.Blank {| BoundObject := None |} []);
    try reflexivity.
  apply list_elem_of_In. cbn. tauto.
Defined.

Lemma details_proxy_contents_witness :
  exists e' bone,
    GetDetailsViewSourceObject (Ref.Highlighting [3]) = Ok (Some DetailsViewBoneRef) e'
    /\ _detailsViewBone e' = Some bone
    /\ BoneName bone = "Head"%string
    /\ ParentBoneName bone = "Spine_02"%string
    /\ BoneTransform bone
       = {| FTransform_Rotation := (0, 1, 0, 0);
            FTransform_Translation := (1, 2, 3);
            FTransform_Scale3D := (2, 2, 2) |}.
Proof.
  destruct (details_proxy_contents (Ref.Highlighting [3])
              (set_BonesOfInterest [3] Ref.Preview) 3 eq_refl eq_refl)
    as [Hcarries Hreturns].
  destruct (Hreturns Ref.Blank {| BoneControllers := [Ref.HeadTilt] |} eq_refl eq_refl)
    as [e' Hrun].
  { left. by eexists. }
  destruct (Hcarries _ _ Hrun)
    as (_ & b & inst & bone & _ & Hinst & Hbone & Hname & Hparent & Hxf).
  injection Hinst as <-.
  exists e', bone. repeat split; assumption.
Defined.

Lemma SetSelectedBoneNames_stores_every_index_witness :
  exists e' c',
    SetSelectedBoneNames ["Head"; "Tail"; "Root"]%string Ref.Studio = Ok tt e'
    /\ _skeletalMeshPreviewComponent e' = Some c'
    /\ BonesOfInterest c' = GetBoneIndex Ref.Preview <$> ["Head"; "Tail"; "Root"]%string
    /\ (forall k name, ["Head"; "Tail"; "Root"]%string !! k = Some name ->
          BonesOfInterest c' !! k = Some (GetBoneIndex Ref.Preview name))
    /\ (forall k name, ["Head"; "Tail"; "Root"]%string !! k = Some name ->
          (forall m, SkeletalMesh Ref.Preview = Some m -> name ∉ BoneNames m) ->
          BonesOfInterest c' !! k = Some INDEX_NONE)
    /\ length (BonesOfInterest c') = length ["Head"; "Tail"; "Root"]%string
    /\ length (GetSelectedBoneNames [] e') = length ["Head"; "Tail"; "Root"]%string.
Proof.
  apply (SetSelectedBoneNames_stores_every_index
           ["Head"; "Tail"; "Root"]%string [] Ref.Studio Ref.Preview).
  reflexivity.
Defined.

Lemma SetPreviewSkeletalMesh_compatible_witness :
  exists e' c',
    SetPreviewSkeletalMesh (Some Ref.Torso) Ref.Studio = Ok tt e'
    /\ _skeletalMeshPreviewComponent e' = Some c'
    /\ c' = SetSkeletalMesh Ref.Torso Ref.Preview
    /\ SkeletalMesh c' = Some Ref.Torso
    /\ _previewScene e'
       = AddComponent PreviewComponentRef FTransform_Identity (_previewScene Ref.Studio)
    /\ _viewportClientWeakPtr e'
       = SetSkeletalMeshPreviewComponent (Some PreviewComponentRef)
           <$> _viewportClientWeakPtr Ref.Studio.
Proof.
  apply (proj1 (SetPreviewSkeletalMesh_compatible
                  Ref.Studio Ref.Standing Ref.Biped Ref.Torso
                  Ref.Preview eq_refl eq_refl eq_refl eq_refl)).
  reflexivity.
Defined.

(** C5, as stated, fails for the mesh the component already shows: the call
    returns with the editor as it was, so the component has not been added to
    the preview scene again. *)
Lemma same_mesh_is_not_added_again :
  IsCompatibleMesh Ref.Biped Ref.Mannequin = true
  /\ SetPreviewSkeletalMesh (Some Ref.Mannequin) Ref.Studio = Ok tt Ref.Studio
  /\ ~ (exists e',
          SetPreviewSkeletalMesh (Some Ref.Mannequin) Ref.Studio = Ok tt e'
          /\ _previewScene e'
             = AddComponent PreviewComponentRef FTransform_Identity
                 (_previewScene Ref.Studio)).
Proof.
  assert (Hsame : SetPreviewSkeletalMesh (Some Ref.Mannequin) Ref.Studio
                  = Ok tt Ref.Studio) by reflexivity.
  split; [reflexivity|]. split; [exact Hsame|].
  intros (e' & Hrun & Hscene).
  rewrite Hsame in Hrun. injection Hrun as <-. discriminate Hscene.
Qed.

Lemma viewport_selection_reaches_tree_and_details_witness :
  exists e' obj bone,
    Viewport_OnSelectionChanged (Ref.Highlighting [2]) = Ok tt e'
    /\ e' = set_detailsView
              (Some (IDetailsView_SetObject obj true {| BoundObject := None |}))
              (set_detailsViewBone (Some bone)
                 (set_skeletonTree
                    (Some (SSkeletonTree_SetSelectedBoneNames
                             (GetBoneName (set_BonesOfInterest [2] Ref.Preview) <$> [2])
                             {| TreeSelection := []; TreeNotifications := 0 |}))
                    (Ref.Highlighting [2])))
    /\ _skeletalMeshPreviewComponent e' = Some (set_BonesOfInterest [2] Ref.Preview)
    /\ TreeSelection <$> _skeletonTree e'
       = Some (GetBoneName (set_BonesOfInterest [2] Ref.Preview) <$> [2])
    /\ GetDetailsViewSourceObject
         (set_skeletonTree
            (Some (SSkeletonTree_SetSelectedBoneNames
                     (GetBoneName (set_BonesOfInterest [2] Ref.Preview) <$> [2])
                     {| TreeSelection := []; TreeNotifications := 0 |}))
            (Ref.Highlighting [2]))
       = Ok obj
           (set_detailsViewBone (Some bone)
              (set_skeletonTree
                 (Some (SSkeletonTree_SetSelectedBoneNames
                          (GetBoneName (set_BonesOfInterest [2] Ref.Preview) <$> [2])
                          {| TreeSelection := []; TreeNotifications := 0 |}))
                 (Ref.Highlighting [2])))
    /\ BoundObject <$> _detailsView e' = Some obj
    /\ obj = Some DetailsViewBoneRef
    /\ _detailsViewBone e' = Some bone
    /\ DetailsTarget e' = Some bone
    /\ BoneName bone = GetBoneName (set_BonesOfInterest [2] Ref.Preview) 2
    /\ ParentBoneName bone
       = GetParentBone (set_BonesOfInterest [2] Ref.Preview)
           (GetBoneName (set_BonesOfInterest [2] Ref.Preview) 2)
    /\ TArray.get (GetRefBonePose (RefSkeleton Ref.Mannequin)) 2
       = Some (BoneTransform bone).
Proof.
  apply (viewport_selection_reaches_tree_and_details
           (Ref.Highlighting [2]) (set_BonesOfInterest [2] Ref.Preview)
           {| TreeSelection := []; TreeNotifications := 0 |} {| BoundObject := None |}
           Ref.Mannequin {| BoneControllers := [Ref.HeadTilt] |} Ref.Blank);
    try reflexivity.
  repeat constructor.
Defined.

Lemma guarded_calls_skip_absent_targets_witness :
  SetSelectedBoneNames ["Spine_02"%string] Ref.Bare = Ok tt Ref.Bare
  /\ (exists e1,
        SetSelectedBoneNames ["Spine_02"%string]
          (set_viewport None (Ref.Selecting ["Spine_02"%string]))
        = Ok tt e1
        /\ _viewport e1 = None
        /\ SkeletonTree_OnSelectionChanged
             (set_viewport None (Ref.Selecting ["Spine_02"%string]))
           = refresh_details e1)
  /\ Viewport_OnSelectionChanged (set_skeletonTree None (Ref.Highlighting [2]))
     = refresh_details (set_skeletonTree None (Ref.Highlighting [2]))
  /\ Viewport_OnSelectionChanged (set_detailsView None (Ref.Highlighting [2]))
     = Ok tt (set_skeletonTree
                (SSkeletonTree_SetSelectedBoneNames
                   (GetSelectedBoneNames [] (set_detailsView None (Ref.Highlighting [2])))
                   <$> _skeletonTree (set_detailsView None (Ref.Highlighting [2])))
                (set_detailsView None (Ref.Highlighting [2]))).
Proof.
  split; [|split; [|split]].
  - apply (proj1 guarded_calls_skip_absent_targets). reflexivity.
  - apply (proj1 (proj2 (proj2 (proj2 guarded_calls_skip_absent_targets)))
             (set_viewport None (Ref.Selecting ["Spine_02"%string]))
             {| TreeSelection := ["Spine_02"%string]; TreeNotifications := 1 |});
      reflexivity.
  - apply (proj1 (proj2 (proj2 (proj2 (proj2 (proj2 guarded_calls_skip_absent_targets)))))).
    reflexivity.
  - apply (proj1 (proj2 (proj2 (proj2 (proj2 (proj2 (proj2
             guarded_calls_skip_absent_targets))))))
             (set_detailsView None (Ref.Highlighting [2]))).
    reflexivity.
Defined.

(** C7, as stated, fails: the tree handler uses [_skeletonTree], and
    [SetPreviewSkeletalMesh] uses [_skeletalMeshPreviewComponent], without a
    check; with the target absent they stop the editor instead of doing
    nothing. *)
Lemma unguarded_calls_stop_the_editor :
  _skeletonTree Ref.Bare = None
  /\ SkeletonTree_OnSelectionChanged Ref.Bare = Crash NullDereference
  /\ _skeletalMeshPreviewComponent Ref.Bare = None
  /\ SetPreviewSkeletalMesh (Some Ref.Mannequin) Ref.Bare = Crash NullDereference.
Proof. repeat split. Qed.

Lemma dispatch_emits_nothing_witness :
  Dispatch ViewportSelectionChanged (Ref.Highlighting [2]) = Ok tt Ref.Spine_02_shown
  /\ Emitted Ref.Spine_02_shown = Emitted (Ref.Highlighting [2]).
Proof.
  split; [reflexivity|].
  apply (proj1 (dispatch_emits_nothing ViewportSelectionChanged
                  (Ref.Highlighting [2]) Ref.Spine_02_shown eq_refl)).
Defined.

Lemma Spine_02_converges_witness :
  exists tree_only tree_then_viewport viewport_only proxy,
    User_SelectInTree ["Spine_02"%string] Ref.Studio = Ok tt tree_only
    /\ User_PickInViewport [GetBoneIndex Ref.Preview "Spine_02"%string] tree_only
       = Ok tt tree_then_viewport
    /\ User_PickInViewport [GetBoneIndex Ref.Preview "Spine_02"%string] Ref.Studio
       = Ok tt viewport_only
    /\ selection_state tree_then_viewport = selection_state tree_only
    /\ selection_state viewport_only = selection_state tree_only
    /\ selection_state tree_only
       = {| Highlighted := Some [GetBoneIndex Ref.Preview "Spine_02"%string];
            TreeRows := Some ["Spine_02"%string];
            Bound := Some (Some DetailsViewBoneRef);
            Target := Some proxy |}
    /\ BoneName proxy = "Spine_02"%string.
Proof.
  apply (Spine_02_converges Ref.Studio
           {| TreeSelection := []; TreeNotifications := 0 |}
           Ref.Preview Ref.Mannequin {| BoneControllers := [Ref.HeadTilt] |}
           Ref.Blank {| BoundObject := None |}
           {| ClientPreviewComponent := Some PreviewComponentRef;
              ViewportNotifications := 0 |});
    try reflexivity.
  apply list_elem_of_In. cbn. tauto.
Defined.

(** * Further runs in the executable engine *)

#[local] Existing Instance Desk.Services.

Lemma SetSelectedBoneNames_only_writes_selection_witness :
  exists e' c',
    SetSelectedBoneNames ["Head"; "Tail"]%string Ref.Studio = Ok tt e'
    /\ _skeletalMeshPreviewComponent e' = Some c'
    /\ SkeletalMesh c' = SkeletalMesh Ref.Preview
    /\ PreviewInstance c' = PreviewInstance Ref.Preview
    /\ length (BonesOfInterest c') = length ["Head"; "Tail"]%string
    /\ set_skeletalMeshPreviewComponent (Some Ref.Preview) e' = Ref.Studio.
Proof.
  apply (SetSelectedBoneNames_only_writes_selection
           ["Head"; "Tail"]%string Ref.Studio Ref.Preview).
  reflexivity.
Defined.

Lemma SetSelectedBoneNames_overwrites_witness :
  (SetSelectedBoneNames ["Head"%string] ;;;
   SetSelectedBoneNames ["Root"; "Tail"]%string) Ref.Studio
  = SetSelectedBoneNames ["Root"; "Tail"]%string Ref.Studio.
Proof.
  apply (SetSelectedBoneNames_overwrites ["Head"%string] ["Root"; "Tail"]%string Ref.Studio).
Defined.

Lemma selected_bone_names_round_trip_witness :
  exists e',
    SetSelectedBoneNames ["Head"; "Root"; "Head"]%string Ref.Studio = Ok tt e'
    /\ GetSelectedBoneNames ["Tail"%string] e' = ["Head"; "Root"; "Head"]%string.
Proof.
  apply (selected_bone_names_round_trip
           ["Head"; "Root"; "Head"]%string ["Tail"%string] Ref.Studio
           Ref.Preview Ref.Mannequin); try reflexivity.
  repeat constructor; apply list_elem_of_In; cbn; tauto.
Defined.

Lemma GetSelectedBoneNames_overwrites_out_witness :
  GetSelectedBoneNames ["Tail"%string] (Ref.Highlighting [3; 0; 3])
  = GetSelectedBoneNames [] (Ref.Highlighting [3; 0; 3]).
Proof.
  apply (proj1 (proj2 (GetSelectedBoneNames_overwrites_out
                         ["Tail"%string] (Ref.Highlighting [3; 0; 3])))).
Defined.

Lemma GetDetailsViewSourceObject_stops_exactly_when_witness :
  GetDetailsViewSourceObject (Ref.Highlighting [INDEX_NONE]) = Crash IndexOutOfRange.
Proof.
  apply (proj2 (GetDetailsViewSourceObject_stops_exactly_when
                  (Ref.Highlighting [INDEX_NONE]) IndexOutOfRange)).
  exists (set_BonesOfInterest [INDEX_NONE] Ref.Preview), INDEX_NONE.
  split; [reflexivity|]. split; [reflexivity|].
  right; right. exists {| BoneControllers := [Ref.HeadTilt] |}.
  split; [by eexists|]. split; [reflexivity|]. split; [reflexivity|].
  right. split; [reflexivity|]. by exists Ref.Mannequin.
Defined.

Lemma GetDetailsViewSourceObject_idempotent_witness :
  exists e',
    GetDetailsViewSourceObject (Ref.Highlighting [3]) = Ok (Some DetailsViewBoneRef) e'
    /\ GetDetailsViewSourceObject e' = Ok (Some DetailsViewBoneRef) e'.
Proof.
  eexists. split; [vm_compute; reflexivity|].
  apply (GetDetailsViewSourceObject_idempotent (Ref.Highlighting [3])).
  reflexivity.
Defined.

Lemma details_panel_sees_the_shared_bone_object_witness :
  exists e',
    GetDetailsViewSourceObject (highlighting [3] Ref.Preview Ref.Spine_02_shown)
    = Ok (Some DetailsViewBoneRef) e'
    /\ DetailsTarget (highlighting [3] Ref.Preview Ref.Spine_02_shown)
       = Some {| BoneName := "Spine_02"; ParentBoneName := "Spine_01";
                 BoneTransform := Ref.raised 120 |}
    /\ _detailsView e' = _detailsView (highlighting [3] Ref.Preview Ref.Spine_02_shown)
    /\ exists bone,
         DetailsTarget e' = Some bone
         /\ BoneName bone = "Head"%string
         /\ ParentBoneName bone = "Spine_02"%string.
Proof.
  eexists. split; [vm_compute; reflexivity|]. split; [reflexivity|].
  apply (details_panel_sees_the_shared_bone_object
           (highlighting [3] Ref.Preview Ref.Spine_02_shown)
           (set_BonesOfInterest [3] Ref.Preview) 3); reflexivity.
Defined.

Lemma Viewport_OnSelectionChanged_idempotent_witness :
  Viewport_OnSelectionChanged (Ref.Highlighting [2]) = Ok tt Ref.Spine_02_shown
  /\ Viewport_OnSelectionChanged Ref.Spine_02_shown = Ok tt Ref.Spine_02_shown.
Proof.
  split; [reflexivity|].
  apply (Viewport_OnSelectionChanged_idempotent (Ref.Highlighting [2])).
  reflexivity.
Defined.

Lemma Viewport_OnSelectionChanged_stops_only_on_one_bone_witness :
  Viewport_OnSelectionChanged (Ref.Highlighting [INDEX_NONE]) = Crash IndexOutOfRange
  /\ is_Some (_detailsView (Ref.Highlighting [INDEX_NONE]))
  /\ exists c i,
       _skeletalMeshPreviewComponent (Ref.Highlighting [INDEX_NONE]) = Some c
       /\ BonesOfInterest c = [i].
Proof.
  split; [reflexivity|].
  apply (Viewport_OnSelectionChanged_stops_only_on_one_bone
           (Ref.Highlighting [INDEX_NONE]) IndexOutOfRange).
  reflexivity.
Defined.

Lemma SkeletonTree_OnSelectionChanged_stops_only_on_one_row_witness :
  exists e',
    SkeletonTree_OnSelectionChanged (Ref.Selecting ["Head"; "Tail"]%string) = Ok tt e'
    /\ length <$> (BonesOfInterest <$> _skeletalMeshPreviewComponent e') = Some 2%nat
    /\ _viewport e' = Some 1%nat
    /\ BoundObject <$> _detailsView e' = Some None
    /\ _detailsViewBone e' = Some Ref.Blank.
Proof.
  apply (proj2 (SkeletonTree_OnSelectionChanged_stops_only_on_one_row
                  (Ref.Selecting ["Head"; "Tail"]%string))
           {| TreeSelection := ["Head"; "Tail"]%string; TreeNotifications := 1 |}).
  - reflexivity.
  - cbn. lia.
Defined.

Lemma tree_multi_selection_reaches_viewport_witness :
  exists e',
    SkeletonTree_OnSelectionChanged (Ref.Selecting ["Head"; "Root"]%string) = Ok tt e'
    /\ GetSelectedBoneNames [] e' = ["Head"; "Root"]%string
    /\ BoundObject <$> _detailsView e' = Some None
    /\ DetailsTarget e' = None.
Proof.
  apply (tree_multi_selection_reaches_viewport
           (Ref.Selecting ["Head"; "Root"]%string)
           {| TreeSelection := ["Head"; "Root"]%string; TreeNotifications := 1 |}
           Ref.Preview Ref.Mannequin {| BoundObject := None |} []); try reflexivity.
  - cbn. lia.
  - repeat constructor; apply list_elem_of_In; cbn; tauto.
Defined.

Lemma viewport_echo_changes_nothing_witness :
  exists e',
    SkeletonTree_OnSelectionChanged (Ref.Selecting ["Spine_02"%string]) = Ok tt e'
    /\ Viewport_OnSelectionChanged e' = Ok tt e'.
Proof.
  eexists. split; [vm_compute; reflexivity|].
  apply (viewport_echo_changes_nothing
           (Ref.Selecting ["Spine_02"%string])
           {| TreeSelection := ["Spine_02"%string]; TreeNotifications := 1 |}
           Ref.Preview Ref.Mannequin); try reflexivity.
  repeat constructor; apply list_elem_of_In; cbn; tauto.
Defined.

Lemma SetPreviewSkeletalMesh_returns_exactly_when_witness :
  (exists e', SetPreviewSkeletalMesh (Some Ref.Torso) Ref.Studio = Ok tt e')
  /\ SetPreviewSkeletalMesh (Some Ref.Torso) Desk.Closed = Crash CheckFailed
  /\ SetPreviewSkeletalMesh (Some Ref.Torso) Ref.Bare = Crash NullDereference.
Proof.
  split; [|split].
  - apply (proj2 (proj1 (SetPreviewSkeletalMesh_returns_exactly_when
                           (Some Ref.Torso) Ref.Studio))).
    exists Ref.Standing, Ref.Biped, Ref.Torso.
    do 3 (split; [reflexivity|]). right. by eexists.
  - apply (proj1 (proj2 (SetPreviewSkeletalMesh_returns_exactly_when
                           (Some Ref.Torso) Desk.Closed))).
    reflexivity.
  - apply (proj2 (proj2 (proj2 (proj2 (SetPreviewSkeletalMesh_returns_exactly_when
                                         (Some Ref.Torso) Ref.Bare))))
             Ref.Standing Ref.Biped Ref.Torso); reflexivity.
Defined.

Lemma SetPreviewSkeletalMesh_leaves_panels_witness :
  exists e',
    SetPreviewSkeletalMesh (Some Ref.Torso) Ref.Studio = Ok tt e'
    /\ _currentPose e' = _currentPose Ref.Studio
    /\ _detailsViewBone e' = _detailsViewBone Ref.Studio
    /\ _skeletonTree e' = _skeletonTree Ref.Studio
    /\ _viewport e' = _viewport Ref.Studio
    /\ _detailsView e' = _detailsView Ref.Studio
    /\ allocated e' = allocated Ref.Studio.
Proof.
  eexists. split; [vm_compute; reflexivity|].
  apply (SetPreviewSkeletalMesh_leaves_panels (Some Ref.Torso) Ref.Studio).
  reflexivity.
Defined.

Lemma SetPreviewSkeletalMesh_twice_witness :
  exists e1 e2,
    SetPreviewSkeletalMesh (Some Ref.Torso) Ref.Unaware = Ok tt e1
    /\ e1 = set_viewportClient
              (SetSkeletalMeshPreviewComponent (Some PreviewComponentRef)
                 <$> _viewportClientWeakPtr Ref.Unaware)
              (set_previewScene
                 (AddComponent PreviewComponentRef FTransform_Identity (_previewScene Ref.Unaware))
                 (set_skeletalMeshPreviewComponent
                    (Some (SetSkeletalMesh Ref.Torso Ref.Preview)) Ref.Unaware))
    /\ _skeletalMeshPreviewComponent e1 = Some (SetSkeletalMesh Ref.Torso Ref.Preview)
    /\ _previewScene e1
       = AddComponent PreviewComponentRef FTransform_Identity (_previewScene Ref.Unaware)
    /\ _viewportClientWeakPtr e1
       = SetSkeletalMeshPreviewComponent (Some PreviewComponentRef)
           <$> _viewportClientWeakPtr Ref.Unaware
    /\ SetPreviewSkeletalMesh (Some Ref.Torso) e1 = Ok tt e2
    /\ e2 = set_skeletalMeshPreviewComponent
              (Some (InitAnim true (SetSkeletalMesh Ref.Torso Ref.Preview))) e1
    /\ _previewScene e2 = _previewScene e1
    /\ _viewportClientWeakPtr e2 = _viewportClientWeakPtr e1
    /\ _skeletalMeshPreviewComponent e2
       = Some (InitAnim true (SetSkeletalMesh Ref.Torso Ref.Preview)).
Proof.
  apply (SetPreviewSkeletalMesh_twice Ref.Unaware Ref.Standing Ref.Biped Ref.Torso Ref.Preview);
    reflexivity.
Defined.

Lemma objects_outlive_every_use_witness :
  exists e',
    perform_all [CallSetPreviewSkeletalMesh (Some Ref.Torso);
                 CallSetSelectedBoneNames ["Spine_01"%string];
                 CallViewport_OnSelectionChanged;
                 CallGetDetailsViewSourceObject;
                 CallSkeletonTree_OnSelectionChanged] Ref.Studio = Ok tt e'
    /\ allocated e' = allocated Ref.Studio
    /\ _currentPose e' = _currentPose Ref.Studio.
Proof.
  eexists. split; [vm_compute; reflexivity|].
  apply (objects_outlive_every_use
           [CallSetPreviewSkeletalMesh (Some Ref.Torso);
            CallSetSelectedBoneNames ["Spine_01"%string];
            CallViewport_OnSelectionChanged;
            CallGetDetailsViewSourceObject;
            CallSkeletonTree_OnSelectionChanged] Ref.Studio).
  reflexivity.
Defined.

Lemma InitPoseEditor_rejects_witness :
  InitPoseEditor [Skeleton; Viewport; Details] (Some Ref.Standing) Desk.Idle Ref.Studio
  = Crash CheckFailed.
Proof.
  apply (proj2 (InitPoseEditor_rejects [Skeleton; Viewport; Details] Desk.Idle Ref.Studio)).
  by eexists.
Defined.

Lemma InitPoseEditor_opens_the_editor_witness :
  exists h' e',
    InitPoseEditor [Viewport; Details] (Some Desk.Sketch) Desk.Idle Desk.Closed = Ok h' e'
    /\ _currentPose e' = Some Desk.Sketch
    /\ is_Some (_skeletalMeshPreviewComponent e')
    /\ _detailsViewBone e' = Some NewObject_USkellyBone
    /\ _viewport e' = Some SNew_SPoseEditorViewport
    /\ is_Some (_detailsView e')
    /\ present (_viewportClientWeakPtr e')
       = present (GetViewportClient SNew_SPoseEditorViewport)
    /\ (Skeleton ∈ [Viewport; Details] -> is_Some (_skeletonTree e'))
    /\ (Skeleton ∉ [Viewport; Details] ->
        present (_skeletonTree e') = present (_skeletonTree Desk.Closed))
    /\ Globals h'
       = AddToRoot DetailsViewBoneRef
           (AddToRoot PreviewComponentRef (RegisterForUndo (Globals Desk.Idle))).
Proof.
  apply (InitPoseEditor_opens_the_editor [Viewport; Details] Desk.Sketch Desk.Idle
           Desk.Closed).
  reflexivity.
Defined.

Lemma InitPoseEditor_previews_witness :
  exists h' e',
    InitPoseEditor [Skeleton; Viewport; Details] (Some Ref.Standing) Desk.Idle Desk.Closed
    = Ok h' e'
    /\ _skeletalMeshPreviewComponent e'
       = Some (EnablePreview true
                 (SetSkeletalMesh Ref.Mannequin NewObject_UDebugSkelMeshComponent))
    /\ _previewScene e'
       = AddComponent PreviewComponentRef FTransform_Identity (_previewScene Desk.Closed)
    /\ _viewportClientWeakPtr e'
       = SetSkeletalMeshPreviewComponent (Some PreviewComponentRef)
           <$> GetViewportClient SNew_SPoseEditorViewport.
Proof.
  apply (proj1 (InitPoseEditor_previews [Skeleton; Viewport; Details] Ref.Standing
                  Desk.Idle Desk.Closed eq_refl) Ref.Biped Ref.Mannequin);
    reflexivity.
Defined.

Lemma opened_editor_stays_usable_witness :
  exists h' e1 e2,
    InitPoseEditor [Skeleton; Viewport; Details] (Some Ref.Standing) Desk.Idle Desk.Closed
    = Ok h' e1
    /\ perform_all [CallSetSelectedBoneNames ["Head"; "Root"]%string;
                    CallViewport_OnSelectionChanged] e1 = Ok tt e2
    /\ _currentPose e2 = Some Ref.Standing
    /\ is_Some (_skeletalMeshPreviewComponent e2)
    /\ is_Some (_detailsViewBone e2)
    /\ is_Some (_viewport e2)
    /\ is_Some (_detailsView e2)
    /\ (Skeleton ∈ [Skeleton; Viewport; Details] -> is_Some (_skeletonTree e2))
    /\ (is_Some (GetSkeleton Ref.Standing) ->
        forall mesh, exists e3, SetPreviewSkeletalMesh (Some mesh) e2 = Ok tt e3).
Proof.
  eexists _, _, _. split; [vm_compute; reflexivity|]. split; [vm_compute; reflexivity|].
  eapply (opened_editor_stays_usable [Skeleton; Viewport; Details] Ref.Standing
            Desk.Idle Desk.Closed _ _
            [CallSetSelectedBoneNames ["Head"; "Root"]%string;
             CallViewport_OnSelectionChanged]); vm_compute; reflexivity.
Defined.
